(** * Virtual Classroom: assignment and submission workflows

    A shallow embedding of the service and DAO layers of the Virtual
    Classroom back end (services/AssignmentService.js,
    services/SubmissionsService.js, services/NotificationService.js,
    dao/AssignmentDAO.js, dao/SubmissionsDAO.js, dao/UserDAO.js,
    utils/DatabaseTransaction.js) over a model of the tables declared in
    database/setup.sql, the S3 bucket and the mail transport.

    Asynchronous functions are embedded as computations in a state and
    exception monad over [World]; every outcome that the JavaScript code
    cannot control (S3 and SMTP failures, database faults, the clock and
    the generated uuid) is read from an [Env] supplied per call. Of the
    console output only [console.error] is kept, as an event of the
    trace. *)

From Stdlib Require Import ZArith List Ascii String Bool Lia.
Import ListNotations.

Open Scope string_scope.
Open Scope list_scope.
Open Scope Z_scope.

Set Implicit Arguments.

(** ** Constants *)

(** Modelled from the spec: constants/Roles.js is not among the sources.
    The spec fixes two roles, TUTOR and STUDENT; the numeric ids are the
    serial ids that database/setup.sql gives to 'Tutor' and 'Student' in
    tbls_user_roles. *)
Module Roles.
Definition TUTOR : Z := 1.
Definition STUDENT : Z := 2.
End Roles.

(** Modelled from the spec: constants/SubmissionStatus.js is not among the
    sources. The spec fixes two statuses, PENDING and SUBMITTED; the ids
    are the serial ids that database/setup.sql gives to 'Submitted' and
    'Pending' in tbls_submission_status. *)
Module SubmissionStatus.
Definition SUBMITTED : Z := 1.
Definition PENDING : Z := 2.
End SubmissionStatus.

(** ** Rows of database/setup.sql

    One record per table, with the columns the DDL declares. Timestamps
    are instants in microseconds (the resolution of a PostgreSQL
    TIMESTAMP); a nullable column is an [option]. The two static tables
    (roles, statuses) are the constants above. *)

Definition Timestamp := Z.

Module User.
Record t := mk
  { id : Z; username : string; email : string; roleId : Z; createdAt : Z }.
End User.

Module Assignment.
Record t := mk
  { id : Z;
    tutorId : Z;
    title : string;
    description : option string;
    publishedAt : Timestamp;
    deadline : Timestamp;
    s3Url : option string;
    createdAt : Z;
    updatedAt : Z }.
End Assignment.

Module StudentAssignment.
Record t := mk
  { id : Z; assignmentId : Z; studentId : Z; statusId : Z }.
End StudentAssignment.

Module Submission.
Record t := mk
  { id : Z;
    assignmentId : Z;
    studentId : Z;
    s3Url : string;
    submittedAt : Timestamp }.
End Submission.

Record Tables := mkTables
  { tblm_users : list User.t;
    tblm_assignments : list Assignment.t;
    tblt_student_assignments : list StudentAssignment.t;
    tblm_submissions : list Submission.t }.

(** The SERIAL columns draw from sequences; a sequence is not part of any
    transaction (a value drawn inside a rolled back transaction is lost). *)
Record Sequences := mkSequences
  { tblm_assignments_id_seq : Z;
    tblt_student_assignments_id_seq : Z;
    tblm_submissions_id_seq : Z }.

(** ** Errors

    [HttpError] is [new Error(message)] with its [status] field set by the
    service; [PlainError] is [new Error(message)] with no status;
    [TypeError] is the JavaScript runtime error raised on a property read
    of [undefined]; [PgError] is the error node-postgres raises for a
    failed query, with its SQLSTATE code; [S3ServiceException] is a failed
    [S3.send] and [SMTPError] a failed [transporter.sendMail]. *)
Inductive Error :=
| HttpError (status : Z) (message : string)
| PlainError (message : string)
| TypeError (message : string)
| PgError (code : string)
| S3ServiceException
| SMTPError.

Definition unique_violation := "23505".
Definition foreign_key_violation := "23503".
Definition not_null_violation := "23502".
Definition string_data_right_truncation := "22001".
Definition connection_failure := "08006".
Definition numeric_value_out_of_range := "22003".
Definition character_not_in_repertoire := "22021".
Definition syntax_error := "42601".

Inductive Result (A : Type) :=
| Ok (a : A)
| Err (e : Error).
Arguments Ok {A} a.
Arguments Err {A} e.

(** The error kinds of the specification, read off an [Error]: Forbidden
    and NotFound are the statuses 403 and 404 set by the services, Conflict
    is the violation of a UNIQUE constraint, InvalidInput is the plain
    error of a request with nothing to do. *)
Definition isForbidden (e : Error) : bool :=
  match e with HttpError 403 _ => true | _ => false end.



Definition isInvalidInput (e : Error) : bool :=
  match e with PlainError _ => true | _ => false end.

(** ** The world outside the process *)

Module File.
(** A multer upload: [req.file]. *)
Record t := mk { originalname : string; buffer : string; mimetype : string }.
End File.

Module S3Object.
Record t := mk { Key : string; Body : string; ContentType : string }.
End S3Object.

Module MailOptions.
Record t := mk { from : string; to : string; subject : string; text : string }.
End MailOptions.

Inductive Event :=
| S3Put (key : string)
| S3Delete (key : string)
| SendMail (m : MailOptions.t)
| ConsoleError (message : string).

(** The statements a service sends over a transaction client, used to
    name the place of a database fault. *)
Inductive DbStep :=
| StBegin
| StInsertAssignment
| StInsertStudentAssignments
| StInsertSubmission
| StUpdateStatus
| StCommit.

Record Env := mkEnv
  { now : Timestamp;
    uuidv4 : string;
    AWS_S3_BUCKET_NAME : string;
    AWS_REGION : string;
    EMAIL_USER : string;
    showDate : Timestamp -> string;
    s3_fails : bool;
    db_fails : DbStep -> bool;
    mail_fails : nat -> bool }.

(** [committed] is what every connection of the pool reads; [txn] is the
    working copy of the transaction open on the client handed out by
    [beginTransaction], if any. *)
Record World := mkWorld
  { committed : Tables;
    txn : option Tables;
    seqs : Sequences;
    bucket : list S3Object.t;
    trace : list Event }.

(** ** The monad of asynchronous computations *)

Definition M (A : Type) := World -> Result A * World.

Definition ret {A} (a : A) : M A := fun w => (Ok a, w).

Definition throw {A} (e : Error) : M A := fun w => (Err e, w).

Definition bind {A B} (m : M A) (k : A -> M B) : M B :=
  fun w =>
    match m w with
    | (Ok a, w') => k a w'
    | (Err e, w') => (Err e, w')
    end.

(** [try { body } catch (error) { handler error }] *)
Definition try_catch {A} (body : M A) (handler : Error -> M A) : M A :=
  fun w =>
    match body w with
    | (Ok a, w') => (Ok a, w')
    | (Err e, w') => handler e w'
    end.

Declare Scope async_scope.
Delimit Scope async_scope with async.
Notation "x <- m ;; k" := (bind m (fun x => k))
  (at level 61, m at next level, right associativity) : async_scope.
Notation "m ;;; k" := (bind m (fun _ => k))
  (at level 61, right associativity) : async_scope.
Open Scope async_scope.

(** The double quote character, for use inside a message. *)
Definition dquote : string := String (ascii_of_nat 34) EmptyString.

Definition emit (ev : Event) : M unit :=
  fun w =>
    (Ok tt,
     mkWorld (committed w) (txn w) (seqs w) (bucket w) (trace w ++ [ev])).

Definition console_error (message : string) : M unit :=
  emit (ConsoleError message).

(** ** The relational engine

    A connection is either the shared [pool] (every statement commits on
    its own) or the [client] handed out by [beginTransaction]. *)

Inductive Conn := pool | client.

Definition visible (c : Conn) (w : World) : Tables :=
  match c, txn w with
  | client, Some t => t
  | _, _ => committed w
  end.

Definition store (c : Conn) (t : Tables) (sq : Sequences) (w : World) : World :=
  match c, txn w with
  | client, Some _ => mkWorld (committed w) (Some t) sq (bucket w) (trace w)
  | _, _ => mkWorld t (txn w) sq (bucket w) (trace w)
  end.

(** One SQL statement: it reads the tables its connection sees, draws from
    the sequences, and either yields a result with the new tables or fails
    as a whole. *)
Definition Stmt (A : Type) := Sequences -> Tables -> Result (A * Tables) * Sequences.

Definition query {A} (c : Conn) (s : Stmt A) : M A :=
  fun w =>
    match s (seqs w) (visible c w) with
    | (Ok (a, t'), sq) => (Ok a, store c t' sq w)
    | (Err e, sq) =>
        (Err e, mkWorld (committed w) (txn w) sq (bucket w) (trace w))
    end.

(** A statement sent over the transaction client at step [st]; the
    environment may make it fail before it reaches the engine. *)
Definition client_query {A} (env : Env) (st : DbStep) (c : Conn) (s : Stmt A) : M A :=
  if db_fails env st then throw (PgError connection_failure) else query c s.

Definition has_user (t : Tables) (uid : Z) : bool :=
  existsb (fun u => User.id u =? uid) (tblm_users t).

Definition has_assignment (t : Tables) (aid : Z) : bool :=
  existsb (fun a => Assignment.id a =? aid) (tblm_assignments t).

Definition sa_matches (aid sid : Z) (sa : StudentAssignment.t) : bool :=
  (StudentAssignment.assignmentId sa =? aid) && (StudentAssignment.studentId sa =? sid).

Definition sub_matches (aid sid : Z) (s : Submission.t) : bool :=
  (Submission.assignmentId s =? aid) && (Submission.studentId s =? sid).

(** utils/DatabaseTransaction.js *)
Module DatabaseTransaction.

Definition beginTransaction (env : Env) : M Conn :=
  if db_fails env StBegin then throw (PgError connection_failure)
  else fun w =>
    (Ok client,
     mkWorld (committed w) (Some (committed w)) (seqs w) (bucket w) (trace w)).

Definition commitTransaction (env : Env) (c : Conn) : M unit :=
  if db_fails env StCommit then throw (PgError connection_failure)
  else fun w =>
    (Ok tt, mkWorld (visible c w) None (seqs w) (bucket w) (trace w)).

(** ROLLBACK discards the working copy. A ROLLBACK that itself fails
    leaves the transaction uncommitted all the same, so no fault is
    attached to it. *)
Definition rollbackTransaction (c : Conn) : M unit :=
  fun w =>
    (Ok tt, mkWorld (committed w) None (seqs w) (bucket w) (trace w)).

End DatabaseTransaction.

(** dao/UserDAO.js *)
Module UserDAO.

Definition select_user_by_username (name : string) : Stmt (list User.t) :=
  fun sq t =>
    (Ok (filter (fun u => String.eqb (User.username u) name) (tblm_users t), t), sq).

Definition getUserByUsername (name : string) : M User.t :=
  try_catch
    (rows <- query pool (select_user_by_username name) ;;
     match rows with
     | [] => throw (PlainError ("User with username " ++ dquote ++ name ++ dquote ++ " not found"))
     | user :: _ => ret user
     end)
    (fun error =>
       console_error
         ("Error fetching user for username " ++ dquote ++ name ++ dquote ++ ":") ;;;
       throw error).

End UserDAO.

(** services/UserService.js *)
Module UserService.

Definition getUserByUsername (name : string) : M User.t :=
  try_catch
    (UserDAO.getUserByUsername name)
    (fun error =>
       console_error
         ("Error in UserService while fetching user ID for username "
          ++ dquote ++ name ++ dquote ++ ":") ;;;
       throw error).

End UserService.

(** ** Requests *)

Module Js.
(** A property of a request object: missing, [null], or a value. *)
Inductive t (A : Type) :=
| undefined
| null
| value (a : A).
Arguments undefined {A}.
Arguments null {A}.
Arguments value {A} a.
End Js.

(** models/CreateAssignmentRequest.js: an instance of the class, that is,
    a request whose title, due date and file passed the constructor.

    The property [studentIds] reaches the service as the constructor left
    it: [None] is the empty array that [studentIds || []] puts in place of
    a missing or empty property; [Some ids] is the text of the form field,
    which is parsed only later, in the DAO, where [JSON.parse] and
    [map(Number)] read it as the array [ids]. *)
Module CreateAssignmentRequest.
Record t := mk
  { title : string;
    description : option string;
    publishedAt : Timestamp;
    dueDate : Timestamp;
    file : File.t;
    studentIdsProperty : option (list Z);
    username : string }.

(** The student ids that the request lists. *)
Definition studentIds (r : t) : list Z :=
  match studentIdsProperty r with
  | Some ids => ids
  | None => []
  end.
End CreateAssignmentRequest.

(** The [updateData] object the controller builds for a PATCH. *)
Module UpdateData.
Record t := mk
  { title : Js.t string;
    description : Js.t string;
    dueDate : Js.t Timestamp;
    publishedAt : Js.t Timestamp;
    fileUrl : Js.t string;
    file : option File.t;
    username : string }.
End UpdateData.

Module Filters.
Record t := mk { publishedAt : option string; status : option string }.
End Filters.

Module SubmissionData.
Record t := mk
  { assignmentId : Z; studentUsername : string; file : option File.t }.
End SubmissionData.

(** ** SQL statements over [Tables] *)

Inductive Column :=
| col_title
| col_description
| col_deadline
| col_published_at
| col_s3_url.

Inductive SqlValue :=
| SqlNull
| SqlText (s : string)
| SqlTimestamp (z : Timestamp).

Definition sql_text (v : Js.t string) : SqlValue :=
  match v with Js.value s => SqlText s | _ => SqlNull end.

Definition sql_timestamp (v : Js.t Timestamp) : SqlValue :=
  match v with Js.value z => SqlTimestamp z | _ => SqlNull end.

Definition is_defined {A} (v : Js.t A) : bool :=
  match v with Js.undefined => false | _ => true end.

Definition datatype_mismatch := "42804".

(** [SET col = v] on one row of tblm_assignments, with the column's type
    and its NOT NULL and length constraints. *)
Definition set_column (col : Column) (v : SqlValue) (a : Assignment.t)
  : Result Assignment.t :=
  let '(Assignment.mk id tutor title description published deadline url created updated) := a in
  match col, v with
  | col_title, SqlText s =>
      if (255 <? Z.of_nat (String.length s))
      then Err (PgError string_data_right_truncation)
      else Ok (Assignment.mk id tutor s description published deadline url created updated)
  | col_title, SqlNull => Err (PgError not_null_violation)
  | col_description, SqlText s =>
      Ok (Assignment.mk id tutor title (Some s) published deadline url created updated)
  | col_description, SqlNull =>
      Ok (Assignment.mk id tutor title None published deadline url created updated)
  | col_deadline, SqlTimestamp z =>
      Ok (Assignment.mk id tutor title description published z url created updated)
  | col_deadline, SqlNull => Err (PgError not_null_violation)
  | col_published_at, SqlTimestamp z =>
      Ok (Assignment.mk id tutor title description z deadline url created updated)
  | col_published_at, SqlNull => Err (PgError not_null_violation)
  | col_s3_url, SqlText s =>
      Ok (Assignment.mk id tutor title description published deadline (Some s) created updated)
  | col_s3_url, SqlNull =>
      Ok (Assignment.mk id tutor title description published deadline None created updated)
  | _, _ => Err (PgError datatype_mismatch)
  end.

Fixpoint set_columns (sets : list (Column * SqlValue)) (a : Assignment.t)
  : Result Assignment.t :=
  match sets with
  | [] => Ok a
  | (col, v) :: rest =>
      match set_column col v a with
      | Ok a' => set_columns rest a'
      | Err e => Err e
      end
  end.

(** [UPDATE tblm_assignments SET sets WHERE id = aid]: the new table and
    the updated rows, or the first constraint that fails. *)
Fixpoint update_rows (sets : list (Column * SqlValue)) (aid : Z)
  (rows : list Assignment.t) : Result (list Assignment.t * list Assignment.t) :=
  match rows with
  | [] => Ok ([], [])
  | a :: rest =>
      match update_rows sets aid rest with
      | Err e => Err e
      | Ok (rest', hit) =>
          if Assignment.id a =? aid
          then match set_columns sets a with
               | Ok a' => Ok (a' :: rest', a' :: hit)
               | Err e => Err e
               end
          else Ok (a :: rest', hit)
      end
  end.

Definition with_assignments (t : Tables) (l : list Assignment.t) : Tables :=
  mkTables (tblm_users t) l (tblt_student_assignments t) (tblm_submissions t).

Definition with_student_assignments (t : Tables) (l : list StudentAssignment.t) : Tables :=
  mkTables (tblm_users t) (tblm_assignments t) l (tblm_submissions t).

Definition with_submissions (t : Tables) (l : list Submission.t) : Tables :=
  mkTables (tblm_users t) (tblm_assignments t) (tblt_student_assignments t) l.

(** [(extract(epoch from now()) * 1000)::BIGINT], the default of the
    columns created_at and updated_at: the microseconds of [now] in
    milliseconds, rounded to the nearest integer by the cast (a half away
    from zero, as the cast of a numeric does). *)
Definition epoch_millis (env : Env) : Z :=
  if 0 <=? now env
  then (now env + 500) / 1000
  else - ((- now env + 500) / 1000).

(** The text holds the character of code zero, which no text column of
    PostgreSQL takes. *)
Fixpoint has_nul (s : string) : bool :=
  match s with
  | EmptyString => false
  | String c rest => Ascii.eqb c zero || has_nul rest
  end.

Definition opt_has_nul (s : option string) : bool :=
  match s with
  | Some x => has_nul x
  | None => false
  end.

Definition sql_insert_assignment (env : Env) (tutor : Z) (title : string)
  (description : option string) (published deadline : Timestamp)
  (url : option string) : Stmt Assignment.t :=
  fun sq t =>
    let id := tblm_assignments_id_seq sq in
    let sq' := mkSequences (id + 1) (tblt_student_assignments_id_seq sq)
                 (tblm_submissions_id_seq sq) in
    let row := Assignment.mk id tutor title description published deadline url
                 (epoch_millis env) (epoch_millis env) in
    if has_nul title || opt_has_nul description || opt_has_nul url
    then (Err (PgError character_not_in_repertoire), sq)
    else if 255 <? Z.of_nat (String.length title)
    then (Err (PgError string_data_right_truncation), sq')
    else if has_assignment t id
    then (Err (PgError unique_violation), sq')
    else if negb (has_user t tutor)
    then (Err (PgError foreign_key_violation), sq')
    else (Ok (row, with_assignments t (tblm_assignments t ++ [row])), sq').

(** [INSERT ... VALUES (aid, s1, st), (aid, s2, st), ...
     ON CONFLICT (assignment_id, student_id) DO NOTHING] *)
Fixpoint sql_insert_student_assignments (aid : Z) (students : list Z) (status : Z)
  : Stmt unit :=
  fun sq t =>
    match students with
    | [] => (Ok (tt, t), sq)
    | sid :: rest =>
        let id := tblt_student_assignments_id_seq sq in
        let sq' := mkSequences (tblm_assignments_id_seq sq) (id + 1)
                     (tblm_submissions_id_seq sq) in
        if existsb (sa_matches aid sid) (tblt_student_assignments t)
        then sql_insert_student_assignments aid rest status sq' t
        else if existsb (fun sa => StudentAssignment.id sa =? id)
                  (tblt_student_assignments t)
        then (Err (PgError unique_violation), sq')
        else if negb (has_assignment t aid && has_user t sid)
        then (Err (PgError foreign_key_violation), sq')
        else sql_insert_student_assignments aid rest status sq'
               (with_student_assignments t
                  (tblt_student_assignments t
                   ++ [StudentAssignment.mk id aid sid status]))
    end.

(** The statement that saveStudentAssignments builds from the parsed
    list: with no id in it, [VALUES] is followed by no row and PostgreSQL
    refuses the text of the statement. *)
Definition sql_insert_student_assignments_values (aid : Z) (students : list Z)
  (status : Z) : Stmt unit :=
  match students with
  | [] => fun sq t => (Err (PgError syntax_error), sq)
  | _ :: _ => sql_insert_student_assignments aid students status
  end.

(** The range of an [INT] column. *)
Definition int4 (z : Z) : bool :=
  (-2147483648 <=? z) && (z <=? 2147483647).

(** The outcome of [SELECT ... WHERE column = $n] for an [INT] column and
    a parameter [p] that comes from the request as it was sent. [rows]
    are the rows whose column equals [p]. PostgreSQL reads the parameter
    as an int4 and refuses a number outside that range with 22003; such a
    number equals no value that the column holds, so the refusal is what
    the statement gives where [p] is outside the range and no row
    matches it. *)
Definition where_int4 {A} (p : Z) (rows : list A) : Stmt (list A) :=
  fun sq t =>
    match rows with
    | [] =>
        if int4 p then (Ok ([], t), sq)
        else (Err (PgError numeric_value_out_of_range), sq)
    | _ :: _ => (Ok (rows, t), sq)
    end.

(** [DELETE FROM tblm_assignments WHERE id = aid], with the ON DELETE
    CASCADE of the two referencing tables. *)
Definition sql_delete_assignment (aid : Z) : Stmt unit :=
  fun sq t =>
    (Ok (tt,
         mkTables (tblm_users t)
           (filter (fun a => negb (Assignment.id a =? aid)) (tblm_assignments t))
           (filter (fun sa => negb (StudentAssignment.assignmentId sa =? aid))
              (tblt_student_assignments t))
           (filter (fun s => negb (Submission.assignmentId s =? aid))
              (tblm_submissions t))),
     sq).

Definition sql_select_assignment_by_id (aid : Z) : Stmt (list Assignment.t) :=
  fun sq t =>
    where_int4 aid (filter (fun a => Assignment.id a =? aid) (tblm_assignments t)) sq t.

Definition sql_update_assignment (sets : list (Column * SqlValue)) (aid : Z)
  : Stmt (list Assignment.t) :=
  fun sq t =>
    match update_rows sets aid (tblm_assignments t) with
    | Ok (rows', hit) => (Ok (hit, with_assignments t rows'), sq)
    | Err e => (Err e, sq)
    end.

(** [l JOIN r ON on] *)
Definition join {A B} (l : list A) (r : list B) (on : A -> B -> bool) : list (A * B) :=
  flat_map (fun x => map (pair x) (filter (on x) r)) l.

(** [v === s] for a query parameter that may be missing. *)
Definition str_is (v : option string) (s : string) : bool :=
  match v with
  | Some x => String.eqb x s
  | None => false
  end.

(** The clause the DAO appends for the publishedAt filter. *)
Definition published_clause (env : Env) (publishedAt : option string)
  : Assignment.t -> bool :=
  if str_is publishedAt "SCHEDULED"
  then fun a => now env <? Assignment.publishedAt a
  else if str_is publishedAt "ONGOING"
  then fun a => Assignment.publishedAt a <=? now env
  else fun _ => true.

(** The clause the DAO appends for the status filter of a student. *)
Definition status_clause (env : Env) (status : option string)
  : Assignment.t * StudentAssignment.t -> bool :=
  if str_is status "PENDING"
  then fun r => StudentAssignment.statusId (snd r) =? SubmissionStatus.PENDING
  else if str_is status "SUBMITTED"
  then fun r => StudentAssignment.statusId (snd r) =? SubmissionStatus.SUBMITTED
  else if str_is status "OVERDUE"
  then fun r => (StudentAssignment.statusId (snd r) =? SubmissionStatus.PENDING)
                && (Assignment.deadline (fst r) <? now env)
  else fun _ => true.

Module AssignmentRow.
(** A row of a listing: [a.*], and [sa.status_id] in a student's listing. *)
Record t := mk { assignment : Assignment.t; statusId : option Z }.
End AssignmentRow.

Definition sql_select_tutor_assignments (env : Env) (tutor : Z)
  (publishedAt : option string) : Stmt (list AssignmentRow.t) :=
  fun sq t =>
    (Ok (map (fun a => AssignmentRow.mk a None)
           (filter (fun a => (Assignment.tutorId a =? tutor)
                             && published_clause env publishedAt a)
              (tblm_assignments t)),
         t),
     sq).

Definition sql_select_student_assignments (env : Env) (student : Z)
  (publishedAt status : option string) : Stmt (list AssignmentRow.t) :=
  fun sq t =>
    (Ok (map (fun r => AssignmentRow.mk (fst r) (Some (StudentAssignment.statusId (snd r))))
           (filter (fun r => (StudentAssignment.studentId (snd r) =? student)
                             && published_clause env publishedAt (fst r)
                             && status_clause env status r)
              (join (tblm_assignments t) (tblt_student_assignments t)
                 (fun a sa => Assignment.id a =? StudentAssignment.assignmentId sa))),
         t),
     sq).

(** The SET list that AssignmentDAO.updateAssignment builds from the
    properties of [updateData] that are not [undefined]. The code grows
    [fields] and [values] side by side; here each entry of [fields]
    carries its value. *)
Definition update_fields (updateData : UpdateData.t) : list (Column * SqlValue) :=
  let fields : list (Column * SqlValue) := [] in
  let fields :=
    if is_defined (UpdateData.title updateData)
    then fields ++ [(col_title, sql_text (UpdateData.title updateData))]
    else fields in
  let fields :=
    if is_defined (UpdateData.description updateData)
    then fields ++ [(col_description, sql_text (UpdateData.description updateData))]
    else fields in
  let fields :=
    if is_defined (UpdateData.dueDate updateData)
    then fields ++ [(col_deadline, sql_timestamp (UpdateData.dueDate updateData))]
    else fields in
  let fields :=
    if is_defined (UpdateData.publishedAt updateData)
    then fields ++ [(col_published_at, sql_timestamp (UpdateData.publishedAt updateData))]
    else fields in
  let fields :=
    if is_defined (UpdateData.fileUrl updateData)
    then fields ++ [(col_s3_url, sql_text (UpdateData.fileUrl updateData))]
    else fields in
  fields.

(** dao/AssignmentDAO.js. Rows come back through [snakeToCamel], which
    renames keys only; the records above already carry the camelCase
    names. *)
Module AssignmentDAO.

Definition saveAssignment (env : Env) (data : CreateAssignmentRequest.t)
  (fileUrl : string) (createdBy : Z) (c : Conn) : M Assignment.t :=
  try_catch
    (client_query env StInsertAssignment c
       (sql_insert_assignment env createdBy
          (CreateAssignmentRequest.title data)
          (CreateAssignmentRequest.description data)
          (CreateAssignmentRequest.publishedAt data)
          (CreateAssignmentRequest.dueDate data)
          (Some fileUrl)))
    (fun error => console_error "Error saving assignment:" ;;; throw error).

Definition getAssignmentById (assignmentId : Z) : M (option Assignment.t) :=
  try_catch
    (rows <- query pool (sql_select_assignment_by_id assignmentId) ;;
     ret (hd_error rows))
    (fun error => console_error "Error fetching assignment by ID:" ;;; throw error).

(** [studentIds] is the list of numbers that [JSON.parse] and
    [map(Number)] make of the text of the property. *)
Definition saveStudentAssignments (env : Env) (assignmentId : Z)
  (studentIds : list Z) (c : Conn) : M unit :=
  try_catch
    (client_query env StInsertStudentAssignments c
       (sql_insert_student_assignments_values assignmentId studentIds
          SubmissionStatus.PENDING))
    (fun error => console_error "Error saving student assignments:" ;;; throw error).

Definition updateAssignment (assignmentId : Z) (updateData : UpdateData.t)
  : M (option Assignment.t) :=
  try_catch
    (let fields := update_fields updateData in
     if (List.length fields =? 0)%nat
     then throw (PlainError "No fields provided to update")
     else
       rows <- query pool (sql_update_assignment fields assignmentId) ;;
       ret (hd_error rows))
    (fun error => console_error "Error updating assignment:" ;;; throw error).

Definition deleteAssignment (assignmentId : Z) : M unit :=
  try_catch
    (query pool (sql_delete_assignment assignmentId))
    (fun error => console_error "Error deleting assignment:" ;;; throw error).

Definition getTutorAssignments (env : Env) (tutorId : Z) (filters : Filters.t)
  : M (list AssignmentRow.t) :=
  try_catch
    (query pool
       (sql_select_tutor_assignments env tutorId (Filters.publishedAt filters)))
    (fun error => console_error "Error fetching tutor assignments:" ;;; throw error).

Definition getStudentAssignments (env : Env) (studentId : Z) (filters : Filters.t)
  : M (list AssignmentRow.t) :=
  try_catch
    (query pool
       (sql_select_student_assignments env studentId
          (Filters.publishedAt filters) (Filters.status filters)))
    (fun error => console_error "Error fetching student assignments:" ;;; throw error).

End AssignmentDAO.

Definition sql_insert_submission (env : Env) (aid sid : Z) (url : string)
  : Stmt Submission.t :=
  fun sq t =>
    let id := tblm_submissions_id_seq sq in
    let sq' := mkSequences (tblm_assignments_id_seq sq)
                 (tblt_student_assignments_id_seq sq) (id + 1) in
    let row := Submission.mk id aid sid url (now env) in
    if existsb (fun s => Submission.id s =? id) (tblm_submissions t)
       || existsb (sub_matches aid sid) (tblm_submissions t)
    then (Err (PgError unique_violation), sq')
    else if negb (has_assignment t aid && has_user t sid)
    then (Err (PgError foreign_key_violation), sq')
    else (Ok (row, with_submissions t (tblm_submissions t ++ [row])), sq').

Definition set_status (status : Z) (sa : StudentAssignment.t) : StudentAssignment.t :=
  StudentAssignment.mk (StudentAssignment.id sa) (StudentAssignment.assignmentId sa)
    (StudentAssignment.studentId sa) status.

(** [UPDATE tblt_student_assignments SET status_id = status
     WHERE assignment_id = aid AND student_id = sid] *)
Definition sql_update_status (aid sid status : Z) : Stmt unit :=
  fun sq t =>
    (Ok (tt,
         with_student_assignments t
           (map (fun sa => if sa_matches aid sid sa then set_status status sa else sa)
              (tblt_student_assignments t))),
     sq).

Definition sql_select_student_assignment (aid sid : Z)
  : Stmt (list StudentAssignment.t) :=
  fun sq t =>
    where_int4 aid (filter (sa_matches aid sid) (tblt_student_assignments t)) sq t.

Module SubmissionRow.
(** [s.*], and [u.username] in a tutor's listing. *)
Record t := mk { submission : Submission.t; username : option string }.
End SubmissionRow.

Definition sql_select_submissions_for_tutor (aid : Z) : Stmt (list SubmissionRow.t) :=
  fun sq t =>
    where_int4 aid
      (map (fun r => SubmissionRow.mk (fst r) (Some (User.username (snd r))))
         (filter (fun r => Submission.assignmentId (fst r) =? aid)
            (join (tblm_submissions t) (tblm_users t)
               (fun s u => Submission.studentId s =? User.id u))))
      sq t.

Definition sql_select_submission_for_student (aid sid : Z)
  : Stmt (list SubmissionRow.t) :=
  fun sq t =>
    where_int4 aid
      (map (fun s => SubmissionRow.mk s None)
         (filter (sub_matches aid sid) (tblm_submissions t)))
      sq t.

(** dao/SubmissionsDAO.js *)
Module SubmissionsDAO.

Definition saveSubmission (env : Env) (assignmentId studentId : Z)
  (fileUrl : string) (c : Conn) : M Submission.t :=
  try_catch
    (client_query env StInsertSubmission c
       (sql_insert_submission env assignmentId studentId fileUrl))
    (fun error => console_error "Error saving submission:" ;;; throw error).

Definition updateStudentAssignmentStatus (env : Env) (assignmentId studentId : Z)
  (c : Conn) : M unit :=
  try_catch
    (client_query env StUpdateStatus c
       (sql_update_status assignmentId studentId SubmissionStatus.SUBMITTED))
    (fun error =>
       console_error "Error updating student assignment status:" ;;; throw error).

Definition getSubmissionsForTutor (assignmentId : Z) : M (list SubmissionRow.t) :=
  try_catch
    (query pool (sql_select_submissions_for_tutor assignmentId))
    (fun error => console_error "Error fetching submissions for tutor:" ;;; throw error).

Definition getSubmissionForStudent (assignmentId studentId : Z)
  : M (option SubmissionRow.t) :=
  try_catch
    (rows <- query pool (sql_select_submission_for_student assignmentId studentId) ;;
     ret (hd_error rows))
    (fun error => console_error "Error fetching submission for student:" ;;; throw error).

Definition getStudentAssignment (assignmentId studentId : Z)
  : M (option StudentAssignment.t) :=
  try_catch
    (rows <- query pool (sql_select_student_assignment assignmentId studentId) ;;
     ret (hd_error rows))
    (fun error => console_error "Error fetching student assignment:" ;;; throw error).

End SubmissionsDAO.

(** ** The S3 bucket *)
Module S3.

Definition without_key (key : string) (l : list S3Object.t) : list S3Object.t :=
  filter (fun o => negb (String.eqb (S3Object.Key o) key)) l.

(** [S3.send(new PutObjectCommand(params))] *)
Definition sendPutObject (env : Env) (key body contentType : string) : M unit :=
  emit (S3Put key) ;;;
  if s3_fails env then throw S3ServiceException
  else fun w =>
    (Ok tt,
     mkWorld (committed w) (txn w) (seqs w)
       (without_key key (bucket w) ++ [S3Object.mk key body contentType])
       (trace w)).

(** [S3.send(new DeleteObjectCommand(params))] *)
Definition sendDeleteObject (env : Env) (key : string) : M unit :=
  emit (S3Delete key) ;;;
  if s3_fails env then throw S3ServiceException
  else fun w =>
    (Ok tt,
     mkWorld (committed w) (txn w) (seqs w) (without_key key (bucket w)) (trace w)).

Definition url (env : Env) (fileKey : string) : string :=
  "https://" ++ AWS_S3_BUCKET_NAME env ++ ".s3." ++ AWS_REGION env
  ++ ".amazonaws.com/" ++ fileKey.

End S3.

(** [s.split('/').pop()] *)
Fixpoint last_segment_from (acc s : string) : string :=
  match s with
  | EmptyString => acc
  | String c rest =>
      if Ascii.eqb c "/"%char
      then last_segment_from EmptyString rest
      else last_segment_from (acc ++ String c EmptyString) rest
  end.

Definition last_segment (s : string) : string := last_segment_from EmptyString s.

(** ** Services *)

(** [if (s)] on a nullable string: null and the empty string are falsy. *)
Definition truthy (s : option string) : bool :=
  match s with
  | Some EmptyString => false
  | Some _ => true
  | None => false
  end.

Definition with_fileUrl (d : UpdateData.t) (url : string) : UpdateData.t :=
  UpdateData.mk (UpdateData.title d) (UpdateData.description d) (UpdateData.dueDate d)
    (UpdateData.publishedAt d) (Js.value url) (UpdateData.file d) (UpdateData.username d).

(** [`${uuidv4()}-${file.originalname}`] *)
Definition uniqueKey (env : Env) (file : File.t) : string :=
  uuidv4 env ++ "-" ++ File.originalname file.

(** services/AssignmentService.js *)
Module AssignmentService.

Import DatabaseTransaction.

Definition createAssignment (env : Env) (assignmentData : CreateAssignmentRequest.t)
  : M Assignment.t :=
  try_catch
    (user <- UserService.getUserByUsername
               (CreateAssignmentRequest.username assignmentData) ;;
     if negb (User.roleId user =? Roles.TUTOR)
     then throw (HttpError 403 "Only TUTORS can create assignments")
     else
       let file := CreateAssignmentRequest.file assignmentData in
       let fileKey := uniqueKey env file in
       S3.sendPutObject env fileKey (File.buffer file) (File.mimetype file) ;;;
       let fileUrl := S3.url env fileKey in
       client <- beginTransaction env ;;
       try_catch
         (savedAssignment <-
            AssignmentDAO.saveAssignment env assignmentData fileUrl (User.id user) client ;;
          (* [studentIds && studentIds.length > 0]: the text of the property
             has a length above zero, the empty array has not. *)
          (match CreateAssignmentRequest.studentIdsProperty assignmentData with
           | Some studentIds =>
               AssignmentDAO.saveStudentAssignments env
                 (Assignment.id savedAssignment) studentIds client
           | None => ret tt
           end) ;;;
          commitTransaction env client ;;;
          ret savedAssignment)
         (fun error => rollbackTransaction client ;;; throw error))
    (fun error => throw error).

Definition updateAssignment (env : Env) (assignmentId : Z) (updateData : UpdateData.t)
  : M (option Assignment.t) :=
  try_catch
    (user <- UserService.getUserByUsername (UpdateData.username updateData) ;;
     if negb (User.roleId user =? Roles.TUTOR)
     then throw (HttpError 403 "Only TUTORS can update assignments")
     else
       existing <- AssignmentDAO.getAssignmentById assignmentId ;;
       match existing with
       | None => throw (HttpError 404 "Assignment not found")
       | Some existingAssignment =>
           if negb (Assignment.tutorId existingAssignment =? User.id user)
           then throw (HttpError 403 "You can only update assignments you created")
           else
             updateData' <-
               match UpdateData.file updateData with
               | Some file =>
                   let fileKey := uniqueKey env file in
                   S3.sendPutObject env fileKey (File.buffer file) (File.mimetype file) ;;;
                   ret (with_fileUrl updateData (S3.url env fileKey))
               | None => ret updateData
               end ;;
             AssignmentDAO.updateAssignment assignmentId updateData'
       end)
    (fun error => throw error).

Definition deleteAssignment (env : Env) (assignmentId : Z) (username : string)
  : M unit :=
  try_catch
    (user <- UserService.getUserByUsername username ;;
     if negb (User.roleId user =? Roles.TUTOR)
     then throw (HttpError 403 "Only TUTORS can delete assignments")
     else
       existing <- AssignmentDAO.getAssignmentById assignmentId ;;
       match existing with
       | None => throw (HttpError 404 "Assignment not found")
       | Some existingAssignment =>
           if negb (Assignment.tutorId existingAssignment =? User.id user)
           then throw (HttpError 403 "You can only delete assignments you created")
           else
             (if truthy (Assignment.s3Url existingAssignment)
              then
                let fileKey :=
                  last_segment
                    (match Assignment.s3Url existingAssignment with
                     | Some u => u
                     | None => EmptyString
                     end) in
                S3.sendDeleteObject env fileKey
              else ret tt) ;;;
             AssignmentDAO.deleteAssignment assignmentId
       end)
    (fun error => throw error).

Definition getAssignments (env : Env) (username : string) (filters : Filters.t)
  : M (list AssignmentRow.t) :=
  try_catch
    (user <- UserService.getUserByUsername username ;;
     if User.roleId user =? Roles.TUTOR
     then AssignmentDAO.getTutorAssignments env (User.id user) filters
     else if User.roleId user =? Roles.STUDENT
     then AssignmentDAO.getStudentAssignments env (User.id user) filters
     else throw (HttpError 403 "Invalid role"))
    (fun error => throw error).

End AssignmentService.

(** services/SubmissionsService.js *)
Module SubmissionsService.

Import DatabaseTransaction.

Definition addSubmission (env : Env) (submissionData : SubmissionData.t)
  : M Submission.t :=
  let assignmentId := SubmissionData.assignmentId submissionData in
  let studentUsername := SubmissionData.studentUsername submissionData in
  let file := SubmissionData.file submissionData in
  user <- UserService.getUserByUsername studentUsername ;;
  if negb (User.roleId user =? Roles.STUDENT)
  then throw (HttpError 403 "Only students can submit assignments")
  else
    studentAssignment <- SubmissionsDAO.getStudentAssignment assignmentId (User.id user) ;;
    match studentAssignment with
    | None => throw (HttpError 403 "Student has not been assigned this assignment")
    | Some _ =>
        match file with
        | None =>
            throw (TypeError
                     "Cannot read properties of undefined (reading 'originalname')")
        | Some file =>
            let fileKey := uniqueKey env file in
            S3.sendPutObject env fileKey (File.buffer file) (File.mimetype file) ;;;
            let fileUrl := S3.url env fileKey in
            client <- beginTransaction env ;;
            try_catch
              (submission <-
                 SubmissionsDAO.saveSubmission env assignmentId (User.id user)
                   fileUrl client ;;
               SubmissionsDAO.updateStudentAssignmentStatus env assignmentId
                 (User.id user) client ;;;
               commitTransaction env client ;;;
               ret submission)
              (fun error => rollbackTransaction client ;;; throw error)
        end
    end.

Inductive Details :=
| ForTutor (submissions : list SubmissionRow.t)
| ForStudent (submission : option SubmissionRow.t).

Definition getAssignmentDetails (assignmentId : Z) (username : string) : M Details :=
  user <- UserService.getUserByUsername username ;;
  if User.roleId user =? Roles.TUTOR
  then rows <- SubmissionsDAO.getSubmissionsForTutor assignmentId ;; ret (ForTutor rows)
  else if User.roleId user =? Roles.STUDENT
  then row <- SubmissionsDAO.getSubmissionForStudent assignmentId (User.id user) ;;
       ret (ForStudent row)
  else throw (HttpError 403 "Invalid role").

End SubmissionsService.

(** ** Deadline notifications *)

Module UpcomingRow.
Record t := mk
  { assignment_id : Z;
    assignment_title : string;
    deadline : Timestamp;
    student_email : string }.
End UpcomingRow.

Definition minutes (n : Z) : Z := n * 60 * 1000000.

(** [deadline BETWEEN now + INTERVAL '59 minutes' AND now + INTERVAL '1 hour'];
    [now env] is the reading of the clock the query compares with. *)
Definition in_window (env : Env) (deadline : Timestamp) : bool :=
  (now env + minutes 59 <=? deadline) && (deadline <=? now env + minutes 60).

(** The SELECT of fetchUpcomingAssignments: mapping rows joined to their
    assignment and their student, kept when the deadline is in the window
    and the status is [status]. *)
Definition upcoming_rows (env : Env) (status : Z) (t : Tables) : list UpcomingRow.t :=
  map (fun r =>
         let sa := fst (fst r) in
         let a := snd (fst r) in
         let u := snd r in
         UpcomingRow.mk (StudentAssignment.assignmentId sa) (Assignment.title a)
           (Assignment.deadline a) (User.email u))
    (filter (fun r => in_window env (Assignment.deadline (snd (fst r)))
                      && (StudentAssignment.statusId (fst (fst r)) =? status))
       (join
          (join (tblt_student_assignments t) (tblm_assignments t)
             (fun sa a => StudentAssignment.assignmentId sa =? Assignment.id a))
          (tblm_users t)
          (fun r u => StudentAssignment.studentId (fst r) =? User.id u))).

Definition sql_select_upcoming (env : Env) (status : Z) : Stmt (list UpcomingRow.t) :=
  fun sq t => (Ok (upcoming_rows env status t, t), sq).

(** services/NotificationService.js *)
Module NotificationService.

Definition fetchUpcomingAssignments (env : Env) : M (list UpcomingRow.t) :=
  query pool (sql_select_upcoming env SubmissionStatus.PENDING).

(** [transporter.sendMail(mailOptions)], the [i]-th delivery of the tick *)
Definition sendMail (env : Env) (i : nat) (mailOptions : MailOptions.t) : M unit :=
  emit (SendMail mailOptions) ;;;
  if mail_fails env i then throw SMTPError else ret tt.

Definition mailOptionsFor (env : Env) (assignment : UpcomingRow.t) : MailOptions.t :=
  MailOptions.mk
    (EMAIL_USER env)
    (UpcomingRow.student_email assignment)
    ("Upcoming Assignment Deadline: " ++ UpcomingRow.assignment_title assignment)
    ("Dear Student,

This is a reminder that the deadline for the assignment "
     ++ dquote ++ UpcomingRow.assignment_title assignment ++ dquote ++ " is at "
     ++ showDate env (UpcomingRow.deadline assignment)
     ++ ".

Please make sure to submit it on time.

Best regards,
Virtual Classroom Team").

(** The [for ... of] loop, from the [i]-th delivery on. *)
Fixpoint sendNotificationsFrom (env : Env) (i : nat) (assignments : list UpcomingRow.t)
  : M unit :=
  match assignments with
  | [] => ret tt
  | assignment :: rest =>
      let mailOptions := mailOptionsFor env assignment in
      try_catch
        (sendMail env i mailOptions)
        (fun error =>
           console_error
             ("Failed to send notification to "
              ++ UpcomingRow.student_email assignment ++ ":")) ;;;
      sendNotificationsFrom env (S i) rest
  end.

Definition sendNotifications (env : Env) (assignments : list UpcomingRow.t) : M unit :=
  sendNotificationsFrom env 0 assignments.

Definition notifyUpcomingAssignments (env : Env) : M unit :=
  try_catch
    (assignments <- fetchUpcomingAssignments env ;;
     if (0 <? List.length assignments)%nat
     then sendNotifications env assignments
     else ret tt)
    (fun error => console_error "Error in NotificationService:").

End NotificationService.

(** ** Operations and runs *)

Inductive Operation :=
| CreateAssignment (data : CreateAssignmentRequest.t)
| UpdateAssignment (assignmentId : Z) (data : UpdateData.t)
| DeleteAssignment (assignmentId : Z) (username : string)
| GetAssignments (username : string) (filters : Filters.t)
| AddSubmission (data : SubmissionData.t)
| GetAssignmentDetails (assignmentId : Z) (username : string)
| NotifyUpcomingAssignments.

(** The world after one call, whatever it returned. *)
Definition step (w : World) (call : Env * Operation) : World :=
  let env := fst call in
  match snd call with
  | CreateAssignment data => snd (AssignmentService.createAssignment env data w)
  | UpdateAssignment aid data => snd (AssignmentService.updateAssignment env aid data w)
  | DeleteAssignment aid username =>
      snd (AssignmentService.deleteAssignment env aid username w)
  | GetAssignments username filters =>
      snd (AssignmentService.getAssignments env username filters w)
  | AddSubmission data => snd (SubmissionsService.addSubmission env data w)
  | GetAssignmentDetails aid username =>
      snd (SubmissionsService.getAssignmentDetails aid username w)
  | NotifyUpcomingAssignments =>
      snd (NotificationService.notifyUpcomingAssignments env w)
  end.

Definition run (calls : list (Env * Operation)) (w : World) : World :=
  fold_left step calls w.

(** A freshly set up database: the users are provisioned, nothing else
    exists yet. *)
Definition initial (users : list User.t) : World :=
  mkWorld (mkTables users [] [] []) None (mkSequences 1 1 1) [] [].

(** ** Vocabulary of the statements *)

(** The requester [name] resolves to the user [u] (and resolving leaves
    the world alone). *)
Definition resolves (w : World) (name : string) (u : User.t) : Prop :=
  UserService.getUserByUsername name w = (Ok u, w).

Definition assigned (t : Tables) (aid sid : Z) : bool :=
  existsb (sa_matches aid sid) (tblt_student_assignments t).

Definition submitted (t : Tables) (aid sid : Z) : bool :=
  existsb (sub_matches aid sid) (tblm_submissions t).

(** ** A small classroom

    Two tutors and two students; tina hands out HW1 to sam, then sam
    submits. Used to run the services on concrete inputs. *)
Module Scenario.

Definition env_ok : Env :=
  mkEnv (minutes 1) "c0ffee" "classroom-files" "ap-south-1" "noreply@classroom.test"
    (fun _ => "soon") false (fun _ => false) (fun _ => false).

Definition env_s3_down : Env :=
  mkEnv (minutes 1) "c0ffee" "classroom-files" "ap-south-1" "noreply@classroom.test"
    (fun _ => "soon") true (fun _ => false) (fun _ => false).

(** One hour before the deadline of HW1, with a mail transport that
    rejects every delivery. *)
Definition env_tick : Env :=
  mkEnv (minutes 60) "c0ffee" "classroom-files" "ap-south-1" "noreply@classroom.test"
    (fun _ => "soon") false (fun _ => false) (fun _ => true).

(** The connection drops while the mappings are being inserted. *)
Definition env_fanout_fault : Env :=
  mkEnv (minutes 1) "c0ffee" "classroom-files" "ap-south-1" "noreply@classroom.test"
    (fun _ => "soon") false
    (fun st => match st with StInsertStudentAssignments => true | _ => false end)
    (fun _ => false).

Definition tina := User.mk 1 "tina" "tina@classroom.test" Roles.TUTOR 0.
Definition sam := User.mk 2 "sam" "sam@classroom.test" Roles.STUDENT 0.
Definition sue := User.mk 3 "sue" "sue@classroom.test" Roles.STUDENT 0.
Definition tom := User.mk 4 "tom" "tom@classroom.test" Roles.TUTOR 0.

Definition w_start : World := initial [tina; sam; sue; tom].

Definition hw1_pdf := File.mk "hw1.pdf" "%PDF" "application/pdf".

Definition hw1_request :=
  CreateAssignmentRequest.mk "HW1" None 0 (minutes 120) hw1_pdf (Some [2]) "tina".

Definition w_hw1 : World :=
  Eval vm_compute in snd (AssignmentService.createAssignment env_ok hw1_request w_start).

(** A second assignment for sam and sue. *)
Definition hw2_request :=
  CreateAssignmentRequest.mk "HW2" (Some "second sheet") 0 (minutes 240) hw1_pdf
    (Some [2; 3]) "tina".

(** The same, with a student id that no user has. *)
Definition hw2_bad_request :=
  CreateAssignmentRequest.mk "HW2" (Some "second sheet") 0 (minutes 240) hw1_pdf
    (Some [2; 99])
    "tina".

Definition answer_pdf := File.mk "answer.pdf" "%PDF" "application/pdf".

Definition w_submitted : World :=
  Eval vm_compute in
    snd (SubmissionsService.addSubmission env_ok
           (SubmissionData.mk 1 "sam" (Some answer_pdf)) w_hw1).

End Scenario.

(** Loading assignment [aid] yields the row [a]. *)
Definition loads (w : World) (aid : Z) (a : Assignment.t) : Prop :=
  AssignmentDAO.getAssignmentById aid w = (Ok (Some a), w).

(** *** Partial updates *)








(** *** Constraints of database/setup.sql, as checks on [Tables] *)

Fixpoint distinct {A} (eqb : A -> A -> bool) (l : list A) : bool :=
  match l with
  | [] => true
  | x :: rest => negb (existsb (eqb x) rest) && distinct eqb rest
  end.

Definition pair_eqb (p q : Z * Z) : bool :=
  (fst p =? fst q) && (snd p =? snd q).

(** PRIMARY KEY of tblm_users *)
Definition users_pk (t : Tables) : bool :=
  distinct Z.eqb (map User.id (tblm_users t)).

(** PRIMARY KEY of tblm_assignments *)
Definition assignments_pk (t : Tables) : bool :=
  distinct Z.eqb (map Assignment.id (tblm_assignments t)).

(** UNIQUE(assignment_id, student_id) of tblt_student_assignments *)
Definition student_assignments_unique (t : Tables) : bool :=
  distinct pair_eqb
    (map (fun sa => (StudentAssignment.assignmentId sa, StudentAssignment.studentId sa))
       (tblt_student_assignments t)).

(** UNIQUE(assignment_id, student_id) of tblm_submissions *)
Definition submissions_unique (t : Tables) : bool :=
  distinct pair_eqb
    (map (fun s => (Submission.assignmentId s, Submission.studentId s))
       (tblm_submissions t)).

(** The two REFERENCES of tblt_student_assignments *)
Definition student_assignments_fk (t : Tables) : bool :=
  forallb (fun sa => has_assignment t (StudentAssignment.assignmentId sa)
                     && has_user t (StudentAssignment.studentId sa))
    (tblt_student_assignments t).

(** The two REFERENCES of tblm_submissions *)
Definition submissions_fk (t : Tables) : bool :=
  forallb (fun s => has_assignment t (Submission.assignmentId s)
                    && has_user t (Submission.studentId s))
    (tblm_submissions t).

Definition schema_ok (t : Tables) : bool :=
  users_pk t && assignments_pk t
  && student_assignments_unique t && submissions_unique t
  && student_assignments_fk t && submissions_fk t.

(** PRIMARY KEY of tblt_student_assignments *)
Definition student_assignments_pk (t : Tables) : bool :=
  distinct Z.eqb (map StudentAssignment.id (tblt_student_assignments t)).

(** PRIMARY KEY of tblm_submissions *)
Definition submissions_pk (t : Tables) : bool :=
  distinct Z.eqb (map Submission.id (tblm_submissions t)).

(** REFERENCES tblm_users(id) of tblm_assignments.tutor_id *)
Definition assignments_fk (t : Tables) : bool :=
  forallb (fun a => has_user t (Assignment.tutorId a)) (tblm_assignments t).

(** The ids of tbls_submission_status: setup.sql inserts two rows. *)
Definition known_status (z : Z) : bool :=
  (z =? SubmissionStatus.SUBMITTED) || (z =? SubmissionStatus.PENDING).

(** REFERENCES tbls_submission_status(id) of
    tblt_student_assignments.status_id *)
Definition student_assignments_status_fk (t : Tables) : bool :=
  forallb (fun sa => known_status (StudentAssignment.statusId sa))
    (tblt_student_assignments t).

(** UNIQUE of username and UNIQUE of email in tblm_users *)
Definition users_unique (t : Tables) : bool :=
  distinct String.eqb (map User.username (tblm_users t))
  && distinct String.eqb (map User.email (tblm_users t)).

(** The ids of tbls_user_roles: setup.sql inserts two rows. *)
Definition known_role (z : Z) : bool :=
  (z =? Roles.TUTOR) || (z =? Roles.STUDENT).

(** REFERENCES tbls_user_roles(id) of tblm_users.role_id *)
Definition users_fk (t : Tables) : bool :=
  forallb (fun u => known_role (User.roleId u)) (tblm_users t).

(** The keys that [schema_ok] leaves out. *)
Definition keys_ok (t : Tables) : bool :=
  student_assignments_pk t && submissions_pk t
  && assignments_fk t && student_assignments_status_fk t
  && users_unique t && users_fk t.

(** Every PRIMARY KEY, UNIQUE and REFERENCES constraint of the four
    tables that the services write or read. *)
Definition constraints_ok (t : Tables) : bool :=
  schema_ok t && keys_ok t.

(** *** Worlds after an S3 command *)

Definition with_trace (w : World) (evs : list Event) : World :=
  mkWorld (committed w) (txn w) (seqs w) (bucket w) (trace w ++ evs).

(** The world after a PutObject of [file] that succeeded. *)
Definition uploaded (env : Env) (file : File.t) (w : World) : World :=
  mkWorld (committed w) (txn w) (seqs w)
    (S3.without_key (uniqueKey env file) (bucket w)
     ++ [S3Object.mk (uniqueKey env file) (File.buffer file) (File.mimetype file)])
    (trace w ++ [S3Put (uniqueKey env file)]).

(** *** Deadline reminders *)

(** The assignment and the student a mapping row refers to. *)
Definition assignment_of (t : Tables) (sa : StudentAssignment.t) : option Assignment.t :=
  find (fun a => StudentAssignment.assignmentId sa =? Assignment.id a) (tblm_assignments t).

Definition student_of (t : Tables) (sa : StudentAssignment.t) : option User.t :=
  find (fun u => StudentAssignment.studentId sa =? User.id u) (tblm_users t).

(** The mapping row is PENDING and the deadline of its assignment lies in
    the window of this tick. *)
Definition due_soon (env : Env) (t : Tables) (sa : StudentAssignment.t) : bool :=
  match assignment_of t sa with
  | Some a =>
      in_window env (Assignment.deadline a)
      && (StudentAssignment.statusId sa =? SubmissionStatus.PENDING)
  | None => false
  end.

(** [row] is the reminder owed for the mapping row [sa]: the title and
    deadline of its assignment, the e-mail address of its student. *)
Definition reminder_for (t : Tables) (sa : StudentAssignment.t) (row : UpcomingRow.t)
  : Prop :=
  exists a u,
    assignment_of t sa = Some a
    /\ student_of t sa = Some u
    /\ row = UpcomingRow.mk (StudentAssignment.assignmentId sa) (Assignment.title a)
               (Assignment.deadline a) (User.email u).

(** What a tick leaves in the trace for the rows it fetched: one delivery
    per row, followed by an error line when that delivery failed. *)
Fixpoint delivery_events (env : Env) (i : nat) (rows : list UpcomingRow.t) : list Event :=
  match rows with
  | [] => []
  | row :: rest =>
      SendMail (NotificationService.mailOptionsFor env row)
      :: (if mail_fails env i
          then [ConsoleError ("Failed to send notification to "
                              ++ UpcomingRow.student_email row ++ ":")]
          else [])
      ++ delivery_events env (S i) rest
  end.

Fixpoint mails_sent (evs : list Event) : list MailOptions.t :=
  match evs with
  | [] => []
  | SendMail m :: rest => m :: mails_sent rest
  | _ :: rest => mails_sent rest
  end.

(** *** Status consistency (I2) *)

(** Some mapping row of the pair has status SUBMITTED. *)
Definition marked_submitted (t : Tables) (aid sid : Z) : bool :=
  existsb (fun sa => sa_matches aid sid sa
                     && (StudentAssignment.statusId sa =? SubmissionStatus.SUBMITTED))
    (tblt_student_assignments t).

(** For every pair, the status is SUBMITTED exactly when a Submission row
    exists. *)
Definition status_consistent (t : Tables) : Prop :=
  forall aid sid, marked_submitted t aid sid = submitted t aid sid.

(** Between two calls: no transaction is open and the statuses agree with
    the submissions. *)
Definition settled (w : World) : Prop :=
  txn w = None /\ status_consistent (committed w).

(** ** More of the classroom

    Worlds and requests used to run the remaining services. *)
Module Scenes.

(** HW2 for sam and sue, with sam listed twice. *)
Definition hw2_request :=
  CreateAssignmentRequest.mk "HW2" None 0 (minutes 240) Scenario.hw1_pdf
    (Some [2; 3; 2]) "tina".

Definition hw2 : Assignment.t :=
  Eval vm_compute in
    match fst (AssignmentService.createAssignment Scenario.env_ok hw2_request
                 Scenario.w_hw1) with
    | Ok a => a
    | Err _ => Assignment.mk 0 0 EmptyString None 0 0 None 0 0
    end.

Definition w_hw2 : World :=
  Eval vm_compute in
    snd (AssignmentService.createAssignment Scenario.env_ok hw2_request Scenario.w_hw1).

End Scenes.

(** *** Keys, cascades and requesters *)

(** No slash occurs in [s]. *)
Fixpoint no_slash (s : string) : bool :=
  match s with
  | EmptyString => true
  | String c rest => negb (Ascii.eqb c "/"%char) && no_slash rest
  end.

(** The tables after the DELETE of assignment [aid] and its cascade. *)
Definition cascade (aid : Z) (t : Tables) : Tables :=
  mkTables (tblm_users t)
    (filter (fun a => negb (Assignment.id a =? aid)) (tblm_assignments t))
    (filter (fun sa => negb (StudentAssignment.assignmentId sa =? aid))
       (tblt_student_assignments t))
    (filter (fun s => negb (Submission.assignmentId s =? aid)) (tblm_submissions t)).




(** ** utils/ObjectMapper.js *)
Module ObjectMapper.

(** A character of the class [a-z] *)
Definition is_lower (c : ascii) : bool :=
  (97 <=? nat_of_ascii c)%nat && (nat_of_ascii c <=? 122)%nat.

(** [char.toUpperCase()] on a character of [a-z] *)
Definition toUpperCase (c : ascii) : ascii := ascii_of_nat (nat_of_ascii c - 32).

(** [key.replace(/_([a-z])/g, (_, char) => char.toUpperCase())]: the scan
    goes from left to right; where an underscore is followed by a letter
    of [a-z] the two are replaced by the capital and the scan resumes
    behind them, elsewhere the character is copied. *)
Fixpoint camelKey (key : string) : string :=
  match key with
  | EmptyString => EmptyString
  | String c tail =>
      match tail with
      | String d rest =>
          if Ascii.eqb c "_"%char && is_lower d
          then String (toUpperCase d) (camelKey rest)
          else String c (camelKey tail)
      | EmptyString => String c EmptyString
      end
  end.

(** An object as a row of node-postgres has it: the property names in
    their order of insertion, each with its value (no column name is an
    array index, which JavaScript would list first). *)
Definition Obj (V : Type) := list (string * V).

(** [acc[k] = v]: an existing property keeps its place and takes the new
    value, a new one goes to the end. *)
Fixpoint assign {V} (acc : Obj V) (k : string) (v : V) : Obj V :=
  match acc with
  | [] => [(k, v)]
  | (k', v') :: rest =>
      if String.eqb k' k then (k', v) :: rest else (k', v') :: assign rest k v
  end.

(** [obj[k]] *)
Fixpoint get {V} (obj : Obj V) (k : string) : option V :=
  match obj with
  | [] => None
  | (k', v) :: rest => if String.eqb k' k then Some v else get rest k
  end.

(** [Object.keys(obj).reduce((acc, key) => { acc[camelKey] = obj[key]; return acc }, {})] *)
Definition snakeToCamel {V} (obj : Obj V) : Obj V :=
  fold_left (fun acc kv => assign acc (camelKey (fst kv)) (snd kv)) obj [].

(** The key holds an underscore followed by a letter of [a-z]. *)
Fixpoint has_snake (s : string) : bool :=
  match s with
  | EmptyString => false
  | String c tail =>
      (Ascii.eqb c "_"%char
       && match tail with
          | String d _ => is_lower d
          | EmptyString => false
          end)
      || has_snake tail
  end.

End ObjectMapper.

(** ** Controllers *)

Module Response.

(** The body given to [res.json]: the payload of a success, with the
    message some handlers add to it; [{ message: error.message || fallback }];
    or [{ message: `${error}` }]. *)
Inductive Json (A : Type) :=
| Payload (message : option string) (value : A)
| Failure (error : Error) (fallback : string)
| Rendered (error : Error).
Arguments Payload {A} message value.
Arguments Failure {A} error fallback.
Arguments Rendered {A} error.

(** [res.status(status).json(json)] *)
Record t (A : Type) := mk { status : Z; json : Json A }.
Arguments mk {A} status json.
Arguments status {A} t.
Arguments json {A} t.

End Response.

(** [error.status]: the services set it on the errors they make; the
    errors raised by pg, the S3 client and the language carry none. *)
Definition error_status (error : Error) : option Z :=
  match error with
  | HttpError status _ => Some status
  | _ => None
  end.

(** [error.status || fallback] *)
Definition status_or (error : Error) (fallback : Z) : Z :=
  match error_status error with
  | Some 0 => fallback
  | Some status => status
  | None => fallback
  end.

(** [!v] for a text property: undefined, null and the empty string *)
Definition falsy_text (v : Js.t string) : bool :=
  match v with
  | Js.value (String _ _) => false
  | _ => true
  end.

(** [!v] for a property that holds a date or a list when it is there *)
Definition falsy {A} (v : Js.t A) : bool :=
  match v with
  | Js.value _ => false
  | _ => true
  end.

(** The object literal that the controller hands to the constructor of
    CreateAssignmentRequest: fields of [req.body], [req.file] and
    [req.username]. A date or a list of ids stands for the text it is
    read from, which is not empty when the property is a [Js.value]. *)
Module CreateAssignmentBody.
Record t := mk
  { title : Js.t string;
    description : Js.t string;
    publishedAt : Js.t Timestamp;
    dueDate : Js.t Timestamp;
    file : option File.t;
    studentIds : Js.t (list Z);
    username : string }.
End CreateAssignmentBody.

(** [new CreateAssignmentRequest({...})]; [clock] is the reading of
    [new Date()] that stands in for a missing publication date. *)
Definition new_CreateAssignmentRequest (clock : Timestamp) (o : CreateAssignmentBody.t)
  : Result CreateAssignmentRequest.t :=
  if falsy_text (CreateAssignmentBody.title o)
  then Err (PlainError "Title is required")
  else if falsy (CreateAssignmentBody.dueDate o)
  then Err (PlainError "Due date is required")
  else
    match CreateAssignmentBody.file o with
    | None => Err (PlainError "File is required")
    | Some file =>
        Ok (CreateAssignmentRequest.mk
              (match CreateAssignmentBody.title o with
               | Js.value s => s
               | _ => EmptyString
               end)
              (match CreateAssignmentBody.description o with
               | Js.value (String c s) => Some (String c s)
               | _ => None
               end)
              (match CreateAssignmentBody.publishedAt o with
               | Js.value p => p
               | _ => clock
               end)
              (match CreateAssignmentBody.dueDate o with
               | Js.value d => d
               | _ => 0
               end)
              file
              (match CreateAssignmentBody.studentIds o with
               | Js.value ids => Some ids
               | _ => None
               end)
              (CreateAssignmentBody.username o))
    end.

(** A synchronous computation run inside an async function: its
    exception rejects the promise. *)
Definition lift {A} (r : Result A) : M A :=
  match r with
  | Ok a => ret a
  | Err e => throw e
  end.

(** The four properties of [req.body] that the PATCH handler reads. *)
Module UpdateBody.
Record t := mk
  { title : Js.t string;
    description : Js.t string;
    dueDate : Js.t Timestamp;
    publishedAt : Js.t Timestamp }.
End UpdateBody.

(** controllers/AssignmentsController.js; [console.error(error)] leaves a
    line without a prefix. *)
Module AssignmentsController.

Definition createAssignment (env : Env) (clock : Timestamp) (req : CreateAssignmentBody.t)
  : M (Response.t Assignment.t) :=
  try_catch
    (createAssignmentRequest <- lift (new_CreateAssignmentRequest clock req) ;;
     assignment <- AssignmentService.createAssignment env createAssignmentRequest ;;
     ret (Response.mk 201
            (Response.Payload (Some "Assignment created successfully") assignment)))
    (fun error =>
       console_error EmptyString ;;;
       ret (Response.mk 500 (Response.Failure error "Error creating assignment"))).

Definition updateAssignment (env : Env) (id : Z) (body : UpdateBody.t)
  (file : option File.t) (username : string) : M (Response.t (option Assignment.t)) :=
  try_catch
    (let updateData :=
       UpdateData.mk (UpdateBody.title body) (UpdateBody.description body)
         (UpdateBody.dueDate body) (UpdateBody.publishedAt body) Js.undefined
         file username in
     updatedAssignment <- AssignmentService.updateAssignment env id updateData ;;
     ret (Response.mk 200
            (Response.Payload (Some "Assignment updated successfully") updatedAssignment)))
    (fun error =>
       console_error EmptyString ;;;
       ret (Response.mk (status_or error 500)
              (Response.Failure error "Error updating assignment"))).

Definition deleteAssignment (env : Env) (id : Z) (username : string)
  : M (Response.t unit) :=
  try_catch
    (AssignmentService.deleteAssignment env id username ;;;
     ret (Response.mk 200 (Response.Payload (Some "Assignment deleted successfully") tt)))
    (fun error =>
       console_error EmptyString ;;;
       ret (Response.mk (status_or error 500)
              (Response.Failure error "Error deleting assignment"))).

Definition getAssignments (env : Env) (username : string) (query : Filters.t)
  : M (Response.t (list AssignmentRow.t)) :=
  try_catch
    (let filters := Filters.mk (Filters.publishedAt query) (Filters.status query) in
     assignments <- AssignmentService.getAssignments env username filters ;;
     ret (Response.mk 200 (Response.Payload None assignments)))
    (fun error =>
       console_error EmptyString ;;;
       ret (Response.mk (status_or error 500)
              (Response.Failure error "Error fetching assignments"))).

End AssignmentsController.

(** controllers/SubmissionsController.js *)
Module SubmissionsController.

Definition addSubmission (env : Env) (assignmentId : Z) (username : string)
  (file : option File.t) : M (Response.t Submission.t) :=
  try_catch
    (let submissionData := SubmissionData.mk assignmentId username file in
     submission <- SubmissionsService.addSubmission env submissionData ;;
     ret (Response.mk 201 (Response.Payload (Some "Submission added successfully") submission)))
    (fun error =>
       console_error EmptyString ;;;
       ret (Response.mk (status_or error 500)
              (Response.Failure error "Error adding submission"))).

Definition getAssignmentDetails (assignmentId : Z) (username : string)
  : M (Response.t SubmissionsService.Details) :=
  try_catch
    (assignmentDetails <- SubmissionsService.getAssignmentDetails assignmentId username ;;
     ret (Response.mk 200 (Response.Payload None assignmentDetails)))
    (fun error =>
       console_error EmptyString ;;;
       ret (Response.mk (status_or error 500)
              (Response.Failure error "Error fetching assignment details"))).

End SubmissionsController.

(** routes/AssignmentsRoute.js: [router.patch('/:id', updateAssignment)].
    No upload middleware stands before the handler of PATCH, so
    [req.file] is undefined when it runs. *)
Module AssignmentsRoute.

Definition patch (env : Env) (id : Z) (body : UpdateBody.t) (username : string)
  : M (Response.t (option Assignment.t)) :=
  AssignmentsController.updateAssignment env id body None username.

End AssignmentsRoute.

(** ** Authentication *)

Module Payload.
(** What a token of this server carries. *)
Record t := mk { username : string }.
End Payload.

(** [s.split(sep)] for a one-character separator *)
Fixpoint split_from (sep : ascii) (acc s : string) : list string :=
  match s with
  | EmptyString => [acc]
  | String c rest =>
      if Ascii.eqb c sep
      then acc :: split_from sep EmptyString rest
      else split_from sep (acc ++ String c EmptyString) rest
  end.

Definition split (sep : ascii) (s : string) : list string :=
  split_from sep EmptyString s.

Fixpoint no_space (s : string) : bool :=
  match s with
  | EmptyString => true
  | String c rest => negb (Ascii.eqb c " "%char) && no_space rest
  end.

(** What GenerateSignature resolves with: the token, or the error of
    [jwt.sign], which it returns instead of throwing. *)
Inductive Signature :=
| Token (token : string)
| ReturnedError.

(** What the middleware does with a request: hand it on with
    [req.username] set, or answer it with a status and a body of one
    property. *)
Inductive Gate :=
| Next (username : string)
| Reply (status : Z) (key text : string).

(** utils/AuthUtil.js, middlewares/Auth.js, services/LoginService.js and
    controllers/LoginController.js over the two functions of jsonwebtoken,
    each [None] where the library throws. *)
Section Jwt.

Variable jwt_sign : Payload.t -> option string.
Variable jwt_verify : string -> option Payload.t.

Definition GenerateSignature (payload : Payload.t) : Signature :=
  match jwt_sign payload with
  | Some token => Token token
  | None => ReturnedError
  end.

(** The answer [true] comes with [req.username] set, given here; [None]
    is the answer [false]. [authorization] is [req.get("Authorization")]. *)
Definition ValidateSignature (authorization : option string) : option string :=
  match authorization with
  | None => None
  | Some signature =>
      match nth_error (split " "%char signature) 1 with
      | None => None
      | Some token =>
          match jwt_verify token with
          | Some payload => Some (Payload.username payload)
          | None => None
          end
      end
  end.

Definition AuthCheck (authorization : option string) : Gate :=
  if negb (truthy authorization)
     || negb (match authorization with
              | Some authHeader => String.prefix "Bearer " authHeader
              | None => false
              end)
  then Reply 401 "message" "Authorization header is missing or invalid"
  else
    match ValidateSignature authorization with
    | Some username => Next username
    | None => Reply 403 "messages" "Not Authorized"
    end.

Definition loginUser (username password : Js.t string) : Result Signature :=
  if falsy_text username then Err (PlainError "Username is required!")
  else if falsy_text password then Err (PlainError "Password is required!")
  else
    Ok (GenerateSignature
          (Payload.mk (match username with Js.value s => s | _ => EmptyString end))).

Definition LoginUser (username password : Js.t string) : Response.t Signature :=
  match loginUser username password with
  | Ok token => Response.mk 200 (Response.Payload None token)
  | Err error => Response.mk 400 (Response.Rendered error)
  end.

End Jwt.

(** *** Responses *)

(** What a handler makes of the outcome of its service call: the response
    of the success, or the response built from the error after the error
    was logged. *)
Definition answer {A B} (ok : A -> Response.t B) (failed : Error -> Response.t B)
  (outcome : Result A * World) : Result (Response.t B) * World :=
  match outcome with
  | (Ok a, w') => (Ok (ok a), w')
  | (Err e, w') => (Ok (failed e), with_trace w' [ConsoleError EmptyString])
  end.

(** The key begins with a letter of [a-z]. *)
Definition head_lower (s : string) : bool :=
  match s with
  | String d _ => ObjectMapper.is_lower d
  | EmptyString => false
  end.

(** The object with each property under its converted name. *)
Definition renamed {V} (obj : ObjectMapper.Obj V) : ObjectMapper.Obj V :=
  map (fun kv => (ObjectMapper.camelKey (fst kv), snd kv)) obj.

(** ** Symbolic execution of a call *)

Lemma world_eta (w : World) :
  mkWorld (committed w) (txn w) (seqs w) (bucket w) (trace w) = w.
Proof. destruct w; reflexivity. Qed.

Lemma tables_eta (t : Tables) :
  mkTables (tblm_users t) (tblm_assignments t) (tblt_student_assignments t)
    (tblm_submissions t) = t.
Proof. destruct t; reflexivity. Qed.

Lemma bind_resolved {A} (w : World) (name : string) (u : User.t) (k : User.t -> M A) :
  resolves w name u ->
  bind (UserService.getUserByUsername name) k w = k u w.
Proof. unfold resolves, bind; intros ->; reflexivity. Qed.

Lemma getStudentAssignment_spec (aid sid : Z) (w : World) :
  SubmissionsDAO.getStudentAssignment aid sid w =
  match filter (sa_matches aid sid) (tblt_student_assignments (committed w)) with
  | [] =>
      if int4 aid then (Ok None, w)
      else (Err (PgError numeric_value_out_of_range),
            with_trace w [ConsoleError "Error fetching student assignment:"])
  | sa :: _ => (Ok (Some sa), w)
  end.
Proof.
  destruct w as [c t s b tr].
  unfold SubmissionsDAO.getStudentAssignment, try_catch, bind, query,
    sql_select_student_assignment, where_int4; cbn.
  destruct (filter (sa_matches aid sid) (tblt_student_assignments c)); [|reflexivity].
  destruct (int4 aid); reflexivity.
Qed.

Lemma filter_nil_of_existsb {A} (p : A -> bool) (l : list A) :
  existsb p l = false -> filter p l = [].
Proof.
  induction l as [|x l IH]; simpl; [reflexivity|].
  destruct (p x); simpl; [discriminate | exact IH].
Qed.

Lemma filter_cons_of_existsb {A} (p : A -> bool) (l : list A) :
  existsb p l = true ->
  exists x rest, filter p l = x :: rest /\ In x l /\ p x = true.
Proof.
  induction l as [|x l IH]; simpl; [discriminate|].
  destruct (p x) eqn:E; simpl.
  - intros _; exists x, (filter p l); auto.
  - intros H; destruct (IH H) as (y & rest & Hy & Hin & Hp); exists y, rest; auto.
Qed.

Lemma existsb_of_filter_cons {A} (p : A -> bool) (l : list A) (x : A) (rest : list A) :
  filter p l = x :: rest -> existsb p l = true.
Proof.
  intros H. apply existsb_exists. exists x.
  apply filter_In. rewrite H. left. reflexivity.
Qed.

Lemma getStudentAssignment_found (aid sid : Z) (w : World) :
  assigned (committed w) aid sid = true ->
  exists sa,
    SubmissionsDAO.getStudentAssignment aid sid w = (Ok (Some sa), w)
    /\ In sa (tblt_student_assignments (committed w))
    /\ sa_matches aid sid sa = true.
Proof.
  intros Hsa. rewrite getStudentAssignment_spec.
  destruct (filter_cons_of_existsb _ _ Hsa) as (sa & rest & -> & Hin & Hm).
  exists sa. auto.
Qed.

Lemma hd_error_filter_none {A} (p : A -> bool) (l : list A) :
  existsb p l = false -> hd_error (filter p l) = None.
Proof.
  induction l as [|x l IH]; simpl; [reflexivity|].
  destruct (p x); simpl; [discriminate | exact IH].
Qed.

Lemma hd_error_filter_some {A} (p : A -> bool) (l : list A) :
  existsb p l = true -> exists x, hd_error (filter p l) = Some x /\ In x l /\ p x = true.
Proof.
  induction l as [|x l IH]; simpl; [discriminate|].
  destruct (p x) eqn:E; simpl.
  - intros _; exists x; auto.
  - intros H; destruct (IH H) as (y & Hy & Hin & Hp); exists y; auto.
Qed.



(** C10. addSubmission does not check that a file was sent: for a student
    who holds a StudentAssignment row, a request without file raises a
    TypeError while the storage key is built. The error carries no status
    (it is neither InvalidInput nor Forbidden), nothing is uploaded and no
    table is written: the world is exactly as before the call. *)
Theorem addSubmission_missing_file_type_error
  (env : Env) (w : World) (u : User.t) (aid : Z) (name : string) :
  resolves w name u ->
  User.roleId u = Roles.STUDENT ->
  assigned (committed w) aid (User.id u) = true ->
  exists e,
    SubmissionsService.addSubmission env (SubmissionData.mk aid name None) w = (Err e, w)
    /\ e = TypeError "Cannot read properties of undefined (reading 'originalname')"
    /\ isInvalidInput e = false
    /\ isForbidden e = false.
Proof.
  intros Hu Hrole Hsa.
  eexists; split; [|split; [reflexivity | split; reflexivity]].
  unfold SubmissionsService.addSubmission; simpl.
  rewrite (bind_resolved _ Hu), Hrole; simpl.
  unfold bind at 1.
  destruct (@getStudentAssignment_found aid (User.id u) w Hsa) as (sa & -> & _).
  reflexivity.
Qed.

Lemma addSubmission_missing_file_type_error_witness :
  exists e,
    SubmissionsService.addSubmission Scenario.env_ok (SubmissionData.mk 1 "sam" None)
      Scenario.w_hw1 = (Err e, Scenario.w_hw1)
    /\ e = TypeError "Cannot read properties of undefined (reading 'originalname')"
    /\ isInvalidInput e = false
    /\ isForbidden e = false.
Proof.
  apply (@addSubmission_missing_file_type_error Scenario.env_ok Scenario.w_hw1 Scenario.sam);
    reflexivity.
Defined.

Lemma bind_loaded {A} (w : World) (aid : Z) (a : Assignment.t)
  (k : option Assignment.t -> M A) :
  loads w aid a ->
  bind (AssignmentDAO.getAssignmentById aid) k w = k (Some a) w.
Proof. unfold loads, bind; intros ->; reflexivity. Qed.

Lemma set_columns_error (sets : list (Column * SqlValue)) (a : Assignment.t) (e : Error) :
  set_columns sets a = Err e -> exists c, e = PgError c.
Proof.
  revert a; induction sets as [|[col v] sets IH]; simpl; intros a H; [discriminate|].
  destruct (set_column col v a) as [a'|e'] eqn:E.
  - eapply IH; eauto.
  - inversion H; subst e'. destruct a; destruct col, v; simpl in E;
      try (inversion E; eauto; fail);
      destruct (255 <? _); inversion E; eauto.
Qed.

Lemma update_rows_error sets aid rows e :
  update_rows sets aid rows = Err e -> exists c, e = PgError c.
Proof.
  induction rows as [|a rows IH]; simpl; [discriminate|].
  destruct (update_rows sets aid rows) as [[rest' hit]|e'].
  - destruct (Assignment.id a =? aid); [|discriminate].
    destruct (set_columns sets a) eqn:E; [discriminate|].
    intros H; inversion H; subst. eapply set_columns_error; eauto.
  - intros H; inversion H; subst. apply IH; reflexivity.
Qed.

Lemma dao_updateAssignment_not_forbidden aid d w e :
  fst (AssignmentDAO.updateAssignment aid d w) = Err e -> isForbidden e = false.
Proof.
  unfold AssignmentDAO.updateAssignment, try_catch.
  destruct (List.length (update_fields d) =? 0)%nat; simpl.
  - intros H; inversion H; reflexivity.
  - unfold bind, query, sql_update_assignment; simpl.
    destruct (update_rows _ _ _) as [[rows' hit]|e'] eqn:E; simpl.
    + discriminate.
    + intros H; inversion H; subst.
      destruct (update_rows_error _ _ _ E) as [c ->]; reflexivity.
Qed.

(** C5. createAssignment, updateAssignment and deleteAssignment fail with
    Forbidden (status 403), leaving the world untouched, for a requester
    whose role is not TUTOR; updateAssignment and deleteAssignment also
    fail with Forbidden for a tutor who is not the tutor of the loaded
    assignment; for the tutor who owns it neither call ever fails with
    Forbidden. *)
Theorem tutor_role_and_ownership_gate
  (env : Env) (w : World) (u : User.t) (name : string) :
  resolves w name u ->
  (User.roleId u <> Roles.TUTOR ->
     (forall data, CreateAssignmentRequest.username data = name ->
        exists e, AssignmentService.createAssignment env data w = (Err e, w)
                  /\ isForbidden e = true)
     /\ (forall aid data, UpdateData.username data = name ->
        exists e, AssignmentService.updateAssignment env aid data w = (Err e, w)
                  /\ isForbidden e = true)
     /\ (forall aid,
        exists e, AssignmentService.deleteAssignment env aid name w = (Err e, w)
                  /\ isForbidden e = true))
  /\ (User.roleId u = Roles.TUTOR ->
      forall aid a, loads w aid a ->
        (Assignment.tutorId a <> User.id u ->
           (forall data, UpdateData.username data = name ->
              exists e, AssignmentService.updateAssignment env aid data w = (Err e, w)
                        /\ isForbidden e = true)
           /\ (exists e, AssignmentService.deleteAssignment env aid name w = (Err e, w)
                         /\ isForbidden e = true))
        /\ (Assignment.tutorId a = User.id u ->
           (forall data e, UpdateData.username data = name ->
              fst (AssignmentService.updateAssignment env aid data w) = Err e ->
              isForbidden e = false)
           /\ (forall e,
              fst (AssignmentService.deleteAssignment env aid name w) = Err e ->
              isForbidden e = false))).
Proof.
  intros Hu; split.
  - intros Hrole. apply Z.eqb_neq in Hrole.
    repeat split.
    + intros data <-. eexists.
      unfold AssignmentService.createAssignment, try_catch.
      rewrite (bind_resolved _ Hu), Hrole; simpl. split; reflexivity.
    + intros aid data <-. eexists.
      unfold AssignmentService.updateAssignment, try_catch.
      rewrite (bind_resolved _ Hu), Hrole; simpl. split; reflexivity.
    + intros aid. eexists.
      unfold AssignmentService.deleteAssignment, try_catch.
      rewrite (bind_resolved _ Hu), Hrole; simpl. split; reflexivity.
  - intros Hrole aid a Ha; split.
    + intros Hown. apply Z.eqb_neq in Hown. split.
      * intros data <-. eexists.
        unfold AssignmentService.updateAssignment, try_catch.
        rewrite (bind_resolved _ Hu), Hrole; simpl.
        rewrite (bind_loaded _ Ha), Hown; simpl. split; reflexivity.
      * eexists.
        unfold AssignmentService.deleteAssignment, try_catch.
        rewrite (bind_resolved _ Hu), Hrole; simpl.
        rewrite (bind_loaded _ Ha), Hown; simpl. split; reflexivity.
    + intros Hown. apply Z.eqb_eq in Hown. split.
      * intros data e <-.
        unfold AssignmentService.updateAssignment, try_catch.
        rewrite (bind_resolved _ Hu), Hrole; simpl.
        rewrite (bind_loaded _ Ha), Hown; simpl.
        destruct (UpdateData.file data) as [f|].
        -- unfold bind at 1. unfold bind at 1. unfold S3.sendPutObject, bind at 1, emit.
           destruct (s3_fails env); simpl.
           ++ intros H; inversion H; reflexivity.
           ++ match goal with |- context [AssignmentDAO.updateAssignment ?i ?d ?w'] =>
                pose proof (@dao_updateAssignment_not_forbidden i d w' e) as Hd;
                destruct (AssignmentDAO.updateAssignment i d w') as [[r|e'] w'']
              end; simpl in *; [discriminate | exact Hd].
        -- unfold bind, ret.
           pose proof (@dao_updateAssignment_not_forbidden aid data w e) as Hd.
           destruct (AssignmentDAO.updateAssignment aid data w) as [[r|e'] w'']; simpl in *;
             [discriminate | exact Hd].
      * intros e.
        unfold AssignmentService.deleteAssignment, try_catch.
        rewrite (bind_resolved _ Hu), Hrole; simpl.
        rewrite (bind_loaded _ Ha), Hown; simpl.
        destruct (truthy (Assignment.s3Url a)).
        -- unfold bind, S3.sendDeleteObject, bind, emit.
           destruct (s3_fails env); simpl.
           ++ intros H; inversion H; reflexivity.
           ++ discriminate.
        -- unfold bind; simpl. discriminate.
Qed.

Lemma tutor_role_and_ownership_gate_witness :
  (exists e,
     AssignmentService.createAssignment Scenario.env_ok
       (CreateAssignmentRequest.mk "HW2" None 0 (minutes 120) Scenario.hw1_pdf (Some [2])
          "sam")
       Scenario.w_hw1 = (Err e, Scenario.w_hw1)
     /\ isForbidden e = true)
  /\ (exists e,
     AssignmentService.deleteAssignment Scenario.env_ok 1 "tom" Scenario.w_hw1
     = (Err e, Scenario.w_hw1)
     /\ isForbidden e = true)
  /\ (forall e,
     fst (AssignmentService.deleteAssignment Scenario.env_ok 1 "tina" Scenario.w_hw1) = Err e ->
     isForbidden e = false).
Proof.
  split; [|split].
  - destruct (@tutor_role_and_ownership_gate Scenario.env_ok Scenario.w_hw1
                Scenario.sam "sam" eq_refl) as [H _].
    apply H; [vm_compute; lia | reflexivity].
  - destruct (@tutor_role_and_ownership_gate Scenario.env_ok Scenario.w_hw1
                Scenario.tom "tom" eq_refl) as [_ H].
    destruct (H eq_refl 1 (Assignment.mk 1 1 "HW1" None 0 (minutes 120)
                             (Some "https://classroom-files.s3.ap-south-1.amazonaws.com/c0ffee-hw1.pdf")
                             60000 60000) eq_refl) as [Hother _].
    apply Hother; vm_compute; lia.
  - destruct (@tutor_role_and_ownership_gate Scenario.env_ok Scenario.w_hw1
                Scenario.tina "tina" eq_refl) as [_ H].
    destruct (H eq_refl 1 (Assignment.mk 1 1 "HW1" None 0 (minutes 120)
                             (Some "https://classroom-files.s3.ap-south-1.amazonaws.com/c0ffee-hw1.pdf")
                             60000 60000) eq_refl) as [_ Hown].
    apply Hown; reflexivity.
Defined.

Lemma has_assignment_after_delete (aid : Z) (l : list Assignment.t) :
  existsb (fun a => Assignment.id a =? aid)
    (filter (fun a => negb (Assignment.id a =? aid)) l) = false.
Proof.
  induction l as [|a l IH]; simpl; [reflexivity|].
  destruct (Assignment.id a =? aid) eqn:E; simpl; [exact IH|].
  rewrite E; exact IH.
Qed.

(** C4, as the code has it. Once the role and ownership checks of
    deleteAssignment have passed: if the assignment has a file URL and the
    DeleteObject command fails, the S3 error propagates and the tables
    are as before (the Assignment row is kept); otherwise the call
    returns normally and the Assignment row is gone. *)
Theorem deleteAssignment_row_follows_blob
  (env : Env) (w : World) (u : User.t) (name : string) (aid : Z) (a : Assignment.t) :
  resolves w name u ->
  User.roleId u = Roles.TUTOR ->
  loads w aid a ->
  Assignment.tutorId a = User.id u ->
  let r := AssignmentService.deleteAssignment env aid name w in
  if truthy (Assignment.s3Url a) && s3_fails env
  then fst r = Err S3ServiceException /\ committed (snd r) = committed w
  else fst r = Ok tt /\ has_assignment (committed (snd r)) aid = false.
Proof.
  intros Hu Hrole Ha Hown r; subst r.
  apply Z.eqb_eq in Hown.
  unfold AssignmentService.deleteAssignment, try_catch.
  rewrite (bind_resolved _ Hu), Hrole; simpl.
  rewrite (bind_loaded _ Ha), Hown; simpl.
  destruct w as [c t s b tr].
  destruct (truthy (Assignment.s3Url a)); simpl.
  - unfold bind, S3.sendDeleteObject, bind, emit.
    destruct (s3_fails env); simpl; [split; reflexivity|].
    split; [reflexivity|].
    unfold has_assignment; simpl. apply has_assignment_after_delete.
  - split; [reflexivity|].
    unfold has_assignment; simpl. apply has_assignment_after_delete.
Qed.

Lemma deleteAssignment_row_follows_blob_witness :
  fst (AssignmentService.deleteAssignment Scenario.env_ok 1 "tina" Scenario.w_hw1) = Ok tt
  /\ has_assignment
       (committed (snd (AssignmentService.deleteAssignment Scenario.env_ok 1 "tina"
                          Scenario.w_hw1))) 1 = false.
Proof.
  exact (@deleteAssignment_row_follows_blob Scenario.env_ok Scenario.w_hw1 Scenario.tina
           "tina" 1
           (Assignment.mk 1 1 "HW1" None 0 (minutes 120)
              (Some "https://classroom-files.s3.ap-south-1.amazonaws.com/c0ffee-hw1.pdf")
              60000 60000)
           eq_refl eq_refl eq_refl eq_refl).
Defined.

(** C4, as stated, fails: tina owns HW1 and passes both checks, the
    DeleteObject command fails, and deleteAssignment rethrows the S3 error
    without logging anything; the Assignment row is still there. *)
Lemma deleteAssignment_blob_failure_blocks_row :
  let r := AssignmentService.deleteAssignment Scenario.env_s3_down 1 "tina" Scenario.w_hw1 in
  resolves Scenario.w_hw1 "tina" Scenario.tina
  /\ User.roleId Scenario.tina = Roles.TUTOR
  /\ (exists a, loads Scenario.w_hw1 1 a /\ Assignment.tutorId a = User.id Scenario.tina)
  /\ fst r = Err S3ServiceException
  /\ has_assignment (committed (snd r)) 1 = true
  /\ trace (snd r) = trace Scenario.w_hw1 ++ [S3Delete "c0ffee-hw1.pdf"].
Proof.
  repeat split; try reflexivity.
  eexists; split; reflexivity.
Qed.

(** *** updateAssignment *)





Lemma getAssignmentById_spec (aid : Z) (w : World) :
  AssignmentDAO.getAssignmentById aid w =
  match filter (fun a => Assignment.id a =? aid) (tblm_assignments (committed w)) with
  | [] =>
      if int4 aid then (Ok None, w)
      else (Err (PgError numeric_value_out_of_range),
            with_trace w [ConsoleError "Error fetching assignment by ID:"])
  | a :: _ => (Ok (Some a), w)
  end.
Proof.
  destruct w as [c t s b tr].
  unfold AssignmentDAO.getAssignmentById, try_catch, bind, query,
    sql_select_assignment_by_id, where_int4; cbn.
  destruct (filter (fun a => Assignment.id a =? aid) (tblm_assignments c));
    [|reflexivity].
  destruct (int4 aid); reflexivity.
Qed.




Lemma distinct_NoDup (l : list Z) : distinct Z.eqb l = true -> NoDup l.
Proof.
  induction l as [|x l IH]; simpl; intros H; [constructor|].
  apply andb_prop in H as [Hx Hl].
  constructor; [|apply IH; exact Hl].
  intros Hin. apply negb_true_iff in Hx.
  assert (existsb (Z.eqb x) l = true) as Hex
    by (apply existsb_exists; exists x; split; [exact Hin | apply Z.eqb_refl]).
  congruence.
Qed.



Lemma try_catch_rethrow {A} (m : M A) (w : World) :
  try_catch m (fun error => throw error) w = m w.
Proof.
  unfold try_catch, throw. destruct (m w) as [[x|e] w']; reflexivity.
Qed.

Lemma sendPutObject_spec (env : Env) (f : File.t) (w : World) :
  S3.sendPutObject env (uniqueKey env f) (File.buffer f) (File.mimetype f) w
  = if s3_fails env
    then (Err S3ServiceException, with_trace w [S3Put (uniqueKey env f)])
    else (Ok tt, uploaded env f w).
Proof.
  unfold S3.sendPutObject, bind, emit, with_trace, uploaded, throw.
  destruct (s3_fails env); reflexivity.
Qed.

(** What is left of updateAssignment once both checks have passed. *)
Lemma updateAssignment_owner (env : Env) (w : World) (u : User.t) (aid : Z)
  (a : Assignment.t) (d : UpdateData.t) :
  resolves w (UpdateData.username d) u ->
  User.roleId u = Roles.TUTOR ->
  loads w aid a ->
  Assignment.tutorId a = User.id u ->
  AssignmentService.updateAssignment env aid d w
  = match UpdateData.file d with
    | Some f =>
        if s3_fails env
        then (Err S3ServiceException, with_trace w [S3Put (uniqueKey env f)])
        else AssignmentDAO.updateAssignment aid
               (with_fileUrl d (S3.url env (uniqueKey env f))) (uploaded env f w)
    | None => AssignmentDAO.updateAssignment aid d w
    end.
Proof.
  intros Hu Hrole Ha Hown. apply Z.eqb_eq in Hown.
  unfold AssignmentService.updateAssignment.
  rewrite try_catch_rethrow.
  rewrite (bind_resolved _ Hu), Hrole.
  cbn [negb Z.eqb Roles.TUTOR Pos.eqb].
  rewrite (bind_loaded _ Ha), Hown. cbn [negb].
  destruct (UpdateData.file d) as [f|].
  - unfold bind at 1. unfold bind at 1. rewrite sendPutObject_spec.
    destruct (s3_fails env); reflexivity.
  - unfold bind, ret.
    destruct (AssignmentDAO.updateAssignment aid d w) as [[x|e] w']; reflexivity.
Qed.



(** *** getAssignments *)

Lemma in_join {A B} (l : list A) (r : list B) (on : A -> B -> bool) (x : A) (y : B) :
  In (x, y) (join l r on) <-> In x l /\ In y r /\ on x y = true.
Proof.
  unfold join. rewrite in_flat_map. split.
  - intros (x' & Hx & Hin). apply in_map_iff in Hin as (y' & Heq & Hy).
    inversion Heq; subst. apply filter_In in Hy. tauto.
  - intros (Hx & Hy & Hon). exists x. split; [exact Hx|].
    apply in_map, filter_In. tauto.
Qed.

Lemma getAssignments_tutor (env : Env) (w : World) (u : User.t) (name : string)
  (filters : Filters.t) :
  resolves w name u ->
  User.roleId u = Roles.TUTOR ->
  AssignmentService.getAssignments env name filters w
  = (Ok (map (fun a => AssignmentRow.mk a None)
           (filter (fun a => (Assignment.tutorId a =? User.id u)
                             && published_clause env (Filters.publishedAt filters) a)
              (tblm_assignments (committed w)))),
     w).
Proof.
  intros Hu Hrole. unfold AssignmentService.getAssignments.
  rewrite try_catch_rethrow, (bind_resolved _ Hu), Hrole.
  destruct w; reflexivity.
Qed.

Lemma getAssignments_student (env : Env) (w : World) (u : User.t) (name : string)
  (filters : Filters.t) :
  resolves w name u ->
  User.roleId u = Roles.STUDENT ->
  AssignmentService.getAssignments env name filters w
  = (Ok (map (fun r => AssignmentRow.mk (fst r) (Some (StudentAssignment.statusId (snd r))))
           (filter (fun r => (StudentAssignment.studentId (snd r) =? User.id u)
                             && published_clause env (Filters.publishedAt filters) (fst r)
                             && status_clause env (Filters.status filters) r)
              (join (tblm_assignments (committed w))
                 (tblt_student_assignments (committed w))
                 (fun a sa => Assignment.id a =? StudentAssignment.assignmentId sa)))),
     w).
Proof.
  intros Hu Hrole. unfold AssignmentService.getAssignments.
  rewrite try_catch_rethrow, (bind_resolved _ Hu), Hrole.
  destruct w; reflexivity.
Qed.

(** C8. For a tutor or a student, a listing filtered by SCHEDULED holds
    only assignments published strictly after now and one filtered by
    ONGOING only assignments published at or before now (for a tutor:
    exactly the tutor's assignments of that kind). For a student the
    status filter OVERDUE lists exactly the assignments mapped to the
    student whose mapping is PENDING and whose deadline lies before now,
    the comparison being made by the query itself. *)
Theorem getAssignments_filters
  (env : Env) (w : World) (u : User.t) (name : string) :
  resolves w name u ->
  User.roleId u = Roles.TUTOR \/ User.roleId u = Roles.STUDENT ->
  (forall status, exists rows,
      AssignmentService.getAssignments env name
        (Filters.mk (Some "SCHEDULED") status) w = (Ok rows, w)
      /\ (forall r, In r rows -> now env < Assignment.publishedAt (AssignmentRow.assignment r))
      /\ (User.roleId u = Roles.TUTOR ->
          forall a, In (AssignmentRow.mk a None) rows <->
                    In a (tblm_assignments (committed w))
                    /\ Assignment.tutorId a = User.id u
                    /\ now env < Assignment.publishedAt a))
  /\ (forall status, exists rows,
      AssignmentService.getAssignments env name
        (Filters.mk (Some "ONGOING") status) w = (Ok rows, w)
      /\ (forall r, In r rows -> Assignment.publishedAt (AssignmentRow.assignment r) <= now env)
      /\ (User.roleId u = Roles.TUTOR ->
          forall a, In (AssignmentRow.mk a None) rows <->
                    In a (tblm_assignments (committed w))
                    /\ Assignment.tutorId a = User.id u
                    /\ Assignment.publishedAt a <= now env))
  /\ (User.roleId u = Roles.STUDENT ->
      forall publishedAt, exists rows,
        AssignmentService.getAssignments env name
          (Filters.mk publishedAt (Some "OVERDUE")) w = (Ok rows, w)
        /\ forall r, In r rows <->
             exists a sa,
               r = AssignmentRow.mk a (Some SubmissionStatus.PENDING)
               /\ In a (tblm_assignments (committed w))
               /\ In sa (tblt_student_assignments (committed w))
               /\ StudentAssignment.assignmentId sa = Assignment.id a
               /\ StudentAssignment.studentId sa = User.id u
               /\ published_clause env publishedAt a = true
               /\ StudentAssignment.statusId sa = SubmissionStatus.PENDING
               /\ Assignment.deadline a < now env).
Proof.
  intros Hu Hroles. split; [|split].
  - intros status. destruct Hroles as [Hr|Hr].
    + eexists. rewrite (getAssignments_tutor env _ Hu Hr). split; [reflexivity|]. split.
      * intros r Hin. apply in_map_iff in Hin as (a & <- & Hin).
        apply filter_In in Hin as [_ H]. apply andb_prop in H as [_ H].
        apply Z.ltb_lt in H. exact H.
      * intros _ a. rewrite in_map_iff. split.
        -- intros (a' & Heq & Hin). inversion Heq; subst a'.
           apply filter_In in Hin as [Hin H]. apply andb_prop in H as [H1 H2].
           apply Z.eqb_eq in H1. apply Z.ltb_lt in H2. tauto.
        -- intros (Hin & Ht & Hp). exists a. split; [reflexivity|].
           apply filter_In. split; [exact Hin|]. apply andb_true_intro. split.
           ++ apply Z.eqb_eq; exact Ht.
           ++ apply Z.ltb_lt; exact Hp.
    + eexists. rewrite (getAssignments_student env _ Hu Hr). split; [reflexivity|]. split.
      * intros r Hin. apply in_map_iff in Hin as (p & <- & Hin).
        apply filter_In in Hin as [_ H]. apply andb_prop in H as [H _].
        apply andb_prop in H as [_ H]. apply Z.ltb_lt in H. exact H.
      * intros Ht. rewrite Ht in Hr. discriminate Hr.
  - intros status. destruct Hroles as [Hr|Hr].
    + eexists. rewrite (getAssignments_tutor env _ Hu Hr). split; [reflexivity|]. split.
      * intros r Hin. apply in_map_iff in Hin as (a & <- & Hin).
        apply filter_In in Hin as [_ H]. apply andb_prop in H as [_ H].
        apply Z.leb_le in H. exact H.
      * intros _ a. rewrite in_map_iff. split.
        -- intros (a' & Heq & Hin). inversion Heq; subst a'.
           apply filter_In in Hin as [Hin H]. apply andb_prop in H as [H1 H2].
           apply Z.eqb_eq in H1. apply Z.leb_le in H2. tauto.
        -- intros (Hin & Ht & Hp). exists a. split; [reflexivity|].
           apply filter_In. split; [exact Hin|]. apply andb_true_intro. split.
           ++ apply Z.eqb_eq; exact Ht.
           ++ apply Z.leb_le; exact Hp.
    + eexists. rewrite (getAssignments_student env _ Hu Hr). split; [reflexivity|]. split.
      * intros r Hin. apply in_map_iff in Hin as (p & <- & Hin).
        apply filter_In in Hin as [_ H]. apply andb_prop in H as [H _].
        apply andb_prop in H as [_ H]. apply Z.leb_le in H. exact H.
      * intros Ht. rewrite Ht in Hr. discriminate Hr.
  - intros Hr publishedAt. eexists.
    rewrite (getAssignments_student env _ Hu Hr). split; [reflexivity|].
    intros r. rewrite in_map_iff. split.
    + intros ([a sa] & <- & Hin). apply filter_In in Hin as [Hj H].
      apply in_join in Hj as (Ha & Hsa & Hon).
      apply andb_prop in H as [H Hst]. apply andb_prop in H as [Hs Hp].
      cbn [fst snd Filters.publishedAt Filters.status] in *.
      unfold status_clause in Hst. cbn in Hst.
      apply andb_prop in Hst as [Hst Hd].
      apply Z.eqb_eq in Hon, Hs, Hst. apply Z.ltb_lt in Hd.
      exists a, sa. rewrite Hst. repeat split; auto.
    + intros (a & sa & -> & Ha & Hsa & Hon & Hs & Hp & Hst & Hd).
      exists (a, sa). cbn [fst snd]. rewrite Hst. split; [reflexivity|].
      apply filter_In. split.
      * apply in_join. repeat split; auto. apply Z.eqb_eq; auto.
      * cbn [fst snd Filters.publishedAt Filters.status].
        unfold status_clause. cbn.
        rewrite Hp, Hst. apply Z.eqb_eq in Hs. rewrite Hs.
        apply Z.ltb_lt in Hd. rewrite Hd. reflexivity.
Qed.

Lemma getAssignments_filters_witness :
  exists rows,
    AssignmentService.getAssignments Scenario.env_ok "sam"
      (Filters.mk (Some "ONGOING") None) Scenario.w_hw1 = (Ok rows, Scenario.w_hw1)
    /\ forall r, In r rows ->
         Assignment.publishedAt (AssignmentRow.assignment r) <= now Scenario.env_ok.
Proof.
  destruct (@getAssignments_filters Scenario.env_ok Scenario.w_hw1 Scenario.sam "sam"
              eq_refl (or_intror eq_refl)) as (_ & H & _).
  destruct (H None) as (rows & Hr & Hin & _).
  exists rows. split; assumption.
Defined.

(** *** notifyUpcomingAssignments *)

Lemma with_trace_nil (w : World) : with_trace w [] = w.
Proof. destruct w; unfold with_trace; simpl. rewrite app_nil_r. reflexivity. Qed.

Lemma sendNotificationsFrom_spec (env : Env) (rows : list UpcomingRow.t) :
  forall (i : nat) (w : World),
    NotificationService.sendNotificationsFrom env i rows w
    = (Ok tt, with_trace w (delivery_events env i rows)).
Proof.
  induction rows as [|row rows IH]; intros i w.
  - simpl. rewrite with_trace_nil. reflexivity.
  - cbn [NotificationService.sendNotificationsFrom delivery_events].
    unfold bind at 1, try_catch, NotificationService.sendMail, bind at 1, emit.
    destruct (mail_fails env i); cbn [throw ret console_error emit].
    + rewrite IH. unfold with_trace; cbn. f_equal. f_equal.
      rewrite <- !app_assoc. reflexivity.
    + rewrite IH. unfold with_trace; cbn. f_equal. f_equal.
      rewrite <- !app_assoc. reflexivity.
Qed.

Lemma mails_sent_delivery_events (env : Env) (rows : list UpcomingRow.t) (i : nat) :
  mails_sent (delivery_events env i rows)
  = map (NotificationService.mailOptionsFor env) rows.
Proof.
  revert i; induction rows as [|row rows IH]; intros i; [reflexivity|].
  cbn [delivery_events mails_sent map].
  destruct (mail_fails env i); cbn [app mails_sent]; rewrite IH; reflexivity.
Qed.

Lemma failure_logged (env : Env) (rows : list UpcomingRow.t) :
  forall (i k : nat) (row : UpcomingRow.t),
    nth_error rows k = Some row ->
    mail_fails env (i + k) = true ->
    In (ConsoleError ("Failed to send notification to "
                      ++ UpcomingRow.student_email row ++ ":"))
      (delivery_events env i rows).
Proof.
  induction rows as [|r rows IH]; intros i k row Hk Hf.
  - destruct k; discriminate Hk.
  - cbn [delivery_events]. destruct k as [|k]; simpl in Hk.
    + inversion Hk; subst r. rewrite Nat.add_0_r in Hf. rewrite Hf.
      right. left. reflexivity.
    + right. apply in_or_app. right. apply (IH (S i) k row Hk).
      rewrite <- Nat.add_succ_comm in Hf. exact Hf.
Qed.

Lemma filter_find_pk {A} (key : A -> Z) (k : Z) (l : list A) :
  NoDup (map key l) ->
  filter (fun x => k =? key x) l
  = match find (fun x => k =? key x) l with
    | Some x => [x]
    | None => []
    end.
Proof.
  induction l as [|x l IH]; simpl; intros Hnd; [reflexivity|].
  inversion Hnd as [|? ? Hnotin Hnd']; subst.
  destruct (k =? key x) eqn:E.
  - apply Z.eqb_eq in E. f_equal.
    clear IH Hnd Hnd'. induction l as [|y l IHl]; simpl; [reflexivity|].
    destruct (k =? key y) eqn:Ey.
    + apply Z.eqb_eq in Ey. exfalso; apply Hnotin. left. congruence.
    + apply IHl. intros Hc; apply Hnotin; right; exact Hc.
  - apply IH; exact Hnd'.
Qed.

Lemma find_has_user (t : Tables) (uid : Z) :
  has_user t uid = true ->
  exists u, find (fun u => uid =? User.id u) (tblm_users t) = Some u.
Proof.
  unfold has_user. induction (tblm_users t) as [|x l IH]; simpl; [discriminate|].
  rewrite (Z.eqb_sym uid). destruct (User.id x =? uid); simpl.
  - intros _; eexists; reflexivity.
  - exact IH.
Qed.

Lemma upcoming_rows_cons (env : Env) (status : Z) (t : Tables)
  (sa : StudentAssignment.t) (l : list StudentAssignment.t) :
  upcoming_rows env status (with_student_assignments t (sa :: l))
  = upcoming_rows env status (with_student_assignments t [sa])
    ++ upcoming_rows env status (with_student_assignments t l).
Proof.
  unfold upcoming_rows, join; cbn.
  rewrite app_nil_r, flat_map_app, filter_app, map_app.
  reflexivity.
Qed.

Lemma upcoming_rows_single (env : Env) (t : Tables) (sa : StudentAssignment.t) :
  users_pk t = true ->
  assignments_pk t = true ->
  has_user t (StudentAssignment.studentId sa) = true ->
  exists rows,
    upcoming_rows env SubmissionStatus.PENDING (with_student_assignments t [sa]) = rows
    /\ Forall2 (reminder_for t) (if due_soon env t sa then [sa] else []) rows.
Proof.
  intros Hu Ha Hfk. apply distinct_NoDup in Hu, Ha.
  unfold upcoming_rows, join, due_soon, assignment_of; cbn.
  rewrite app_nil_r.
  rewrite (filter_find_pk Assignment.id _ _ Ha).
  destruct (find _ (tblm_assignments t)) as [a|] eqn:Efa; cbn.
  - rewrite app_nil_r.
    rewrite (filter_find_pk User.id _ _ Hu).
    destruct (find_has_user _ _ Hfk) as [u Efu]. rewrite Efu. cbn.
    destruct (in_window env (Assignment.deadline a)
              && (StudentAssignment.statusId sa =? SubmissionStatus.PENDING)); cbn.
    + eexists; split; [reflexivity|]. constructor; [|constructor].
      exists a, u. unfold assignment_of, student_of. auto.
    + eexists; split; [reflexivity|]. constructor.
  - eexists; split; [reflexivity|]. constructor.
Qed.

Lemma upcoming_rows_spec (env : Env) (t : Tables) (l : list StudentAssignment.t) :
  users_pk t = true ->
  assignments_pk t = true ->
  forallb (fun sa => has_user t (StudentAssignment.studentId sa)) l = true ->
  Forall2 (reminder_for t) (filter (due_soon env t) l)
    (upcoming_rows env SubmissionStatus.PENDING (with_student_assignments t l)).
Proof.
  intros Hu Ha. induction l as [|sa l IH]; intros Hfk.
  - constructor.
  - cbn in Hfk. apply andb_prop in Hfk as [Hsa Hl].
    rewrite upcoming_rows_cons.
    destruct (upcoming_rows_single env t sa Hu Ha Hsa) as (rows & -> & Hrows).
    replace (filter (due_soon env t) (sa :: l))
      with ((if due_soon env t sa then [sa] else []) ++ filter (due_soon env t) l)%list
      by (cbn; destruct (due_soon env t sa); reflexivity).
    apply Forall2_app; [exact Hrows | apply IH; exact Hl].
Qed.

Lemma due_soon_iff (env : Env) (t : Tables) (sa : StudentAssignment.t) :
  due_soon env t sa = true <->
  StudentAssignment.statusId sa = SubmissionStatus.PENDING
  /\ exists a,
       assignment_of t sa = Some a
       /\ now env + 59 * 60 * 1000000 <= Assignment.deadline a <= now env + 60 * 60 * 1000000.
Proof.
  unfold due_soon, in_window, minutes.
  destruct (assignment_of t sa) as [a|].
  - rewrite !andb_true_iff, Z.eqb_eq, !Z.leb_le. split.
    + intros [[H1 H2] H3]. split; [exact H3|]. exists a. split; [reflexivity | lia].
    + intros [H3 (a' & Heq & H1 & H2)]. inversion Heq; subst a'. auto.
  - split; [discriminate|]. intros [_ (a & Heq & _)]. discriminate Heq.
Qed.

(** C9. On a tick the scanner sends one reminder for each mapping row that
    is PENDING and whose assignment has its deadline between now + 59
    minutes and now + 60 minutes (both included), addressed to the row's
    student and naming the row's assignment. Every one of these deliveries
    is attempted whichever of them fail; a failed delivery leaves an error
    line in the log, and the tick itself returns normally. *)
Theorem notify_each_pending_row_once (env : Env) (w : World) :
  users_pk (committed w) = true ->
  assignments_pk (committed w) = true ->
  student_assignments_fk (committed w) = true ->
  exists rows,
    Forall2 (reminder_for (committed w))
      (filter (due_soon env (committed w)) (tblt_student_assignments (committed w)))
      rows
    /\ (forall sa,
          due_soon env (committed w) sa = true <->
          StudentAssignment.statusId sa = SubmissionStatus.PENDING
          /\ exists a,
               assignment_of (committed w) sa = Some a
               /\ now env + 59 * 60 * 1000000 <= Assignment.deadline a
                  <= now env + 60 * 60 * 1000000)
    /\ NotificationService.notifyUpcomingAssignments env w
       = (Ok tt, with_trace w (delivery_events env 0 rows))
    /\ mails_sent (delivery_events env 0 rows)
       = map (NotificationService.mailOptionsFor env) rows
    /\ (forall k row,
          nth_error rows k = Some row ->
          mail_fails env k = true ->
          In (ConsoleError ("Failed to send notification to "
                            ++ UpcomingRow.student_email row ++ ":"))
            (delivery_events env 0 rows)).
Proof.
  intros Hu Ha Hfk.
  exists (upcoming_rows env SubmissionStatus.PENDING (committed w)).
  split; [|split; [|split; [|split]]].
  - rewrite <- (tables_eta (committed w)) at 3.
    apply upcoming_rows_spec; try assumption.
    unfold student_assignments_fk in Hfk.
    rewrite forallb_forall in *. intros sa Hsa.
    apply Hfk in Hsa. apply andb_prop in Hsa as [_ H]. exact H.
  - intros sa. apply due_soon_iff.
  - unfold NotificationService.notifyUpcomingAssignments, try_catch, bind,
      NotificationService.fetchUpcomingAssignments, query, sql_select_upcoming.
    cbn [visible store]. rewrite world_eta.
    destruct (upcoming_rows env SubmissionStatus.PENDING (committed w)) as [|row rows] eqn:E.
    + cbn. rewrite with_trace_nil. reflexivity.
    + cbn [List.length Nat.ltb Nat.leb].
      unfold NotificationService.sendNotifications.
      rewrite sendNotificationsFrom_spec. reflexivity.
  - apply mails_sent_delivery_events.
  - intros k row Hk Hf. apply (@failure_logged env _ 0%nat k row Hk Hf).
Qed.

Lemma notify_each_pending_row_once_witness :
  exists rows,
    Forall2 (reminder_for (committed Scenario.w_hw1))
      (filter (due_soon Scenario.env_tick (committed Scenario.w_hw1))
         (tblt_student_assignments (committed Scenario.w_hw1)))
      rows
    /\ NotificationService.notifyUpcomingAssignments Scenario.env_tick Scenario.w_hw1
       = (Ok tt, with_trace Scenario.w_hw1 (delivery_events Scenario.env_tick 0 rows)).
Proof.
  destruct (@notify_each_pending_row_once Scenario.env_tick Scenario.w_hw1
              eq_refl eq_refl eq_refl) as (rows & H1 & _ & H3 & _).
  exists rows. split; assumption.
Defined.

(** The tick of the scenario: sam still owes HW1, the single delivery is
    attempted, fails, and is logged. *)
Example tick_one_hour_before_deadline :
  NotificationService.notifyUpcomingAssignments Scenario.env_tick Scenario.w_hw1
  = (Ok tt,
     with_trace Scenario.w_hw1
       [SendMail
          (NotificationService.mailOptionsFor Scenario.env_tick
             (UpcomingRow.mk 1 "HW1" (minutes 120) "sam@classroom.test"));
        ConsoleError "Failed to send notification to sam@classroom.test:"]).
Proof. reflexivity. Qed.

(** *** Transactions *)

Lemma getUserByUsername_spec (name : string) (w : World) :
  UserService.getUserByUsername name w
  = match filter (fun u => String.eqb (User.username u) name) (tblm_users (committed w)) with
    | [] =>
        (Err (PlainError ("User with username " ++ dquote ++ name ++ dquote ++ " not found")),
         with_trace w
           [ConsoleError ("Error fetching user for username " ++ dquote ++ name ++ dquote ++ ":");
            ConsoleError ("Error in UserService while fetching user ID for username "
                          ++ dquote ++ name ++ dquote ++ ":")])
    | user :: _ => (Ok user, w)
    end.
Proof.
  destruct w as [c t s b tr].
  unfold UserService.getUserByUsername, UserDAO.getUserByUsername, try_catch, bind, query,
    UserDAO.select_user_by_username; cbn.
  destruct (filter _ (tblm_users c)); cbn; [|reflexivity].
  unfold with_trace; cbn. rewrite <- app_assoc. reflexivity.
Qed.

Lemma existsb_hd_error_filter {A} (p : A -> bool) (l : list A) (x : A) :
  hd_error (filter p l) = Some x -> existsb p l = true.
Proof.
  induction l as [|y l IH]; simpl; [discriminate|].
  destruct (p y); simpl; [reflexivity | exact IH].
Qed.

(** Every way addSubmission can end: an error with the tables as they
    were, or the commit of its two statements run one after the other. *)
Lemma addSubmission_commits (env : Env) (d : SubmissionData.t) (w : World)
  (res : Result Submission.t) (w' : World) :
  txn w = None ->
  SubmissionsService.addSubmission env d w = (res, w') ->
  txn w' = None
  /\ ((exists e, res = Err e) /\ committed w' = committed w
      \/ exists u f row t1 sq1 t2 sq2,
           resolves w (SubmissionData.studentUsername d) u
           /\ User.roleId u = Roles.STUDENT
           /\ assigned (committed w) (SubmissionData.assignmentId d) (User.id u) = true
           /\ res = Ok row
           /\ db_fails env StInsertSubmission = false
           /\ db_fails env StUpdateStatus = false
           /\ db_fails env StCommit = false
           /\ sql_insert_submission env (SubmissionData.assignmentId d) (User.id u)
                (S3.url env (uniqueKey env f)) (seqs w) (committed w)
              = (Ok (row, t1), sq1)
           /\ sql_update_status (SubmissionData.assignmentId d) (User.id u)
                SubmissionStatus.SUBMITTED sq1 t1
              = (Ok (tt, t2), sq2)
           /\ committed w' = t2).
Proof.
  intros Htxn.
  unfold SubmissionsService.addSubmission.
  unfold bind at 1. unfold resolves. rewrite getUserByUsername_spec.
  destruct (filter _ (tblm_users (committed w))) as [|u us];
    [intros H; inversion H; subst; split; [exact Htxn | left; eauto]|].
  destruct (User.roleId u =? Roles.STUDENT) eqn:Hrole; cbn [negb];
    [|intros H; inversion H; subst; split; [exact Htxn | left; eauto]].
  unfold bind at 1. rewrite getStudentAssignment_spec.
  destruct (filter (sa_matches _ _) _) as [|sa rest] eqn:Hsa;
    [destruct (int4 _);
     (intros H; inversion H; subst; split; [exact Htxn | left; eauto])|].
  apply existsb_of_filter_cons in Hsa.
  destruct (SubmissionData.file d) as [f|];
    [|intros H; inversion H; subst; split; [exact Htxn | left; eauto]].
  unfold bind at 1. rewrite sendPutObject_spec.
  destruct (s3_fails env);
    [intros H; inversion H; subst; split; [exact Htxn | left; eauto]|].
  unfold bind at 1, DatabaseTransaction.beginTransaction.
  destruct (db_fails env StBegin) eqn:Eb;
    [intros H; inversion H; subst; split; [exact Htxn | left; eauto]|].
  unfold try_catch, bind, SubmissionsDAO.saveSubmission,
    SubmissionsDAO.updateStudentAssignmentStatus, try_catch, client_query,
    DatabaseTransaction.commitTransaction, DatabaseTransaction.rollbackTransaction.
  destruct (db_fails env StInsertSubmission) eqn:F1; cbn -[S3.url];
    [intros H; inversion H; subst; split; [reflexivity | left; eauto]|].
  unfold query; cbn -[S3.url].
  destruct (sql_insert_submission env (SubmissionData.assignmentId d) (User.id u)
              (S3.url env (uniqueKey env f)) (seqs w) (committed w))
    as [[[row t1]|e1] sq1] eqn:E1; cbn;
    [|intros H; inversion H; subst; split; [reflexivity | left; eauto]].
  destruct (db_fails env StUpdateStatus) eqn:F2; cbn;
    [intros H; inversion H; subst; split; [reflexivity | left; eauto]|].
  destruct (db_fails env StCommit) eqn:F3; cbn;
    [intros H; inversion H; subst; split; [reflexivity | left; eauto]|].
  intros H; inversion H; subst; clear H. split; [reflexivity|]. right.
  exists u, f, row, t1, sq1. do 2 eexists.
  apply Z.eqb_eq in Hrole. repeat split; try eassumption; reflexivity.
Qed.

Lemma insert_submission_ok (env : Env) (aid sid : Z) (url : string)
  (sq sq1 : Sequences) (t t1 : Tables) (row : Submission.t) :
  sql_insert_submission env aid sid url sq t = (Ok (row, t1), sq1) ->
  t1 = with_submissions t (tblm_submissions t ++ [row])
  /\ sub_matches aid sid row = true
  /\ submitted t aid sid = false
  /\ has_assignment t aid = true
  /\ has_user t sid = true.
Proof.
  unfold sql_insert_submission, submitted.
  destruct (existsb _ (tblm_submissions t) || existsb _ (tblm_submissions t)) eqn:Eu;
    [discriminate|].
  destruct (has_assignment t aid && has_user t sid) eqn:Efk; cbn; [|discriminate].
  intros H; inversion H; subst; clear H.
  apply orb_false_elim in Eu as [_ Eu]. apply andb_prop in Efk as [Ea Eus].
  repeat split; try assumption.
  unfold sub_matches; cbn. rewrite !Z.eqb_refl. reflexivity.
Qed.

(** The same in terms of the rows written. *)
Lemma addSubmission_outcome (env : Env) (d : SubmissionData.t) (w : World)
  (res : Result Submission.t) (w' : World) :
  txn w = None ->
  SubmissionsService.addSubmission env d w = (res, w') ->
  txn w' = None
  /\ ((exists e, res = Err e) /\ committed w' = committed w
      \/ exists u row,
           resolves w (SubmissionData.studentUsername d) u
           /\ User.roleId u = Roles.STUDENT
           /\ res = Ok row
           /\ assigned (committed w) (SubmissionData.assignmentId d) (User.id u) = true
           /\ submitted (committed w) (SubmissionData.assignmentId d) (User.id u) = false
           /\ sub_matches (SubmissionData.assignmentId d) (User.id u) row = true
           /\ db_fails env StInsertSubmission = false
           /\ db_fails env StUpdateStatus = false
           /\ db_fails env StCommit = false
           /\ committed w'
              = mkTables (tblm_users (committed w)) (tblm_assignments (committed w))
                  (map (fun sa =>
                          if sa_matches (SubmissionData.assignmentId d) (User.id u) sa
                          then set_status SubmissionStatus.SUBMITTED sa
                          else sa)
                     (tblt_student_assignments (committed w)))
                  (tblm_submissions (committed w) ++ [row])).
Proof.
  intros Htxn E.
  destruct (@addSubmission_commits env d w res w' Htxn E)
    as [Ht [Hfail | (u & f & row & t1 & sq1 & t2 & sq2 & Hu & Hrole & Hsa & Hres
                     & F1 & F2 & F3 & E1 & E2 & Hc)]];
    (split; [exact Ht|]); [left; exact Hfail | right].
  apply insert_submission_ok in E1 as (-> & Hrow & Hnot & _ & _).
  unfold sql_update_status in E2. injection E2 as E2 _.
  exists u, row. repeat split; try assumption.
  rewrite Hc, <- E2. reflexivity.
Qed.

Lemma insert_assignment_ok (env : Env) (tutor : Z) (title : string)
  (description : option string) (published deadline : Timestamp) (url : option string)
  (sq sq1 : Sequences) (t t1 : Tables) (a : Assignment.t) :
  sql_insert_assignment env tutor title description published deadline url sq t
  = (Ok (a, t1), sq1) ->
  t1 = with_assignments t (tblm_assignments t ++ [a])
  /\ has_assignment t (Assignment.id a) = false.
Proof.
  unfold sql_insert_assignment.
  destruct (has_nul title || opt_has_nul description || opt_has_nul url); [discriminate|].
  destruct (255 <? _); [discriminate|].
  destruct (has_assignment t _) eqn:Ea; [discriminate|].
  destruct (has_user t tutor); cbn; [|discriminate].
  intros H; inversion H; subst; clear H. split; [reflexivity | exact Ea].
Qed.

Lemma insert_student_assignments_ok (aid status : Z) (students : list Z) :
  forall (sq sq' : Sequences) (t t' : Tables),
    sql_insert_student_assignments aid students status sq t = (Ok (tt, t'), sq') ->
    exists new,
      t' = with_student_assignments t (tblt_student_assignments t ++ new)
      /\ Forall (fun sa => StudentAssignment.statusId sa = status
                           /\ StudentAssignment.assignmentId sa = aid) new.
Proof.
  induction students as [|sid students IH]; intros sq sq' t t'; cbn.
  - intros H; inversion H; subst. exists []. rewrite app_nil_r.
    destruct t'; split; [reflexivity | constructor].
  - destruct (existsb (sa_matches aid sid) (tblt_student_assignments t)).
    + apply IH.
    + destruct (existsb _ (tblt_student_assignments t)); [discriminate|].
      destruct (has_assignment t aid && has_user t sid); cbn; [|discriminate].
      intros H. apply IH in H as (new & -> & Hnew).
      exists (StudentAssignment.mk (tblt_student_assignments_id_seq sq) aid sid status :: new).
      split.
      * unfold with_student_assignments; cbn. rewrite <- app_assoc. reflexivity.
      * constructor; [split; reflexivity | exact Hnew].
Qed.

(** Every way createAssignment can end: an error with the tables as they
    were, or the commit of the insert followed by the fan-out. *)
Lemma createAssignment_commits (env : Env) (d : CreateAssignmentRequest.t) (w : World)
  (res : Result Assignment.t) (w' : World) :
  txn w = None ->
  AssignmentService.createAssignment env d w = (res, w') ->
  txn w' = None
  /\ ((exists e, res = Err e) /\ committed w' = committed w
      \/ exists u a t1 sq1 t2,
           res = Ok a
           /\ db_fails env StInsertAssignment = false
           /\ (CreateAssignmentRequest.studentIds d <> [] ->
               db_fails env StInsertStudentAssignments = false)
           /\ db_fails env StCommit = false
           /\ sql_insert_assignment env (User.id u)
                (CreateAssignmentRequest.title d) (CreateAssignmentRequest.description d)
                (CreateAssignmentRequest.publishedAt d) (CreateAssignmentRequest.dueDate d)
                (Some (S3.url env (uniqueKey env (CreateAssignmentRequest.file d))))
                (seqs w) (committed w)
              = (Ok (a, t1), sq1)
           /\ (t2 = t1
               \/ exists sq2,
                    sql_insert_student_assignments (Assignment.id a)
                      (CreateAssignmentRequest.studentIds d) SubmissionStatus.PENDING sq1 t1
                    = (Ok (tt, t2), sq2))
           /\ committed w' = t2).
Proof.
  intros Htxn.
  unfold AssignmentService.createAssignment. rewrite try_catch_rethrow.
  unfold bind at 1. rewrite getUserByUsername_spec.
  destruct (filter _ (tblm_users (committed w))) as [|u us];
    [intros H; inversion H; subst; split; [exact Htxn | left; eauto]|].
  destruct (User.roleId u =? Roles.TUTOR) eqn:Hrole; cbn [negb];
    [|intros H; inversion H; subst; split; [exact Htxn | left; eauto]].
  unfold bind at 1. rewrite sendPutObject_spec.
  destruct (s3_fails env);
    [intros H; inversion H; subst; split; [exact Htxn | left; eauto]|].
  unfold bind at 1, DatabaseTransaction.beginTransaction.
  destruct (db_fails env StBegin) eqn:Eb;
    [intros H; inversion H; subst; split; [exact Htxn | left; eauto]|].
  unfold CreateAssignmentRequest.studentIds.
  destruct (CreateAssignmentRequest.studentIdsProperty d) as [ids|] eqn:Hp.
  all: unfold try_catch, bind, AssignmentDAO.saveAssignment,
    AssignmentDAO.saveStudentAssignments, try_catch, client_query,
    DatabaseTransaction.commitTransaction, DatabaseTransaction.rollbackTransaction.
  all: destruct (db_fails env StInsertAssignment) eqn:F1;
    cbn -[S3.url sql_insert_student_assignments];
    [intros H; inversion H; subst; split; [reflexivity | left; eauto]|].
  all: unfold query; cbn -[S3.url sql_insert_student_assignments].
  all: destruct (sql_insert_assignment env (User.id u)
                   (CreateAssignmentRequest.title d)
                   (CreateAssignmentRequest.description d)
                   (CreateAssignmentRequest.publishedAt d)
                   (CreateAssignmentRequest.dueDate d)
                   (Some (S3.url env (uniqueKey env (CreateAssignmentRequest.file d))))
                   (seqs w) (committed w))
    as [[[a t1]|e1] sq1] eqn:E1; cbn -[sql_insert_student_assignments];
    [|intros H; inversion H; subst; split; [reflexivity | left; eauto]].
  2:{ destruct (db_fails env StCommit) eqn:F3; cbn;
      intros H; inversion H; subst; (split; [reflexivity|]); [left; eauto|].
      right. exists u, a, t1, sq1, t1. repeat split; auto.
      intros Hne. contradiction Hne. reflexivity. }
  destruct (db_fails env StInsertStudentAssignments) eqn:F2;
    cbn -[sql_insert_student_assignments];
    [intros H; inversion H; subst; split; [reflexivity | left; eauto]|].
  destruct ids as [|sid ids]; cbn -[sql_insert_student_assignments];
    [intros H; inversion H; subst; split; [reflexivity | left; eauto]|].
  destruct (sql_insert_student_assignments (Assignment.id a)
              (sid :: ids) SubmissionStatus.PENDING sq1 t1)
    as [[[[] t2]|e2] sq2] eqn:E2; cbn;
    [|intros H; inversion H; subst; split; [reflexivity | left; eauto]].
  destruct (db_fails env StCommit) eqn:F3; cbn;
    intros H; inversion H; subst; (split; [reflexivity|]); [left; eauto|].
  right. exists u, a, t1, sq1, t2. repeat split; eauto.
Qed.

(** The same in terms of the rows written. *)
Lemma createAssignment_outcome (env : Env) (d : CreateAssignmentRequest.t) (w : World)
  (res : Result Assignment.t) (w' : World) :
  txn w = None ->
  AssignmentService.createAssignment env d w = (res, w') ->
  txn w' = None
  /\ ((exists e, res = Err e) /\ committed w' = committed w
      \/ exists a new,
           res = Ok a
           /\ db_fails env StInsertAssignment = false
           /\ (CreateAssignmentRequest.studentIds d <> [] ->
               db_fails env StInsertStudentAssignments = false)
           /\ db_fails env StCommit = false
           /\ Forall (fun sa => StudentAssignment.statusId sa = SubmissionStatus.PENDING
                                /\ StudentAssignment.assignmentId sa = Assignment.id a) new
           /\ committed w'
              = mkTables (tblm_users (committed w)) (tblm_assignments (committed w) ++ [a])
                  (tblt_student_assignments (committed w) ++ new)
                  (tblm_submissions (committed w))).
Proof.
  intros Htxn E.
  destruct (@createAssignment_commits env d w res w' Htxn E)
    as [Ht [Hfail | (u & a & t1 & sq1 & t2 & Hres & F1 & F2 & F3 & E1 & E2 & Hc)]];
    (split; [exact Ht|]); [left; exact Hfail | right].
  apply insert_assignment_ok in E1 as [-> _].
  destruct E2 as [-> | [sq2 E2]].
  - exists a, []. repeat split; auto. rewrite Hc; cbn. rewrite app_nil_r. reflexivity.
  - apply insert_student_assignments_ok in E2 as (new & -> & Hnew).
    exists a, new. repeat split; auto.
Qed.

(** C2. Inside the transactional unit of createAssignment (insert of the
    assignment, fan-out of the mappings, commit) and of addSubmission
    (insert of the submission, status update, commit), a fault at any
    step makes the call fail, and a call that fails, for this or any
    other reason (a violated constraint included), leaves every table as
    it was and no transaction open. *)
Theorem transactional_failure_rolls_back (env : Env) (w : World) :
  txn w = None ->
  (forall d,
     (db_fails env StInsertAssignment = true
      \/ (CreateAssignmentRequest.studentIds d <> []
          /\ db_fails env StInsertStudentAssignments = true)
      \/ db_fails env StCommit = true ->
      exists e, fst (AssignmentService.createAssignment env d w) = Err e)
     /\ (forall e,
          fst (AssignmentService.createAssignment env d w) = Err e ->
          committed (snd (AssignmentService.createAssignment env d w)) = committed w
          /\ txn (snd (AssignmentService.createAssignment env d w)) = None))
  /\ (forall d,
     (db_fails env StInsertSubmission = true
      \/ db_fails env StUpdateStatus = true
      \/ db_fails env StCommit = true ->
      exists e, fst (SubmissionsService.addSubmission env d w) = Err e)
     /\ (forall e,
          fst (SubmissionsService.addSubmission env d w) = Err e ->
          committed (snd (SubmissionsService.addSubmission env d w)) = committed w
          /\ txn (snd (SubmissionsService.addSubmission env d w)) = None)).
Proof.
  intros Htxn. split; intros d.
  - destruct (AssignmentService.createAssignment env d w) as [res w'] eqn:E.
    destruct (@createAssignment_outcome env d w res w' Htxn E)
      as [Ht [[[e He] Hc] | (a & new & Hres & F1 & F2 & F3 & _)]]; cbn [fst snd].
    + split; [intros _; exists e; exact He | intros _ _; split; assumption].
    + subst res. split.
      * intros [H | [[Hne H] | H]]; try congruence.
        rewrite (F2 Hne) in H. discriminate H.
      * intros e He; discriminate He.
  - destruct (SubmissionsService.addSubmission env d w) as [res w'] eqn:E.
    destruct (@addSubmission_outcome env d w res w' Htxn E)
      as [Ht [[[e He] Hc] | (u & row & _ & _ & Hres & _ & _ & _ & F1 & F2 & F3 & _)]];
      cbn [fst snd].
    + split; [intros _; exists e; exact He | intros _ _; split; assumption].
    + subst res. split.
      * intros [H | [H | H]]; congruence.
      * intros e He; discriminate He.
Qed.

Lemma transactional_failure_rolls_back_witness :
  (exists e,
     fst (AssignmentService.createAssignment Scenario.env_fanout_fault
            Scenario.hw2_request Scenario.w_hw1) = Err e)
  /\ committed (snd (AssignmentService.createAssignment Scenario.env_fanout_fault
                       Scenario.hw2_request Scenario.w_hw1))
     = committed Scenario.w_hw1.
Proof.
  destruct (@transactional_failure_rolls_back Scenario.env_fanout_fault Scenario.w_hw1
              eq_refl) as [H _].
  destruct (H Scenario.hw2_request) as [Hfault Hback].
  assert (CreateAssignmentRequest.studentIds Scenario.hw2_request <> []) as Hne
    by (vm_compute; discriminate).
  destruct (Hfault (or_intror (or_introl (conj Hne eq_refl)))) as [e He].
  split; [exists e; exact He | apply (Hback e He)].
Defined.

(** A fan-out that fails partway: the mapping for sam passes, the one for
    the unknown student 99 violates the foreign key; the assignment
    inserted just before is rolled back with it, so the tables are those
    of before and no mapping mentions the new assignment 2. *)
Example fan_out_fails_partway :
  let r := AssignmentService.createAssignment Scenario.env_ok Scenario.hw2_bad_request
             Scenario.w_hw1 in
  fst r = Err (PgError foreign_key_violation)
  /\ committed (snd r) = committed Scenario.w_hw1
  /\ filter (fun sa => StudentAssignment.assignmentId sa =? 2)
       (tblt_student_assignments (committed (snd r))) = []
  /\ has_assignment (committed (snd r)) 2 = false.
Proof. repeat split; reflexivity. Qed.

(** *** A second submission *)




(** *** Each statement keeps the constraints of the schema *)

Lemma existsb_map {A B} (f : B -> bool) (g : A -> B) (l : list A) :
  existsb f (map g l) = existsb (fun x => f (g x)) l.
Proof. induction l as [|x l IH]; cbn; [reflexivity | rewrite IH; reflexivity]. Qed.

Lemma forallb_impl {A} (p q : A -> bool) (l : list A) :
  (forall x, In x l -> p x = true -> q x = true) ->
  forallb p l = true -> forallb q l = true.
Proof.
  intros H. rewrite !forallb_forall. intros Hp x Hx. apply H; auto.
Qed.

Lemma distinct_snoc {A} (eqb : A -> A -> bool) (l : list A) (x : A) :
  distinct eqb l = true ->
  existsb (fun y => eqb y x) l = false ->
  distinct eqb (l ++ [x]) = true.
Proof.
  induction l as [|y l IH]; cbn; [reflexivity|].
  intros Hd Hx. apply andb_prop in Hd as [Hy Hl].
  apply orb_false_elim in Hx as [Hyx Hlx].
  rewrite existsb_app; cbn. rewrite Hyx, orb_false_r, Hy. cbn.
  apply IH; assumption.
Qed.

Lemma distinct_map_filter {A K} (eqb : K -> K -> bool) (key : A -> K)
  (p : A -> bool) (l : list A) :
  distinct eqb (map key l) = true ->
  distinct eqb (map key (filter p l)) = true.
Proof.
  induction l as [|x l IH]; cbn; [reflexivity|].
  intros Hd. apply andb_prop in Hd as [Hx Hl].
  destruct (p x); cbn; [|apply IH; exact Hl].
  rewrite (IH Hl), andb_true_r.
  apply negb_true_iff in Hx. apply negb_true_iff.
  rewrite existsb_map in *.
  clear -Hx. induction l as [|y l IHl]; cbn in *; [reflexivity|].
  apply orb_false_elim in Hx as [Hy Hl].
  destruct (p y); cbn; [rewrite Hy|]; apply IHl; exact Hl.
Qed.

Lemma has_assignment_ids (t t' : Tables) (aid : Z) :
  map Assignment.id (tblm_assignments t') = map Assignment.id (tblm_assignments t) ->
  has_assignment t' aid = has_assignment t aid.
Proof.
  unfold has_assignment. intros H.
  rewrite <- (existsb_map (fun i => i =? aid) Assignment.id (tblm_assignments t')).
  rewrite <- (existsb_map (fun i => i =? aid) Assignment.id (tblm_assignments t)).
  rewrite H. reflexivity.
Qed.

Ltac open_schema H :=
  unfold schema_ok in H; rewrite !andb_true_iff in H;
  destruct H as (((((?Hupk & ?Hapk) & ?Hsau) & ?Hsubu) & ?Hsafk) & ?Hsubfk).

Ltac close_schema :=
  unfold schema_ok; rewrite !andb_true_iff; repeat split.

Lemma schema_insert_assignment (env : Env) (tutor : Z) (title : string)
  (description : option string) (published deadline : Timestamp) (url : option string)
  (sq sq1 : Sequences) (t t1 : Tables) (a : Assignment.t) :
  sql_insert_assignment env tutor title description published deadline url sq t
  = (Ok (a, t1), sq1) ->
  schema_ok t = true -> schema_ok t1 = true.
Proof.
  intros E H. apply insert_assignment_ok in E as [-> Hfresh]. open_schema H.
  assert (Hmono : forall x, has_assignment t x = true ->
                            has_assignment
                              (with_assignments t (tblm_assignments t ++ [a])) x = true).
  { intros x Hx. unfold has_assignment in *; cbn. rewrite existsb_app, Hx. reflexivity. }
  close_schema; try assumption.
  - unfold assignments_pk in *; cbn. rewrite map_app; cbn.
    apply distinct_snoc; [exact Hapk|].
    rewrite existsb_map. exact Hfresh.
  - unfold student_assignments_fk in *. eapply forallb_impl; [|exact Hsafk].
    intros sa _ Hsa. apply andb_prop in Hsa as [H1 H2].
    rewrite (Hmono _ H1). exact H2.
  - unfold submissions_fk in *. eapply forallb_impl; [|exact Hsubfk].
    intros s _ Hs. apply andb_prop in Hs as [H1 H2].
    rewrite (Hmono _ H1). exact H2.
Qed.

Lemma schema_insert_student_assignments (aid status : Z) (students : list Z) :
  forall (sq sq' : Sequences) (t t' : Tables),
    sql_insert_student_assignments aid students status sq t = (Ok (tt, t'), sq') ->
    schema_ok t = true -> schema_ok t' = true.
Proof.
  induction students as [|sid students IH]; intros sq sq' t t'; cbn.
  - intros H; inversion H; subst. auto.
  - destruct (existsb (sa_matches aid sid) (tblt_student_assignments t)) eqn:Edup.
    + apply IH.
    + destruct (existsb (fun sa => StudentAssignment.id sa =? _)
                  (tblt_student_assignments t)); [intros E; discriminate E|].
      destruct (has_assignment t aid && has_user t sid) eqn:Efk; cbn;
        [|intros E; discriminate E].
      intros E H. apply (IH _ _ _ _ E). clear E IH. open_schema H.
      close_schema; try assumption.
      * unfold student_assignments_unique in *; cbn. rewrite map_app; cbn.
        apply distinct_snoc; [exact Hsau|].
        rewrite existsb_map. exact Edup.
      * unfold student_assignments_fk in *; cbn. rewrite forallb_app; cbn.
        unfold has_assignment, has_user in *; cbn.
        rewrite Hsafk, Efk. reflexivity.
Qed.

Lemma schema_insert_submission (env : Env) (aid sid : Z) (url : string)
  (sq sq1 : Sequences) (t t1 : Tables) (row : Submission.t) :
  sql_insert_submission env aid sid url sq t = (Ok (row, t1), sq1) ->
  schema_ok t = true -> schema_ok t1 = true.
Proof.
  intros E H.
  assert (Hrow : Submission.assignmentId row = aid /\ Submission.studentId row = sid).
  { unfold sql_insert_submission in E.
    destruct (_ || _); [discriminate|]. destruct (_ && _); [|discriminate].
    inversion E; subst; cbn; auto. }
  destruct Hrow as [Hra Hrs].
  apply insert_submission_ok in E as (-> & _ & Hnot & Ha & Hu). open_schema H.
  close_schema; try assumption.
  - unfold submissions_unique in *; cbn. rewrite map_app; cbn.
    apply distinct_snoc; [exact Hsubu|].
    rewrite existsb_map, Hra, Hrs. exact Hnot.
  - unfold submissions_fk in *; cbn. rewrite forallb_app; cbn.
    unfold has_assignment, has_user in *; cbn.
    rewrite Hsubfk, Hra, Hrs, Ha, Hu. reflexivity.
Qed.

Lemma schema_update_status (aid sid status : Z) (t : Tables) :
  schema_ok t = true ->
  schema_ok
    (with_student_assignments t
       (map (fun sa => if sa_matches aid sid sa then set_status status sa else sa)
          (tblt_student_assignments t))) = true.
Proof.
  intros H. open_schema H. close_schema; try assumption.
  - unfold student_assignments_unique in *; cbn. rewrite map_map.
    erewrite map_ext; [exact Hsau|].
    intros sa; cbn. destruct (sa_matches aid sid sa); reflexivity.
  - unfold student_assignments_fk in *; cbn. rewrite forallb_forall in *.
    intros sa' Hin. apply in_map_iff in Hin as (sa & <- & Hin).
    specialize (Hsafk sa Hin). unfold has_assignment, has_user in *; cbn.
    destruct (sa_matches aid sid sa); exact Hsafk.
Qed.

Lemma schema_delete_assignment (aid : Z) (t : Tables) :
  schema_ok t = true ->
  schema_ok
    (mkTables (tblm_users t)
       (filter (fun a => negb (Assignment.id a =? aid)) (tblm_assignments t))
       (filter (fun sa => negb (StudentAssignment.assignmentId sa =? aid))
          (tblt_student_assignments t))
       (filter (fun s => negb (Submission.assignmentId s =? aid)) (tblm_submissions t)))
  = true.
Proof.
  intros H. open_schema H.
  assert (Hkeep : forall x, (x =? aid) = false -> has_assignment t x = true ->
                            existsb (fun a => Assignment.id a =? x)
                              (filter (fun a => negb (Assignment.id a =? aid))
                                 (tblm_assignments t)) = true).
  { intros x Hx. unfold has_assignment.
    induction (tblm_assignments t) as [|a l IH]; cbn; [discriminate|].
    destruct (Assignment.id a =? x) eqn:Eax.
    - intros _. apply Z.eqb_eq in Eax. rewrite Eax, Hx. cbn.
      rewrite Eax, Z.eqb_refl. reflexivity.
    - cbn. intros Hl. destruct (Assignment.id a =? aid); cbn; [|rewrite Eax; cbn];
        apply IH; exact Hl. }
  close_schema; try assumption.
  - apply distinct_map_filter; exact Hapk.
  - apply distinct_map_filter; exact Hsau.
  - apply distinct_map_filter; exact Hsubu.
  - unfold student_assignments_fk, has_assignment, has_user in *; cbn.
    rewrite forallb_forall in *. intros sa Hin. apply filter_In in Hin as [Hin Hne].
    specialize (Hsafk sa Hin). apply andb_prop in Hsafk as [H1 H2].
    apply negb_true_iff in Hne. rewrite (Hkeep _ Hne H1), H2. reflexivity.
  - unfold submissions_fk, has_assignment, has_user in *; cbn.
    rewrite forallb_forall in *. intros s Hin. apply filter_In in Hin as [Hin Hne].
    specialize (Hsubfk s Hin). apply andb_prop in Hsubfk as [H1 H2].
    apply negb_true_iff in Hne. rewrite (Hkeep _ Hne H1), H2. reflexivity.
Qed.

Lemma set_columns_id (sets : list (Column * SqlValue)) :
  forall a a', set_columns sets a = Ok a' -> Assignment.id a' = Assignment.id a.
Proof.
  induction sets as [|[col v] sets IH]; cbn; intros a a' H.
  - inversion H; reflexivity.
  - destruct (set_column col v a) as [a1|e] eqn:E; [|discriminate].
    rewrite (IH _ _ H). clear H IH.
    destruct a; destruct col, v; cbn in E;
      try discriminate; try (inversion E; reflexivity).
    destruct (255 <? _); [discriminate | inversion E; reflexivity].
Qed.

Lemma update_rows_ids (sets : list (Column * SqlValue)) (aid : Z) :
  forall rows rows' hit,
    update_rows sets aid rows = Ok (rows', hit) ->
    map Assignment.id rows' = map Assignment.id rows.
Proof.
  induction rows as [|a rows IH]; cbn; intros rows' hit H.
  - inversion H; reflexivity.
  - destruct (update_rows sets aid rows) as [[rest' hit']|e]; [|discriminate].
    destruct (Assignment.id a =? aid).
    + destruct (set_columns sets a) as [a'|e] eqn:E; [|discriminate].
      inversion H; subst; cbn. rewrite (set_columns_id _ _ E), (IH _ _ eq_refl).
      reflexivity.
    + inversion H; subst; cbn. rewrite (IH _ _ eq_refl). reflexivity.
Qed.

Lemma schema_same_ids (t : Tables) (rows' : list Assignment.t) :
  map Assignment.id rows' = map Assignment.id (tblm_assignments t) ->
  schema_ok t = true -> schema_ok (with_assignments t rows') = true.
Proof.
  intros Hids H. open_schema H.
  assert (Hsame : forall x, has_assignment (with_assignments t rows') x = has_assignment t x)
    by (intros x; apply has_assignment_ids; exact Hids).
  close_schema; try assumption.
  - unfold assignments_pk in *; cbn. rewrite Hids. exact Hapk.
  - unfold student_assignments_fk in *. eapply forallb_impl; [|exact Hsafk].
    intros sa _ Hsa. rewrite Hsame. exact Hsa.
  - unfold submissions_fk in *. eapply forallb_impl; [|exact Hsubfk].
    intros s _ Hs. rewrite Hsame. exact Hs.
Qed.

(** *** Each statement keeps the other keys *)

Ltac open_keys H :=
  unfold keys_ok in H; rewrite !andb_true_iff in H;
  destruct H as (((((?Hsapk & ?Hsubpk) & ?Hafk) & ?Hstfk) & ?Huu) & ?Hufk).

Ltac close_keys :=
  unfold keys_ok; rewrite !andb_true_iff; repeat split.

Lemma forallb_map_eq {A B} (f : B -> bool) (g : A -> B) (l : list A) :
  forallb f (map g l) = forallb (fun x => f (g x)) l.
Proof. induction l as [|x l IH]; cbn; [reflexivity | rewrite IH; reflexivity]. Qed.

Lemma keys_insert_assignment (env : Env) (tutor : Z) (title : string)
  (description : option string) (published deadline : Timestamp) (url : option string)
  (sq sq1 : Sequences) (t t1 : Tables) (a : Assignment.t) :
  sql_insert_assignment env tutor title description published deadline url sq t
  = (Ok (a, t1), sq1) ->
  keys_ok t = true -> keys_ok t1 = true.
Proof.
  intros E H.
  assert (Hu : has_user t (Assignment.tutorId a) = true).
  { unfold sql_insert_assignment in E.
    destruct (has_nul title || opt_has_nul description || opt_has_nul url);
      [discriminate E|].
    destruct (255 <? _); [discriminate E|].
    destruct (has_assignment t _); [discriminate E|].
    destruct (has_user t tutor) eqn:Eu; cbn in E; [|discriminate E].
    inversion E; subst; cbn. exact Eu. }
  apply insert_assignment_ok in E as [-> _]. open_keys H.
  close_keys; try assumption.
  unfold assignments_fk in *; cbn. rewrite forallb_app; cbn.
  unfold has_user in *; cbn. rewrite Hafk, Hu. reflexivity.
Qed.

Lemma keys_insert_student_assignments (aid status : Z) (students : list Z) :
  known_status status = true ->
  forall (sq sq' : Sequences) (t t' : Tables),
    sql_insert_student_assignments aid students status sq t = (Ok (tt, t'), sq') ->
    keys_ok t = true -> keys_ok t' = true.
Proof.
  intros Hst. induction students as [|sid students IH]; intros sq sq' t t'; cbn.
  - intros H; inversion H; subst. auto.
  - destruct (existsb (sa_matches aid sid) (tblt_student_assignments t)) eqn:Edup.
    + apply IH.
    + destruct (existsb (fun sa => StudentAssignment.id sa =? _)
                  (tblt_student_assignments t)) eqn:Eid; [intros E; discriminate E|].
      destruct (has_assignment t aid && has_user t sid) eqn:Efk; cbn;
        [|intros E; discriminate E].
      intros E H. apply (IH _ _ _ _ E). clear E IH. open_keys H.
      close_keys; try assumption.
      * unfold student_assignments_pk in *; cbn. rewrite map_app; cbn.
        apply distinct_snoc; [exact Hsapk|].
        rewrite existsb_map. exact Eid.
      * unfold student_assignments_status_fk in *; cbn. rewrite forallb_app; cbn.
        rewrite Hstfk, Hst. reflexivity.
Qed.

Lemma keys_insert_submission (env : Env) (aid sid : Z) (url : string)
  (sq sq1 : Sequences) (t t1 : Tables) (row : Submission.t) :
  sql_insert_submission env aid sid url sq t = (Ok (row, t1), sq1) ->
  keys_ok t = true -> keys_ok t1 = true.
Proof.
  intros E H.
  assert (Hid : existsb (fun s => Submission.id s =? Submission.id row)
                  (tblm_submissions t) = false).
  { unfold sql_insert_submission in E.
    destruct (existsb _ (tblm_submissions t) || existsb _ (tblm_submissions t)) eqn:Eu;
      [discriminate E|].
    destruct (has_assignment t aid && has_user t sid); cbn in E; [|discriminate E].
    inversion E; subst; cbn. apply orb_false_elim in Eu as [Eu _]. exact Eu. }
  apply insert_submission_ok in E as (-> & _). open_keys H.
  close_keys; try assumption.
  unfold submissions_pk in *; cbn. rewrite map_app; cbn.
  apply distinct_snoc; [exact Hsubpk|].
  rewrite existsb_map. exact Hid.
Qed.

Lemma keys_update_status (aid sid status : Z) (t : Tables) :
  known_status status = true ->
  keys_ok t = true ->
  keys_ok
    (with_student_assignments t
       (map (fun sa => if sa_matches aid sid sa then set_status status sa else sa)
          (tblt_student_assignments t))) = true.
Proof.
  intros Hst H. open_keys H. close_keys; try assumption.
  - unfold student_assignments_pk in *; cbn. rewrite map_map.
    erewrite map_ext; [exact Hsapk|].
    intros sa; cbn. destruct (sa_matches aid sid sa); reflexivity.
  - unfold student_assignments_status_fk in *; cbn. rewrite forallb_forall in *.
    intros sa' Hin. apply in_map_iff in Hin as (sa & <- & Hin).
    specialize (Hstfk sa Hin).
    destruct (sa_matches aid sid sa); [exact Hst | exact Hstfk].
Qed.

Lemma keys_delete_assignment (aid : Z) (t : Tables) :
  keys_ok t = true ->
  keys_ok
    (mkTables (tblm_users t)
       (filter (fun a => negb (Assignment.id a =? aid)) (tblm_assignments t))
       (filter (fun sa => negb (StudentAssignment.assignmentId sa =? aid))
          (tblt_student_assignments t))
       (filter (fun s => negb (Submission.assignmentId s =? aid)) (tblm_submissions t)))
  = true.
Proof.
  intros H. open_keys H. close_keys; try assumption.
  - apply distinct_map_filter; exact Hsapk.
  - apply distinct_map_filter; exact Hsubpk.
  - unfold assignments_fk, has_user in *; cbn. rewrite forallb_forall in *.
    intros a Hin. apply filter_In in Hin as [Hin _]. exact (Hafk a Hin).
  - unfold student_assignments_status_fk in *; cbn. rewrite forallb_forall in *.
    intros sa Hin. apply filter_In in Hin as [Hin _]. exact (Hstfk sa Hin).
Qed.

Lemma keys_same_tutors (t : Tables) (rows' : list Assignment.t) :
  map Assignment.tutorId rows' = map Assignment.tutorId (tblm_assignments t) ->
  keys_ok t = true -> keys_ok (with_assignments t rows') = true.
Proof.
  intros Ht H. open_keys H. close_keys; try assumption.
  unfold assignments_fk in *.
  change (forallb (fun a => has_user t (Assignment.tutorId a)) rows' = true).
  rewrite <- (forallb_map_eq (has_user t) Assignment.tutorId rows'), Ht.
  rewrite forallb_map_eq. exact Hafk.
Qed.

Lemma set_columns_tutor (sets : list (Column * SqlValue)) :
  forall a a', set_columns sets a = Ok a' -> Assignment.tutorId a' = Assignment.tutorId a.
Proof.
  induction sets as [|[col v] sets IH]; cbn; intros a a' H.
  - inversion H; reflexivity.
  - destruct (set_column col v a) as [a1|e] eqn:E; [|discriminate].
    rewrite (IH _ _ H). clear H IH.
    destruct a; destruct col, v; cbn in E;
      try discriminate; try (inversion E; reflexivity).
    destruct (255 <? _); [discriminate | inversion E; reflexivity].
Qed.

Lemma update_rows_tutors (sets : list (Column * SqlValue)) (aid : Z) :
  forall rows rows' hit,
    update_rows sets aid rows = Ok (rows', hit) ->
    map Assignment.tutorId rows' = map Assignment.tutorId rows.
Proof.
  induction rows as [|a rows IH]; cbn; intros rows' hit H.
  - inversion H; reflexivity.
  - destruct (update_rows sets aid rows) as [[rest' hit']|e]; [|discriminate].
    destruct (Assignment.id a =? aid).
    + destruct (set_columns sets a) as [a'|e] eqn:E; [|discriminate].
      inversion H; subst; cbn. rewrite (set_columns_tutor _ _ E), (IH _ _ eq_refl).
      reflexivity.
    + inversion H; subst; cbn. rewrite (IH _ _ eq_refl). reflexivity.
Qed.

(** *** Status consistency along a run *)

Ltac finish_frame :=
  let H := fresh in intros H; inversion H; subst; cbn; auto.

Lemma dao_updateAssignment_frame (aid : Z) (d : UpdateData.t) (w : World)
  (res : Result (option Assignment.t)) (w' : World) :
  AssignmentDAO.updateAssignment aid d w = (res, w') ->
  txn w' = txn w
  /\ exists rows',
       map Assignment.id rows' = map Assignment.id (tblm_assignments (committed w))
       /\ committed w' = with_assignments (committed w) rows'.
Proof.
  assert (Hsame : committed w
                  = with_assignments (committed w) (tblm_assignments (committed w)))
    by (destruct (committed w); reflexivity).
  unfold AssignmentDAO.updateAssignment, try_catch.
  destruct (List.length (update_fields d) =? 0)%nat; cbn; [finish_frame; eauto|].
  unfold bind, query, sql_update_assignment; cbn.
  destruct (update_rows _ _ _) as [[rows' hit]|e] eqn:E; cbn; [|finish_frame; eauto].
  apply update_rows_ids in E. finish_frame; eauto.
Qed.

Lemma updateAssignment_frame (env : Env) (aid : Z) (d : UpdateData.t) (w : World)
  (res : Result (option Assignment.t)) (w' : World) :
  AssignmentService.updateAssignment env aid d w = (res, w') ->
  txn w' = txn w
  /\ exists rows',
       map Assignment.id rows' = map Assignment.id (tblm_assignments (committed w))
       /\ committed w' = with_assignments (committed w) rows'.
Proof.
  assert (Hsame : committed w
                  = with_assignments (committed w) (tblm_assignments (committed w)))
    by (destruct (committed w); reflexivity).
  unfold AssignmentService.updateAssignment. rewrite try_catch_rethrow.
  unfold bind at 1. rewrite getUserByUsername_spec.
  destruct (filter _ (tblm_users (committed w))) as [|u us]; [finish_frame; eauto|].
  destruct (User.roleId u =? Roles.TUTOR); cbn [negb]; [|finish_frame; eauto].
  unfold bind at 1. rewrite getAssignmentById_spec.
  destruct (filter (fun a => Assignment.id a =? _) _) as [|a rest];
    [destruct (int4 _); (finish_frame; eauto)|].
  destruct (Assignment.tutorId a =? User.id u); cbn [negb]; [|finish_frame; eauto].
  destruct (UpdateData.file d) as [f|].
  - unfold bind at 1. unfold bind at 1. rewrite sendPutObject_spec.
    destruct (s3_fails env); [finish_frame; eauto|].
    intros H. apply dao_updateAssignment_frame in H. exact H.
  - unfold bind at 1, ret. intros H. apply dao_updateAssignment_frame in H. exact H.
Qed.

Lemma deleteAssignment_outcome (env : Env) (aid : Z) (name : string) (w : World)
  (res : Result unit) (w' : World) :
  AssignmentService.deleteAssignment env aid name w = (res, w') ->
  txn w' = txn w
  /\ (committed w' = committed w
      \/ committed w'
         = mkTables (tblm_users (committed w))
             (filter (fun a => negb (Assignment.id a =? aid))
                (tblm_assignments (committed w)))
             (filter (fun sa => negb (StudentAssignment.assignmentId sa =? aid))
                (tblt_student_assignments (committed w)))
             (filter (fun s => negb (Submission.assignmentId s =? aid))
                (tblm_submissions (committed w)))).
Proof.
  unfold AssignmentService.deleteAssignment. rewrite try_catch_rethrow.
  unfold bind at 1. rewrite getUserByUsername_spec.
  destruct (filter _ (tblm_users (committed w))) as [|u us]; [finish_frame|].
  destruct (User.roleId u =? Roles.TUTOR); cbn [negb]; [|finish_frame].
  unfold bind at 1. rewrite getAssignmentById_spec.
  destruct (filter (fun a => Assignment.id a =? _) _) as [|a rest];
    [destruct (int4 _); (finish_frame)|].
  destruct (Assignment.tutorId a =? User.id u); cbn [negb]; [|finish_frame].
  destruct (truthy (Assignment.s3Url a)).
  - unfold bind, S3.sendDeleteObject, bind, emit.
    destruct (s3_fails env); finish_frame.
  - finish_frame.
Qed.

Lemma getAssignments_frame (env : Env) (name : string) (f : Filters.t) (w : World)
  (res : Result (list AssignmentRow.t)) (w' : World) :
  AssignmentService.getAssignments env name f w = (res, w') ->
  txn w' = txn w /\ committed w' = committed w.
Proof.
  unfold AssignmentService.getAssignments. rewrite try_catch_rethrow.
  unfold bind at 1. rewrite getUserByUsername_spec.
  destruct (filter _ (tblm_users (committed w))) as [|u us]; [finish_frame|].
  destruct (User.roleId u =? Roles.TUTOR); [finish_frame|].
  destruct (User.roleId u =? Roles.STUDENT); finish_frame.
Qed.

Lemma getSubmissionForStudent_spec (aid sid : Z) (w : World) :
  SubmissionsDAO.getSubmissionForStudent aid sid w
  = match map (fun s => SubmissionRow.mk s None)
            (filter (sub_matches aid sid) (tblm_submissions (committed w))) with
    | [] =>
        if int4 aid then (Ok None, w)
        else (Err (PgError numeric_value_out_of_range),
              with_trace w [ConsoleError "Error fetching submission for student:"])
    | row :: _ => (Ok (Some row), w)
    end.
Proof.
  destruct w as [c t s b tr].
  unfold SubmissionsDAO.getSubmissionForStudent, try_catch, bind, query,
    sql_select_submission_for_student, where_int4; cbn.
  destruct (map _ (filter (sub_matches aid sid) (tblm_submissions c))); [|reflexivity].
  destruct (int4 aid); reflexivity.
Qed.

Lemma getSubmissionsForTutor_spec (aid : Z) (w : World) :
  SubmissionsDAO.getSubmissionsForTutor aid w
  = match map (fun r => SubmissionRow.mk (fst r) (Some (User.username (snd r))))
            (filter (fun r => Submission.assignmentId (fst r) =? aid)
               (join (tblm_submissions (committed w)) (tblm_users (committed w))
                  (fun s u => Submission.studentId s =? User.id u))) with
    | [] =>
        if int4 aid then (Ok [], w)
        else (Err (PgError numeric_value_out_of_range),
              with_trace w [ConsoleError "Error fetching submissions for tutor:"])
    | row :: rest => (Ok (row :: rest), w)
    end.
Proof.
  destruct w as [c t s b tr].
  unfold SubmissionsDAO.getSubmissionsForTutor, try_catch, query,
    sql_select_submissions_for_tutor, where_int4; cbn.
  destruct (map _ (filter _ (join (tblm_submissions c) (tblm_users c) _)));
    [|reflexivity].
  destruct (int4 aid); reflexivity.
Qed.

Lemma getAssignmentDetails_frame (aid : Z) (name : string) (w : World)
  (res : Result SubmissionsService.Details) (w' : World) :
  SubmissionsService.getAssignmentDetails aid name w = (res, w') ->
  txn w' = txn w /\ committed w' = committed w.
Proof.
  unfold SubmissionsService.getAssignmentDetails.
  unfold bind at 1. rewrite getUserByUsername_spec.
  destruct (filter _ (tblm_users (committed w))) as [|u us]; [finish_frame|].
  destruct (User.roleId u =? Roles.TUTOR).
  - unfold bind. rewrite getSubmissionsForTutor_spec.
    destruct (map _ _); [destruct (int4 aid)|]; finish_frame.
  - destruct (User.roleId u =? Roles.STUDENT); [|finish_frame].
    unfold bind. rewrite getSubmissionForStudent_spec.
    destruct (map _ _); [destruct (int4 aid)|]; finish_frame.
Qed.

Lemma notifyUpcomingAssignments_frame (env : Env) (w : World)
  (res : Result unit) (w' : World) :
  NotificationService.notifyUpcomingAssignments env w = (res, w') ->
  txn w' = txn w /\ committed w' = committed w.
Proof.
  unfold NotificationService.notifyUpcomingAssignments, try_catch, bind,
    NotificationService.fetchUpcomingAssignments, query, sql_select_upcoming.
  cbn [visible store]. rewrite world_eta.
  destruct (0 <? List.length _)%nat.
  - unfold NotificationService.sendNotifications.
    rewrite sendNotificationsFrom_spec. finish_frame.
  - finish_frame.
Qed.

Lemma status_consistent_frame (t t' : Tables) :
  tblt_student_assignments t' = tblt_student_assignments t ->
  tblm_submissions t' = tblm_submissions t ->
  status_consistent t -> status_consistent t'.
Proof.
  unfold status_consistent, marked_submitted, submitted.
  intros -> -> H. exact H.
Qed.

Lemma status_consistent_create (t : Tables) (a : Assignment.t)
  (new : list StudentAssignment.t) :
  Forall (fun sa => StudentAssignment.statusId sa = SubmissionStatus.PENDING
                    /\ StudentAssignment.assignmentId sa = Assignment.id a) new ->
  status_consistent t ->
  status_consistent
    (mkTables (tblm_users t) (tblm_assignments t ++ [a])
       (tblt_student_assignments t ++ new) (tblm_submissions t)).
Proof.
  unfold status_consistent, marked_submitted, submitted; cbn.
  intros Hnew H aid sid. rewrite existsb_app, H.
  replace (existsb _ new) with false; [apply orb_false_r|].
  symmetry. induction Hnew as [|sa new [Hst _] _ IH]; cbn; [reflexivity|].
  rewrite IH, Hst. cbn. rewrite andb_false_r. reflexivity.
Qed.

Lemma status_consistent_submit (t : Tables) (aid0 sid0 : Z) (row : Submission.t) :
  assigned t aid0 sid0 = true ->
  sub_matches aid0 sid0 row = true ->
  status_consistent t ->
  status_consistent
    (mkTables (tblm_users t) (tblm_assignments t)
       (map (fun sa => if sa_matches aid0 sid0 sa
                       then set_status SubmissionStatus.SUBMITTED sa
                       else sa)
          (tblt_student_assignments t))
       (tblm_submissions t ++ [row])).
Proof.
  unfold status_consistent, marked_submitted, submitted, assigned; cbn.
  intros Hsa Hrow H aid sid. rewrite existsb_app; cbn. rewrite orb_false_r, <- H.
  unfold sub_matches in Hrow. apply andb_prop in Hrow as [Ha Hs].
  apply Z.eqb_eq in Ha, Hs.
  unfold sub_matches. rewrite Ha, Hs. clear H Ha Hs row.
  destruct ((aid0 =? aid) && (sid0 =? sid)) eqn:Esame.
  - apply andb_prop in Esame as [Ea Es]. apply Z.eqb_eq in Ea, Es. subst aid0 sid0.
    rewrite orb_true_r.
    induction (tblt_student_assignments t) as [|sa l IH]; cbn in *; [discriminate|].
    destruct (sa_matches aid sid sa) eqn:Em; cbn.
    + unfold sa_matches in *; cbn. rewrite Em. reflexivity.
    + rewrite Em. cbn. apply IH. exact Hsa.
  - rewrite orb_false_r. clear Hsa.
    induction (tblt_student_assignments t) as [|sa l IH]; cbn; [reflexivity|].
    rewrite IH. f_equal.
    destruct (sa_matches aid0 sid0 sa) eqn:Em; [|reflexivity].
    unfold sa_matches in *; cbn.
    apply andb_prop in Em as [E1 E2]. apply Z.eqb_eq in E1, E2.
    rewrite E1, E2, Esame. reflexivity.
Qed.

Lemma status_consistent_delete (t : Tables) (aid0 : Z) :
  status_consistent t ->
  status_consistent
    (mkTables (tblm_users t)
       (filter (fun a => negb (Assignment.id a =? aid0)) (tblm_assignments t))
       (filter (fun sa => negb (StudentAssignment.assignmentId sa =? aid0))
          (tblt_student_assignments t))
       (filter (fun s => negb (Submission.assignmentId s =? aid0)) (tblm_submissions t))).
Proof.
  unfold status_consistent, marked_submitted, submitted; cbn.
  intros H aid sid.
  destruct (aid =? aid0) eqn:E.
  - apply Z.eqb_eq in E. subst aid0.
    transitivity false; [|symmetry].
    + clear H. induction (tblt_student_assignments t) as [|sa l IH]; cbn; [reflexivity|].
      destruct (StudentAssignment.assignmentId sa =? aid) eqn:Ea; cbn; [exact IH|].
      rewrite IH. unfold sa_matches. rewrite Ea. reflexivity.
    + clear H. induction (tblm_submissions t) as [|s l IH]; cbn; [reflexivity|].
      destruct (Submission.assignmentId s =? aid) eqn:Ea; cbn; [exact IH|].
      rewrite IH. unfold sub_matches. rewrite Ea. reflexivity.
  - transitivity (marked_submitted t aid sid); unfold marked_submitted.
    + clear H. induction (tblt_student_assignments t) as [|sa l IH]; cbn; [reflexivity|].
      destruct (StudentAssignment.assignmentId sa =? aid0) eqn:Ea; cbn.
      * rewrite IH. unfold sa_matches.
        apply Z.eqb_eq in Ea. rewrite Ea, (Z.eqb_sym aid0), E. reflexivity.
      * rewrite IH. reflexivity.
    + rewrite H. clear H.
      induction (tblm_submissions t) as [|s l IH]; cbn; [reflexivity|].
      destruct (Submission.assignmentId s =? aid0) eqn:Ea; cbn.
      * rewrite IH. unfold sub_matches.
        apply Z.eqb_eq in Ea. rewrite Ea, (Z.eqb_sym aid0), E. reflexivity.
      * rewrite IH. reflexivity.
Qed.

Lemma initial_settled (users : list User.t) : settled (initial users).
Proof. split; [reflexivity | intros aid sid; reflexivity]. Qed.

Lemma step_settled (w : World) (call : Env * Operation) :
  settled w -> settled (step w call).
Proof.
  intros [Htxn Hcons]. destruct call as [env op]. unfold step; cbn [fst snd].
  destruct op as [d | aid d | aid name | name f | d | aid name | ].
  - destruct (AssignmentService.createAssignment env d w) as [res w'] eqn:E.
    destruct (@createAssignment_outcome env d w res w' Htxn E)
      as [Ht [[_ Hc] | (a & new & _ & _ & _ & _ & Hnew & Hc)]]; cbn [snd];
      split; try exact Ht; rewrite Hc; [exact Hcons|].
    apply status_consistent_create; assumption.
  - destruct (AssignmentService.updateAssignment env aid d w) as [res w'] eqn:E.
    destruct (updateAssignment_frame _ _ _ _ E) as (Ht & rows' & _ & Hc); cbn [snd].
    split; [congruence|]. rewrite Hc.
    eapply status_consistent_frame; [reflexivity | reflexivity | exact Hcons].
  - destruct (AssignmentService.deleteAssignment env aid name w) as [res w'] eqn:E.
    destruct (deleteAssignment_outcome _ _ _ _ E) as (Ht & [Hc | Hc]); cbn [snd];
      (split; [congruence|]); rewrite Hc; [exact Hcons|].
    apply status_consistent_delete; exact Hcons.
  - destruct (AssignmentService.getAssignments env name f w) as [res w'] eqn:E.
    destruct (getAssignments_frame _ _ _ _ E) as (Ht & Hc); cbn [snd].
    split; [congruence | rewrite Hc; exact Hcons].
  - destruct (SubmissionsService.addSubmission env d w) as [res w'] eqn:E.
    destruct (@addSubmission_outcome env d w res w' Htxn E)
      as [Ht [[_ Hc] | (u & row & _ & _ & _ & Hsa & _ & Hrow & _ & _ & _ & Hc)]];
      cbn [snd]; split; try exact Ht; rewrite Hc; [exact Hcons|].
    apply status_consistent_submit; assumption.
  - destruct (SubmissionsService.getAssignmentDetails aid name w) as [res w'] eqn:E.
    destruct (getAssignmentDetails_frame _ _ _ E) as (Ht & Hc); cbn [snd].
    split; [congruence | rewrite Hc; exact Hcons].
  - destruct (NotificationService.notifyUpcomingAssignments env w) as [res w'] eqn:E.
    destruct (notifyUpcomingAssignments_frame _ _ E) as (Ht & Hc); cbn [snd].
    split; [congruence | rewrite Hc; exact Hcons].
Qed.

Lemma run_settled (calls : list (Env * Operation)) :
  forall w, settled w -> settled (run calls w).
Proof.
  unfold run. induction calls as [|call calls IH]; intros w Hw; [exact Hw|].
  cbn. apply IH, step_settled, Hw.
Qed.

Lemma marked_submitted_iff (t : Tables) (aid sid : Z) :
  marked_submitted t aid sid = true <->
  exists sa,
    In sa (tblt_student_assignments t)
    /\ StudentAssignment.assignmentId sa = aid
    /\ StudentAssignment.studentId sa = sid
    /\ StudentAssignment.statusId sa = SubmissionStatus.SUBMITTED.
Proof.
  unfold marked_submitted, sa_matches. rewrite existsb_exists.
  split; intros (sa & Hin & H); exists sa; (split; [exact Hin|]).
  - rewrite !andb_true_iff, !Z.eqb_eq in H. tauto.
  - rewrite !andb_true_iff, !Z.eqb_eq. tauto.
Qed.

Lemma submitted_iff (t : Tables) (aid sid : Z) :
  submitted t aid sid = true <->
  exists s,
    In s (tblm_submissions t)
    /\ Submission.assignmentId s = aid
    /\ Submission.studentId s = sid.
Proof.
  unfold submitted, sub_matches. rewrite existsb_exists.
  split; intros (s & Hin & H); exists s; (split; [exact Hin|]).
  - rewrite andb_true_iff, !Z.eqb_eq in H. tauto.
  - rewrite andb_true_iff, !Z.eqb_eq. tauto.
Qed.

(** C1. Start from a database that holds only users and make any sequence
    of calls, with any faults of S3, of the database and of the mail
    transport. In the world reached, for every (assignment, student)
    pair, a mapping row of the pair has status SUBMITTED if and only if a
    Submission row of the pair exists. A further addSubmission either
    writes nothing to the two tables or writes both: the new Submission
    row and the SUBMITTED status of the pair's mappings. *)
Theorem status_matches_submissions
  (users : list User.t) (calls : list (Env * Operation)) :
  let w := run calls (initial users) in
  (forall aid sid,
      (exists sa,
          In sa (tblt_student_assignments (committed w))
          /\ StudentAssignment.assignmentId sa = aid
          /\ StudentAssignment.studentId sa = sid
          /\ StudentAssignment.statusId sa = SubmissionStatus.SUBMITTED)
      <->
      (exists s,
          In s (tblm_submissions (committed w))
          /\ Submission.assignmentId s = aid
          /\ Submission.studentId s = sid))
  /\ (forall env d,
        let w' := snd (SubmissionsService.addSubmission env d w) in
        (tblm_submissions (committed w') = tblm_submissions (committed w)
         /\ tblt_student_assignments (committed w')
            = tblt_student_assignments (committed w))
        \/ (exists sid row,
              sub_matches (SubmissionData.assignmentId d) sid row = true
              /\ tblm_submissions (committed w') = tblm_submissions (committed w) ++ [row]
              /\ tblt_student_assignments (committed w')
                 = map (fun sa =>
                          if sa_matches (SubmissionData.assignmentId d) sid sa
                          then set_status SubmissionStatus.SUBMITTED sa
                          else sa)
                     (tblt_student_assignments (committed w))
              /\ assigned (committed w) (SubmissionData.assignmentId d) sid = true)).
Proof.
  intros w. destruct (run_settled calls (initial_settled users)) as [Htxn Hcons].
  fold w in Htxn, Hcons. split.
  - intros aid sid. rewrite <- marked_submitted_iff, <- submitted_iff.
    rewrite (Hcons aid sid). tauto.
  - intros env d w'. subst w'.
    destruct (SubmissionsService.addSubmission env d w) as [res w'] eqn:E.
    destruct (@addSubmission_outcome env d w res w' Htxn E)
      as [_ [[_ Hc] | (u & row & _ & _ & _ & Hsa & _ & Hrow & _ & _ & _ & Hc)]];
      cbn [snd]; rewrite Hc.
    + left. split; reflexivity.
    + right. exists (User.id u), row. cbn. auto.
Qed.


(** *** The constraints hold in every world a run reaches *)

Lemma step_schema_ok (w : World) (call : Env * Operation) :
  txn w = None ->
  schema_ok (committed w) = true ->
  schema_ok (committed (step w call)) = true.
Proof.
  intros Htxn Hok. destruct call as [env op]. unfold step; cbn [fst snd].
  destruct op as [d | aid d | aid name | name f | d | aid name | ].
  - destruct (AssignmentService.createAssignment env d w) as [res w'] eqn:E.
    destruct (@createAssignment_commits env d w res w' Htxn E)
      as [_ [[_ Hc] | (u & a & t1 & sq1 & t2 & _ & _ & _ & _ & E1 & E2 & Hc)]];
      cbn [snd]; rewrite Hc; [exact Hok|].
    apply schema_insert_assignment in E1; [|exact Hok].
    destruct E2 as [-> | [sq2 E2]]; [exact E1|].
    eapply schema_insert_student_assignments; eassumption.
  - destruct (AssignmentService.updateAssignment env aid d w) as [res w'] eqn:E.
    destruct (updateAssignment_frame _ _ _ _ E) as (_ & rows' & Hids & Hc); cbn [snd].
    rewrite Hc. apply schema_same_ids; assumption.
  - destruct (AssignmentService.deleteAssignment env aid name w) as [res w'] eqn:E.
    destruct (deleteAssignment_outcome _ _ _ _ E) as (_ & [Hc | Hc]); cbn [snd];
      rewrite Hc; [exact Hok|].
    apply schema_delete_assignment; exact Hok.
  - destruct (AssignmentService.getAssignments env name f w) as [res w'] eqn:E.
    destruct (getAssignments_frame _ _ _ _ E) as (_ & Hc); cbn [snd].
    rewrite Hc; exact Hok.
  - destruct (SubmissionsService.addSubmission env d w) as [res w'] eqn:E.
    destruct (@addSubmission_commits env d w res w' Htxn E)
      as [_ [[_ Hc] | (u & f & row & t1 & sq1 & t2 & sq2 & _ & _ & _ & _ & _ & _ & _
                       & E1 & E2 & Hc)]];
      cbn [snd]; rewrite Hc; [exact Hok|].
    apply schema_insert_submission in E1; [|exact Hok].
    unfold sql_update_status in E2. injection E2 as <- _.
    apply schema_update_status; exact E1.
  - destruct (SubmissionsService.getAssignmentDetails aid name w) as [res w'] eqn:E.
    destruct (getAssignmentDetails_frame _ _ _ E) as (_ & Hc); cbn [snd].
    rewrite Hc; exact Hok.
  - destruct (NotificationService.notifyUpcomingAssignments env w) as [res w'] eqn:E.
    destruct (notifyUpcomingAssignments_frame _ _ E) as (_ & Hc); cbn [snd].
    rewrite Hc; exact Hok.
Qed.

(** *** Every key holds in every world a run reaches *)

Lemma dao_updateAssignment_tutors (aid : Z) (d : UpdateData.t) (w : World)
  (res : Result (option Assignment.t)) (w' : World) :
  AssignmentDAO.updateAssignment aid d w = (res, w') ->
  exists rows',
    map Assignment.tutorId rows' = map Assignment.tutorId (tblm_assignments (committed w))
    /\ committed w' = with_assignments (committed w) rows'.
Proof.
  assert (Hsame : committed w
                  = with_assignments (committed w) (tblm_assignments (committed w)))
    by (destruct (committed w); reflexivity).
  unfold AssignmentDAO.updateAssignment, try_catch.
  destruct (List.length (update_fields d) =? 0)%nat; cbn; [finish_frame; eauto|].
  unfold bind, query, sql_update_assignment; cbn.
  destruct (update_rows _ _ _) as [[rows' hit]|e] eqn:E; cbn; [|finish_frame; eauto].
  apply update_rows_tutors in E. finish_frame; eauto.
Qed.

Lemma updateAssignment_tutors (env : Env) (aid : Z) (d : UpdateData.t) (w : World)
  (res : Result (option Assignment.t)) (w' : World) :
  AssignmentService.updateAssignment env aid d w = (res, w') ->
  exists rows',
    map Assignment.tutorId rows' = map Assignment.tutorId (tblm_assignments (committed w))
    /\ committed w' = with_assignments (committed w) rows'.
Proof.
  assert (Hsame : committed w
                  = with_assignments (committed w) (tblm_assignments (committed w)))
    by (destruct (committed w); reflexivity).
  unfold AssignmentService.updateAssignment. rewrite try_catch_rethrow.
  unfold bind at 1. rewrite getUserByUsername_spec.
  destruct (filter _ (tblm_users (committed w))) as [|u us]; [finish_frame; eauto|].
  destruct (User.roleId u =? Roles.TUTOR); cbn [negb]; [|finish_frame; eauto].
  unfold bind at 1. rewrite getAssignmentById_spec.
  destruct (filter (fun a => Assignment.id a =? _) _) as [|a rest];
    [destruct (int4 _); (finish_frame; eauto)|].
  destruct (Assignment.tutorId a =? User.id u); cbn [negb]; [|finish_frame; eauto].
  destruct (UpdateData.file d) as [f|].
  - unfold bind at 1. unfold bind at 1. rewrite sendPutObject_spec.
    destruct (s3_fails env); [finish_frame; eauto|].
    intros H. apply dao_updateAssignment_tutors in H. exact H.
  - unfold bind at 1, ret. intros H. apply dao_updateAssignment_tutors in H. exact H.
Qed.

Lemma step_keys_ok (w : World) (call : Env * Operation) :
  txn w = None ->
  keys_ok (committed w) = true ->
  keys_ok (committed (step w call)) = true.
Proof.
  intros Htxn Hok. destruct call as [env op]. unfold step; cbn [fst snd].
  destruct op as [d | aid d | aid name | name f | d | aid name | ].
  - destruct (AssignmentService.createAssignment env d w) as [res w'] eqn:E.
    destruct (@createAssignment_commits env d w res w' Htxn E)
      as [_ [[_ Hc] | (u & a & t1 & sq1 & t2 & _ & _ & _ & _ & E1 & E2 & Hc)]];
      cbn [snd]; rewrite Hc; [exact Hok|].
    apply keys_insert_assignment in E1; [|exact Hok].
    destruct E2 as [-> | [sq2 E2]]; [exact E1|].
    eapply keys_insert_student_assignments; [|exact E2 | exact E1]. reflexivity.
  - destruct (AssignmentService.updateAssignment env aid d w) as [res w'] eqn:E.
    destruct (updateAssignment_tutors _ _ _ _ E) as (rows' & Htut & Hc); cbn [snd].
    rewrite Hc. apply keys_same_tutors; assumption.
  - destruct (AssignmentService.deleteAssignment env aid name w) as [res w'] eqn:E.
    destruct (deleteAssignment_outcome _ _ _ _ E) as (_ & [Hc | Hc]); cbn [snd];
      rewrite Hc; [exact Hok|].
    apply keys_delete_assignment; exact Hok.
  - destruct (AssignmentService.getAssignments env name f w) as [res w'] eqn:E.
    destruct (getAssignments_frame _ _ _ _ E) as (_ & Hc); cbn [snd].
    rewrite Hc; exact Hok.
  - destruct (SubmissionsService.addSubmission env d w) as [res w'] eqn:E.
    destruct (@addSubmission_commits env d w res w' Htxn E)
      as [_ [[_ Hc] | (u & f & row & t1 & sq1 & t2 & sq2 & _ & _ & _ & _ & _ & _ & _
                       & E1 & E2 & Hc)]];
      cbn [snd]; rewrite Hc; [exact Hok|].
    apply keys_insert_submission in E1; [|exact Hok].
    unfold sql_update_status in E2. injection E2 as <- _.
    apply keys_update_status; [reflexivity | exact E1].
  - destruct (SubmissionsService.getAssignmentDetails aid name w) as [res w'] eqn:E.
    destruct (getAssignmentDetails_frame _ _ _ E) as (_ & Hc); cbn [snd].
    rewrite Hc; exact Hok.
  - destruct (NotificationService.notifyUpcomingAssignments env w) as [res w'] eqn:E.
    destruct (notifyUpcomingAssignments_frame _ _ E) as (_ & Hc); cbn [snd].
    rewrite Hc; exact Hok.
Qed.

(** X1: the keys along a run. Start from a database that holds only
    users, with distinct ids, distinct usernames, distinct e-mail
    addresses and a role of the roles table each. After any sequence of
    calls, with any faults, every PRIMARY KEY, UNIQUE and REFERENCES
    constraint of the four tables holds: the ids of each table are
    distinct, usernames and e-mail addresses are distinct, no
    (assignment, student) pair occurs twice among the mapping rows nor
    among the submissions, every tutor id, student id and assignment id
    that a row carries is the id of a row of the table referred to, every
    role is Tutor or Student and every status Submitted or Pending. The
    premises on keys that the other statements make are met by every
    world a run reaches. *)
Lemma run_schema_ok (users : list User.t) (calls : list (Env * Operation)) :
  distinct Z.eqb (map User.id users) = true ->
  distinct String.eqb (map User.username users) = true ->
  distinct String.eqb (map User.email users) = true ->
  forallb (fun u => known_role (User.roleId u)) users = true ->
  let t := committed (run calls (initial users)) in
  constraints_ok t = true
  /\ users_pk t = true /\ users_unique t = true /\ users_fk t = true
  /\ assignments_pk t = true /\ assignments_fk t = true
  /\ student_assignments_pk t = true /\ student_assignments_unique t = true
  /\ student_assignments_fk t = true /\ student_assignments_status_fk t = true
  /\ submissions_pk t = true /\ submissions_unique t = true
  /\ submissions_fk t = true.
Proof.
  intros Hids Hnames Hmails Hroles t.
  assert (Hgen : forall w, settled w ->
                           schema_ok (committed w) = true ->
                           keys_ok (committed w) = true ->
                           schema_ok (committed (run calls w)) = true
                           /\ keys_ok (committed (run calls w)) = true).
  { unfold run. induction calls as [|call calls IH]; intros w Hw Hok Hkeys;
      [split; assumption|].
    cbn. apply IH; [apply step_settled; exact Hw | |].
    - apply step_schema_ok; [apply Hw | exact Hok].
    - apply step_keys_ok; [apply Hw | exact Hkeys]. }
  destruct (Hgen (initial users) (initial_settled users)) as [Hok Hkeys].
  - unfold schema_ok, users_pk; cbn. rewrite Hids. reflexivity.
  - unfold keys_ok, users_unique, users_fk; cbn. rewrite Hnames, Hmails, Hroles.
    reflexivity.
  - fold t in Hok, Hkeys. unfold constraints_ok. rewrite Hok, Hkeys.
    open_schema Hok. open_keys Hkeys. repeat split; assumption.
Qed.

Lemma run_schema_ok_witness :
  constraints_ok
    (committed
       (run [(Scenario.env_ok, CreateAssignment Scenario.hw1_request);
             (Scenario.env_ok, AddSubmission (SubmissionData.mk 1 "sam" (Some Scenario.answer_pdf)));
             (Scenario.env_ok, DeleteAssignment 1 "tina")]
          (initial [Scenario.tina; Scenario.sam; Scenario.sue; Scenario.tom])))
  = true.
Proof.
  apply (@run_schema_ok [Scenario.tina; Scenario.sam; Scenario.sue; Scenario.tom]);
    vm_compute; reflexivity.
Defined.

(** * Further properties of the services *)

(** *** The ways a call can end, with the bucket *)

Ltac early_exit Htxn :=
  let H := fresh in
  intros H; inversion H; subst; clear H; cbn; left;
  repeat split; try reflexivity; try exact Htxn; eauto.

(** createAssignment ends in one of four ways: before the upload (the
    requester is unknown or no tutor), at the upload, after the upload
    with the transaction rolled back, or with the commit. *)
Lemma createAssignment_cases (env : Env) (d : CreateAssignmentRequest.t) (w : World)
  (res : Result Assignment.t) (w' : World) :
  txn w = None ->
  AssignmentService.createAssignment env d w = (res, w') ->
  ((exists e, res = Err e)
   /\ committed w' = committed w /\ bucket w' = bucket w /\ seqs w' = seqs w
   /\ txn w' = None
   /\ forall u, resolves w (CreateAssignmentRequest.username d) u ->
                User.roleId u <> Roles.TUTOR)
  \/ exists u,
       resolves w (CreateAssignmentRequest.username d) u
       /\ User.roleId u = Roles.TUTOR
       /\ ((s3_fails env = true
            /\ res = Err S3ServiceException
            /\ w' = with_trace w [S3Put (uniqueKey env (CreateAssignmentRequest.file d))])
           \/ (s3_fails env = false
               /\ bucket w' = bucket (uploaded env (CreateAssignmentRequest.file d) w)
               /\ txn w' = None
               /\ ((exists e, res = Err e) /\ committed w' = committed w
                   \/ exists a t1 sq1 t2,
                        res = Ok a
                        /\ sql_insert_assignment env (User.id u)
                             (CreateAssignmentRequest.title d)
                             (CreateAssignmentRequest.description d)
                             (CreateAssignmentRequest.publishedAt d)
                             (CreateAssignmentRequest.dueDate d)
                             (Some (S3.url env
                                      (uniqueKey env (CreateAssignmentRequest.file d))))
                             (seqs w) (committed w)
                           = (Ok (a, t1), sq1)
                        /\ (CreateAssignmentRequest.studentIds d = [] /\ t2 = t1
                            \/ exists sq2,
                                 sql_insert_student_assignments (Assignment.id a)
                                   (CreateAssignmentRequest.studentIds d)
                                   SubmissionStatus.PENDING sq1 t1
                                 = (Ok (tt, t2), sq2))
                        /\ committed w' = t2))).
Proof.
  intros Htxn.
  unfold AssignmentService.createAssignment. rewrite try_catch_rethrow.
  unfold bind at 1. unfold resolves. rewrite getUserByUsername_spec.
  destruct (filter _ (tblm_users (committed w))) as [|u us].
  { early_exit Htxn. intros u Hu; discriminate Hu. }
  destruct (User.roleId u =? Roles.TUTOR) eqn:Hrole; cbn [negb].
  2:{ early_exit Htxn. intros u' Hu'. inversion Hu'; subst u'.
      apply Z.eqb_neq; exact Hrole. }
  apply Z.eqb_eq in Hrole.
  unfold bind at 1. rewrite sendPutObject_spec.
  destruct (s3_fails env) eqn:Hs3.
  { intros H; inversion H; subst; clear H. right. exists u. auto 10. }
  unfold bind at 1, DatabaseTransaction.beginTransaction.
  destruct (db_fails env StBegin) eqn:Eb.
  { intros H; inversion H; subst; clear H. right. exists u.
    split; [reflexivity|]. split; [exact Hrole|]. right.
    repeat split; try exact Htxn. left. eauto. }
  unfold CreateAssignmentRequest.studentIds.
  destruct (CreateAssignmentRequest.studentIdsProperty d) as [ids|] eqn:Hp.
  all: unfold try_catch, bind, AssignmentDAO.saveAssignment,
    AssignmentDAO.saveStudentAssignments, try_catch, client_query,
    DatabaseTransaction.commitTransaction, DatabaseTransaction.rollbackTransaction.
  all: destruct (db_fails env StInsertAssignment) eqn:F1;
    cbn -[S3.url sql_insert_student_assignments];
    [intros H; inversion H; subst; clear H; right; exists u;
     split; [reflexivity|]; split; [exact Hrole|]; right;
     repeat split; left; eauto|].
  all: unfold query; cbn -[S3.url sql_insert_student_assignments].
  all: destruct (sql_insert_assignment env (User.id u)
                   (CreateAssignmentRequest.title d)
                   (CreateAssignmentRequest.description d)
                   (CreateAssignmentRequest.publishedAt d)
                   (CreateAssignmentRequest.dueDate d)
                   (Some (S3.url env (uniqueKey env (CreateAssignmentRequest.file d))))
                   (seqs w) (committed w))
    as [[[a t1]|e1] sq1] eqn:E1; cbn -[sql_insert_student_assignments];
    [|intros H; inversion H; subst; clear H; right; exists u;
      split; [reflexivity|]; split; [exact Hrole|]; right;
      repeat split; left; eauto].
  2:{ destruct (db_fails env StCommit) eqn:F3; cbn;
      intros H; inversion H; subst; clear H; right; exists u;
      (split; [reflexivity|]); (split; [exact Hrole|]); right;
      repeat split; [left; eauto|].
      right. exists a, t1, sq1, t1. repeat split; auto. }
  destruct (db_fails env StInsertStudentAssignments) eqn:F2;
    cbn -[sql_insert_student_assignments];
    [intros H; inversion H; subst; clear H; right; exists u;
     split; [reflexivity|]; split; [exact Hrole|]; right;
     repeat split; left; eauto|].
  destruct ids as [|sid ids]; cbn -[sql_insert_student_assignments];
    [intros H; inversion H; subst; clear H; right; exists u;
     split; [reflexivity|]; split; [exact Hrole|]; right;
     repeat split; left; eauto|].
  destruct (sql_insert_student_assignments (Assignment.id a)
              (sid :: ids) SubmissionStatus.PENDING sq1 t1)
    as [[[[] t2]|e2] sq2] eqn:E2; cbn;
    [|intros H; inversion H; subst; clear H; right; exists u;
      split; [reflexivity|]; split; [exact Hrole|]; right;
      repeat split; left; eauto].
  destruct (db_fails env StCommit) eqn:F3; cbn;
    intros H; inversion H; subst; clear H; right; exists u;
    (split; [reflexivity|]); (split; [exact Hrole|]); right;
    repeat split; [left; eauto|].
  right. exists a, t1, sq1, t2. repeat split; eauto.
Qed.

(** addSubmission ends in one of four ways: before the upload (one of
    the checks fails, or no file came), at the upload, after the upload
    with the transaction rolled back, or with the commit. *)
Lemma addSubmission_cases (env : Env) (d : SubmissionData.t) (w : World)
  (res : Result Submission.t) (w' : World) :
  txn w = None ->
  SubmissionsService.addSubmission env d w = (res, w') ->
  ((exists e, res = Err e)
   /\ committed w' = committed w /\ bucket w' = bucket w /\ seqs w' = seqs w
   /\ txn w' = None
   /\ forall u, resolves w (SubmissionData.studentUsername d) u ->
                User.roleId u = Roles.STUDENT ->
                assigned (committed w) (SubmissionData.assignmentId d) (User.id u) = true ->
                SubmissionData.file d = None)
  \/ exists u f,
       resolves w (SubmissionData.studentUsername d) u
       /\ User.roleId u = Roles.STUDENT
       /\ assigned (committed w) (SubmissionData.assignmentId d) (User.id u) = true
       /\ SubmissionData.file d = Some f
       /\ ((s3_fails env = true
            /\ res = Err S3ServiceException
            /\ w' = with_trace w [S3Put (uniqueKey env f)])
           \/ (s3_fails env = false
               /\ bucket w' = bucket (uploaded env f w)
               /\ txn w' = None
               /\ ((exists e, res = Err e) /\ committed w' = committed w
                   \/ exists row t1 sq1,
                        res = Ok row
                        /\ sql_insert_submission env (SubmissionData.assignmentId d)
                             (User.id u) (S3.url env (uniqueKey env f))
                             (seqs w) (committed w)
                           = (Ok (row, t1), sq1)
                        /\ committed w'
                           = with_student_assignments t1
                               (map (fun sa =>
                                       if sa_matches (SubmissionData.assignmentId d)
                                            (User.id u) sa
                                       then set_status SubmissionStatus.SUBMITTED sa
                                       else sa)
                                  (tblt_student_assignments t1))))).
Proof.
  intros Htxn.
  unfold SubmissionsService.addSubmission.
  unfold bind at 1. unfold resolves. rewrite getUserByUsername_spec.
  destruct (filter _ (tblm_users (committed w))) as [|u us].
  { early_exit Htxn. intros u Hu; discriminate Hu. }
  destruct (User.roleId u =? Roles.STUDENT) eqn:Hrole; cbn [negb].
  2:{ early_exit Htxn. intros u' Hu' Hr. inversion Hu'; subst u'.
      apply Z.eqb_neq in Hrole. contradiction. }
  apply Z.eqb_eq in Hrole.
  unfold bind at 1. rewrite getStudentAssignment_spec.
  destruct (filter (sa_matches _ _) _) as [|sa rest] eqn:Hsa.
  { destruct (int4 _); early_exit Htxn; intros u' Hu' _ Hass; inversion Hu'; subst u';
      unfold assigned in Hass;
      destruct (filter_cons_of_existsb _ _ Hass) as (x & r & Hx & _); congruence. }
  apply existsb_of_filter_cons in Hsa.
  destruct (SubmissionData.file d) as [f|] eqn:Hfile.
  2:{ early_exit Htxn. }
  unfold bind at 1. rewrite sendPutObject_spec.
  destruct (s3_fails env) eqn:Hs3.
  { intros H; inversion H; subst; clear H. right. exists u, f. auto 10. }
  unfold bind at 1, DatabaseTransaction.beginTransaction.
  destruct (db_fails env StBegin) eqn:Eb.
  { intros H; inversion H; subst; clear H. right. exists u, f.
    repeat split; auto. right. repeat split; try exact Htxn. left. eauto. }
  unfold try_catch, bind, SubmissionsDAO.saveSubmission,
    SubmissionsDAO.updateStudentAssignmentStatus, try_catch, client_query,
    DatabaseTransaction.commitTransaction, DatabaseTransaction.rollbackTransaction.
  destruct (db_fails env StInsertSubmission) eqn:F1; cbn -[S3.url];
    [intros H; inversion H; subst; clear H; right; exists u, f;
     repeat split; auto; right; repeat split; left; eauto|].
  unfold query; cbn -[S3.url].
  destruct (sql_insert_submission env (SubmissionData.assignmentId d) (User.id u)
              (S3.url env (uniqueKey env f)) (seqs w) (committed w))
    as [[[row t1]|e1] sq1] eqn:E1; cbn;
    [|intros H; inversion H; subst; clear H; right; exists u, f;
      repeat split; auto; right; repeat split; left; eauto].
  destruct (db_fails env StUpdateStatus) eqn:F2; cbn;
    [intros H; inversion H; subst; clear H; right; exists u, f;
     repeat split; auto; right; repeat split; left; eauto|].
  destruct (db_fails env StCommit) eqn:F3; cbn;
    intros H; inversion H; subst; clear H; right; exists u, f;
    repeat split; auto; right; repeat split; [left; eauto|].
  right. exists row, t1, sq1. repeat split; eauto.
Qed.

(** *** What a committed createAssignment leaves behind *)

Lemma resolves_head (w : World) (name : string) (u : User.t) :
  resolves w name u <->
  hd_error (filter (fun x => String.eqb (User.username x) name) (tblm_users (committed w)))
  = Some u.
Proof.
  unfold resolves. rewrite getUserByUsername_spec.
  destruct (filter _ (tblm_users (committed w))) as [|x l]; cbn.
  - split; intros H; discriminate H.
  - split; intros H; inversion H; reflexivity.
Qed.

Lemma resolves_same_users (w w' : World) (name : string) (u : User.t) :
  tblm_users (committed w') = tblm_users (committed w) ->
  resolves w name u -> resolves w' name u.
Proof. intros Hu. rewrite !resolves_head, Hu. auto. Qed.

Lemma insert_student_assignments_users (aid status : Z) (students : list Z) :
  forall (sq sq' : Sequences) (t t' : Tables),
    sql_insert_student_assignments aid students status sq t = (Ok (tt, t'), sq') ->
    tblm_users t' = tblm_users t
    /\ tblm_assignments t' = tblm_assignments t
    /\ tblm_submissions t' = tblm_submissions t.
Proof.
  intros sq sq' t t' E.
  apply insert_student_assignments_ok in E as (new & -> & _). cbn. auto.
Qed.

(** The rows of the mapping table after a fan-out that went through: every
    listed student has a row for the assignment, the rows of before are
    kept, and each other row is a [status] row of a listed student. *)
Lemma insert_student_assignments_rows (aid status : Z) (students : list Z) :
  forall (sq sq' : Sequences) (t t' : Tables),
    sql_insert_student_assignments aid students status sq t = (Ok (tt, t'), sq') ->
    (forall sid, In sid students ->
                 existsb (sa_matches aid sid) (tblt_student_assignments t') = true)
    /\ (forall sa, In sa (tblt_student_assignments t) ->
                   In sa (tblt_student_assignments t'))
    /\ (forall sa, In sa (tblt_student_assignments t') ->
                   In sa (tblt_student_assignments t)
                   \/ (StudentAssignment.statusId sa = status
                       /\ StudentAssignment.assignmentId sa = aid
                       /\ In (StudentAssignment.studentId sa) students)).
Proof.
  induction students as [|sid students IH]; intros sq sq' t t'; cbn.
  - intros H; inversion H; subst. repeat split; auto; try (intros ? []).
  - destruct (existsb (sa_matches aid sid) (tblt_student_assignments t)) eqn:Edup.
    + intros E. destruct (IH _ _ _ _ E) as (Hall & Hkeep & Hnew).
      repeat split; auto.
      * intros s [<-|Hs]; [|auto].
        apply existsb_exists in Edup as (sa & Hin & Hm).
        apply existsb_exists. exists sa. auto.
      * intros sa Hsa. destruct (Hnew sa Hsa) as [|(H1 & H2 & H3)]; auto.
    + destruct (existsb (fun sa => StudentAssignment.id sa =? _)
                  (tblt_student_assignments t)); [intros E; discriminate E|].
      destruct (has_assignment t aid && has_user t sid); cbn;
        [|intros E; discriminate E].
      intros E. destruct (IH _ _ _ _ E) as (Hall & Hkeep & Hnew). cbn in *.
      repeat split.
      * intros s [<-|Hs]; [|auto].
        apply existsb_exists.
        exists (StudentAssignment.mk (tblt_student_assignments_id_seq sq) aid sid status).
        split; [apply Hkeep, in_or_app; right; left; reflexivity|].
        unfold sa_matches; cbn. rewrite !Z.eqb_refl. reflexivity.
      * intros sa Hsa. apply Hkeep, in_or_app. left. exact Hsa.
      * intros sa Hsa. destruct (Hnew sa Hsa) as [Hold|(H1 & H2 & H3)]; [|auto].
        apply in_app_or in Hold as [Hold|[<-|[]]]; [left; exact Hold|].
        right. cbn. auto.
Qed.

Lemma unique_mapping_once (l : list StudentAssignment.t) (aid sid : Z) :
  distinct pair_eqb
    (map (fun sa => (StudentAssignment.assignmentId sa, StudentAssignment.studentId sa)) l)
  = true ->
  existsb (sa_matches aid sid) l = true ->
  exists sa, filter (sa_matches aid sid) l = [sa].
Proof.
  induction l as [|s l IH]; cbn; [discriminate|].
  intros Hd Hex. apply andb_prop in Hd as [Hs Hl]. apply negb_true_iff in Hs.
  destruct (sa_matches aid sid s) eqn:E; cbn.
  - exists s. f_equal.
    assert (existsb (sa_matches aid sid) l = false) as Hnone.
    { rewrite <- Hs. clear -E. unfold sa_matches in E.
      apply andb_prop in E as [E1 E2]. apply Z.eqb_eq in E1, E2. subst.
      induction l as [|x l IHl]; cbn; [reflexivity|].
      rewrite IHl. f_equal. unfold sa_matches, pair_eqb; cbn.
      rewrite (Z.eqb_sym (StudentAssignment.assignmentId x)),
        (Z.eqb_sym (StudentAssignment.studentId x)). reflexivity. }
    clear -Hnone. induction l as [|x l IHl]; cbn in *; [reflexivity|].
    apply orb_false_elim in Hnone as [Hx Hl]. rewrite Hx. apply IHl; exact Hl.
  - apply IH; assumption.
Qed.

Lemma no_mapping_without_assignment (t : Tables) (aid : Z) :
  student_assignments_fk t = true ->
  has_assignment t aid = false ->
  forall sa, In sa (tblt_student_assignments t) ->
             StudentAssignment.assignmentId sa <> aid.
Proof.
  unfold student_assignments_fk. rewrite forallb_forall.
  intros Hfk Hnone sa Hin Heq. specialize (Hfk sa Hin).
  apply andb_prop in Hfk as [Ha _]. rewrite Heq in Ha. congruence.
Qed.

(** X2: fan-out. A createAssignment that succeeds leaves, for each student
    id of the request, exactly one mapping row for the new assignment,
    with status PENDING, however often the id occurs in the list; and
    every mapping row of the new assignment belongs to a listed student. *)
Theorem createAssignment_maps_each_student_once
  (env : Env) (d : CreateAssignmentRequest.t) (w w' : World) (a : Assignment.t) :
  txn w = None ->
  schema_ok (committed w) = true ->
  AssignmentService.createAssignment env d w = (Ok a, w') ->
  (forall sid,
      In sid (CreateAssignmentRequest.studentIds d) ->
      exists sa,
        filter (sa_matches (Assignment.id a) sid)
          (tblt_student_assignments (committed w')) = [sa]
        /\ StudentAssignment.statusId sa = SubmissionStatus.PENDING)
  /\ (forall sa,
        In sa (tblt_student_assignments (committed w')) ->
        StudentAssignment.assignmentId sa = Assignment.id a ->
        In (StudentAssignment.studentId sa) (CreateAssignmentRequest.studentIds d)
        /\ StudentAssignment.statusId sa = SubmissionStatus.PENDING).
Proof.
  intros Htxn Hok E.
  destruct (@createAssignment_cases env d w (Ok a) w' Htxn E)
    as [([e He] & _) | (u & Hu & Hrole & [(_ & He & _) | (Hs3 & Hb & Ht & Hcase)])];
    try discriminate He.
  destruct Hcase as [([e He] & _) | (a' & t1 & sq1 & t2 & Hres & E1 & E2 & Hc)];
    [discriminate He|].
  inversion Hres; subst a'. clear Hres.
  assert (Hok1 : schema_ok t1 = true)
    by (eapply schema_insert_assignment; eassumption).
  apply insert_assignment_ok in E1 as [Ht1 Hfresh].
  assert (Hold : forall sa, In sa (tblt_student_assignments (committed w)) ->
                            StudentAssignment.assignmentId sa <> Assignment.id a).
  { apply no_mapping_without_assignment; [|exact Hfresh].
    unfold schema_ok in Hok. rewrite !andb_true_iff in Hok. tauto. }
  assert (Hsa1 : tblt_student_assignments t1 = tblt_student_assignments (committed w))
    by (rewrite Ht1; reflexivity).
  assert (Hnew : forall sa, In sa (tblt_student_assignments (committed w')) ->
            StudentAssignment.assignmentId sa = Assignment.id a ->
            In (StudentAssignment.studentId sa) (CreateAssignmentRequest.studentIds d)
            /\ StudentAssignment.statusId sa = SubmissionStatus.PENDING).
  { rewrite Hc. intros sa Hin Haid. destruct E2 as [[_ ->] | [sq2 E2]].
    - rewrite Hsa1 in Hin. destruct (Hold sa Hin Haid).
    - pose proof E2 as Hrows. apply insert_student_assignments_rows in Hrows.
      destruct Hrows as (_ & _ & Hrows).
      destruct (Hrows sa Hin) as [Hin1 | (Hst & _ & Hs)]; [|auto].
      rewrite Hsa1 in Hin1. destruct (Hold sa Hin1 Haid). }
  split; [|exact Hnew].
  intros sid Hsid. rewrite Hc in *. destruct E2 as [[Hnil _] | [sq2 E2]].
  - rewrite Hnil in Hsid. destruct Hsid.
  - assert (Hok2 : schema_ok t2 = true)
      by (eapply schema_insert_student_assignments; eassumption).
    apply insert_student_assignments_rows in E2. destruct E2 as (Hall & _ & _).
    assert (Huniq : student_assignments_unique t2 = true)
      by (unfold schema_ok in Hok2; rewrite !andb_true_iff in Hok2; tauto).
    destruct (unique_mapping_once _ _ _ Huniq (Hall sid Hsid)) as [sa Hsa].
    exists sa. split; [exact Hsa|].
    assert (Hin : In sa (filter (sa_matches (Assignment.id a) sid)
                           (tblt_student_assignments t2)))
      by (rewrite Hsa; left; reflexivity).
    apply filter_In in Hin as [Hin Hm]. apply andb_prop in Hm as [Hm _].
    apply Z.eqb_eq in Hm. apply (Hnew sa Hin Hm).
Qed.

Lemma createAssignment_maps_each_student_once_witness :
  exists sa,
    filter (sa_matches 2 2) (tblt_student_assignments (committed Scenes.w_hw2)) = [sa]
    /\ StudentAssignment.statusId sa = SubmissionStatus.PENDING.
Proof.
  assert (Hok : schema_ok (committed Scenario.w_hw1) = true) by (vm_compute; reflexivity).
  assert (Hrun : AssignmentService.createAssignment Scenario.env_ok Scenes.hw2_request
                   Scenario.w_hw1 = (Ok Scenes.hw2, Scenes.w_hw2))
    by (vm_compute; reflexivity).
  apply (proj1 (@createAssignment_maps_each_student_once Scenario.env_ok
                  Scenes.hw2_request Scenario.w_hw1 Scenes.w_hw2 Scenes.hw2
                  eq_refl Hok Hrun) 2).
  cbn. auto.
Defined.




(** *** Uploads *)

(** X4: a failed upload ends the call. When the PutObject command fails,
    createAssignment (for a tutor), addSubmission (for an assigned student
    who sent a file) and updateAssignment (for the owner, with a new file)
    fail with the S3 error; apart from the attempt noted in the trace the
    world is as before: no transaction was opened, no table, sequence or
    object changed. *)
Theorem upload_failure_stops_before_database (env : Env) (w : World) (u : User.t) :
  s3_fails env = true ->
  (forall d,
      resolves w (CreateAssignmentRequest.username d) u ->
      User.roleId u = Roles.TUTOR ->
      AssignmentService.createAssignment env d w
      = (Err S3ServiceException,
         with_trace w [S3Put (uniqueKey env (CreateAssignmentRequest.file d))]))
  /\ (forall aid name f,
        resolves w name u ->
        User.roleId u = Roles.STUDENT ->
        assigned (committed w) aid (User.id u) = true ->
        SubmissionsService.addSubmission env (SubmissionData.mk aid name (Some f)) w
        = (Err S3ServiceException, with_trace w [S3Put (uniqueKey env f)]))
  /\ (forall aid a d f,
        resolves w (UpdateData.username d) u ->
        User.roleId u = Roles.TUTOR ->
        loads w aid a ->
        Assignment.tutorId a = User.id u ->
        UpdateData.file d = Some f ->
        AssignmentService.updateAssignment env aid d w
        = (Err S3ServiceException, with_trace w [S3Put (uniqueKey env f)])).
Proof.
  intros Hs3. split; [|split].
  - intros d Hu Hrole.
    unfold AssignmentService.createAssignment. rewrite try_catch_rethrow.
    rewrite (bind_resolved _ Hu), Hrole. cbn [negb Z.eqb Roles.TUTOR Pos.eqb].
    unfold bind at 1. rewrite sendPutObject_spec, Hs3. reflexivity.
  - intros aid name f Hu Hrole Hsa.
    unfold SubmissionsService.addSubmission; cbn [SubmissionData.assignmentId
      SubmissionData.studentUsername SubmissionData.file].
    rewrite (bind_resolved _ Hu), Hrole. cbn [negb Z.eqb Roles.STUDENT Pos.eqb].
    unfold bind at 1. rewrite getStudentAssignment_spec.
    destruct (filter_cons_of_existsb _ _ Hsa) as (sa & rest & -> & _).
    unfold bind at 1. rewrite sendPutObject_spec, Hs3. reflexivity.
  - intros aid a d f Hu Hrole Ha Hown Hf.
    rewrite (updateAssignment_owner env d Hu Hrole Ha Hown), Hf, Hs3. reflexivity.
Qed.

Lemma upload_failure_stops_before_database_witness :
  AssignmentService.createAssignment Scenario.env_s3_down Scenes.hw2_request Scenario.w_hw1
  = (Err S3ServiceException,
     with_trace Scenario.w_hw1 [S3Put (uniqueKey Scenario.env_s3_down Scenario.hw1_pdf)]).
Proof.
  apply (proj1 (@upload_failure_stops_before_database Scenario.env_s3_down Scenario.w_hw1
                  Scenario.tina eq_refl) Scenes.hw2_request); reflexivity.
Defined.

Lemma in_uploaded_new (env : Env) (f : File.t) (w : World) :
  In (S3Object.mk (uniqueKey env f) (File.buffer f) (File.mimetype f))
    (bucket (uploaded env f w)).
Proof. cbn. apply in_or_app. right. left. reflexivity. Qed.

Lemma in_uploaded_old (env : Env) (f : File.t) (w : World) (o : S3Object.t) :
  In o (bucket w) -> S3Object.Key o <> uniqueKey env f -> In o (bucket (uploaded env f w)).
Proof.
  intros Hin Hne. cbn. apply in_or_app. left. unfold S3.without_key.
  apply filter_In. split; [exact Hin|].
  apply negb_true_iff. apply String.eqb_neq. exact Hne.
Qed.

(** X5: the blob outlives the rollback. When the upload went through and
    createAssignment or addSubmission fails afterwards, the tables are
    those of before the call while the uploaded object stays in the
    bucket; no compensating delete is made, and no object stored under
    another key is removed. *)
Theorem blob_outlives_rollback (env : Env) (w : World) :
  txn w = None ->
  s3_fails env = false ->
  (forall d u e w',
      resolves w (CreateAssignmentRequest.username d) u ->
      User.roleId u = Roles.TUTOR ->
      AssignmentService.createAssignment env d w = (Err e, w') ->
      committed w' = committed w
      /\ In (S3Object.mk (uniqueKey env (CreateAssignmentRequest.file d))
               (File.buffer (CreateAssignmentRequest.file d))
               (File.mimetype (CreateAssignmentRequest.file d)))
           (bucket w')
      /\ forall o, In o (bucket w) ->
                   S3Object.Key o <> uniqueKey env (CreateAssignmentRequest.file d) ->
                   In o (bucket w'))
  /\ (forall aid name f u e w',
        resolves w name u ->
        User.roleId u = Roles.STUDENT ->
        assigned (committed w) aid (User.id u) = true ->
        SubmissionsService.addSubmission env (SubmissionData.mk aid name (Some f)) w
        = (Err e, w') ->
        committed w' = committed w
        /\ In (S3Object.mk (uniqueKey env f) (File.buffer f) (File.mimetype f)) (bucket w')
        /\ forall o, In o (bucket w) -> S3Object.Key o <> uniqueKey env f ->
                     In o (bucket w')).
Proof.
  intros Htxn Hs3. split.
  - intros d u e w' Hu Hrole E.
    destruct (@createAssignment_cases env d w (Err e) w' Htxn E)
      as [(_ & _ & _ & _ & _ & Hno) | (u' & _ & _ & [(Hs & _) | (_ & Hb & _ & Hcase)])].
    + destruct (Hno u Hu Hrole).
    + congruence.
    + destruct Hcase as [(_ & Hc) | (a & t1 & sq1 & t2 & Hres & _)];
        [|discriminate Hres].
      rewrite Hb. split; [exact Hc|]. split; [apply in_uploaded_new|].
      intros o Ho Hk. apply in_uploaded_old; assumption.
  - intros aid name f u e w' Hu Hrole Hsa E.
    destruct (@addSubmission_cases env _ w (Err e) w' Htxn E)
      as [(_ & _ & _ & _ & _ & Hno)
         | (u' & f' & _ & _ & _ & Hf & [(Hs & _) | (_ & Hb & _ & Hcase)])].
    + specialize (Hno u Hu Hrole Hsa). discriminate Hno.
    + congruence.
    + cbn in Hf. inversion Hf; subst f'.
      destruct Hcase as [(_ & Hc) | (row & t1 & sq1 & Hres & _)];
        [|discriminate Hres].
      rewrite Hb. split; [exact Hc|]. split; [apply in_uploaded_new|].
      intros o Ho Hk. apply in_uploaded_old; assumption.
Qed.

Lemma blob_outlives_rollback_witness :
  let r := AssignmentService.createAssignment Scenario.env_fanout_fault Scenes.hw2_request
             Scenario.w_hw1 in
  committed (snd r) = committed Scenario.w_hw1
  /\ In (S3Object.mk (uniqueKey Scenario.env_fanout_fault Scenario.hw1_pdf)
           "%PDF" "application/pdf")
       (bucket (snd r)).
Proof.
  assert (Hrun : AssignmentService.createAssignment Scenario.env_fanout_fault
                   Scenes.hw2_request Scenario.w_hw1
                 = (Err (PgError connection_failure),
                    snd (AssignmentService.createAssignment Scenario.env_fanout_fault
                           Scenes.hw2_request Scenario.w_hw1)))
    by (vm_compute; reflexivity).
  destruct (proj1 (@blob_outlives_rollback Scenario.env_fanout_fault Scenario.w_hw1
                     eq_refl eq_refl)
              Scenes.hw2_request Scenario.tina _ _ eq_refl eq_refl Hrun)
    as (Hc & Hblob & _).
  split; assumption.
Defined.

(** *** Keys and URLs *)

Lemma last_segment_from_app (p s acc : string) :
  last_segment_from acc (p ++ s) = last_segment_from (last_segment_from acc p) s.
Proof.
  revert acc. induction p as [|c p IH]; intros acc; cbn; [reflexivity|].
  destruct (Ascii.eqb c "/"%char); apply IH.
Qed.

Lemma string_app_assoc (a b c : string) : ((a ++ b) ++ c = a ++ (b ++ c))%string.
Proof. induction a as [|x a IH]; cbn; [reflexivity | rewrite IH; reflexivity]. Qed.

Lemma string_app_nil_r (a : string) : (a ++ EmptyString = a)%string.
Proof. induction a as [|x a IH]; cbn; [reflexivity | rewrite IH; reflexivity]. Qed.

Lemma last_segment_from_no_slash (s acc : string) :
  no_slash s = true -> last_segment_from acc s = (acc ++ s)%string.
Proof.
  revert acc. induction s as [|c s IH]; intros acc Hs; cbn in *.
  - symmetry; apply string_app_nil_r.
  - apply andb_true_iff in Hs. destruct Hs as [Hc Hs].
    apply negb_true_iff in Hc. rewrite Hc, IH by exact Hs. rewrite string_app_assoc. reflexivity.
Qed.

Lemma no_slash_app (a b : string) :
  no_slash (a ++ b) = no_slash a && no_slash b.
Proof.
  induction a as [|c a IH]; cbn; [reflexivity|].
  rewrite IH, andb_assoc. reflexivity.
Qed.

Lemma no_slash_last_segment_from (s acc : string) :
  no_slash acc = true -> no_slash (last_segment_from acc s) = true.
Proof.
  revert acc. induction s as [|c s IH]; intros acc Hacc; cbn; [exact Hacc|].
  destruct (Ascii.eqb c "/"%char) eqn:Hc; apply IH; [reflexivity|].
  rewrite no_slash_app, Hacc. cbn. rewrite Hc. reflexivity.
Qed.

Lemma last_segment_url (env : Env) (key : string) :
  last_segment (S3.url env key) = last_segment key.
Proof.
  unfold last_segment, S3.url.
  rewrite !last_segment_from_app. reflexivity.
Qed.

Lemma url_key_no_slash (key : string) :
  no_slash key = true -> last_segment key = key.
Proof.
  intros H. unfold last_segment. rewrite last_segment_from_no_slash by exact H.
  reflexivity.
Qed.

(** X6: the key read back from a stored URL. deleteAssignment takes the
    text after the last slash of the file URL as the key to delete; this
    is the key under which createAssignment stored the object exactly
    when that key (the uuid, a dash and the original file name) holds no
    slash. *)
Theorem url_key_round_trip (env : Env) (key : string) :
  last_segment (S3.url env key) = key <-> no_slash key = true.
Proof.
  rewrite last_segment_url. unfold last_segment. split.
  - intros H. rewrite <- H. apply no_slash_last_segment_from. reflexivity.
  - intros H. rewrite last_segment_from_no_slash by exact H. reflexivity.
Qed.

(** *** Deleting an assignment *)

Lemma deleteAssignment_owner (env : Env) (w : World) (u : User.t) (name : string)
  (aid : Z) (a : Assignment.t) :
  resolves w name u ->
  User.roleId u = Roles.TUTOR ->
  loads w aid a ->
  Assignment.tutorId a = User.id u ->
  AssignmentService.deleteAssignment env aid name w
  = if truthy (Assignment.s3Url a)
    then
      let key := last_segment (match Assignment.s3Url a with
                               | Some url => url
                               | None => EmptyString
                               end) in
      if s3_fails env
      then (Err S3ServiceException, with_trace w [S3Delete key])
      else (Ok tt,
            mkWorld (cascade aid (committed w)) (txn w) (seqs w)
              (S3.without_key key (bucket w)) (trace w ++ [S3Delete key]))
    else (Ok tt,
          mkWorld (cascade aid (committed w)) (txn w) (seqs w) (bucket w) (trace w)).
Proof.
  intros Hu Hrole Ha Hown. apply Z.eqb_eq in Hown.
  unfold AssignmentService.deleteAssignment. rewrite try_catch_rethrow.
  rewrite (bind_resolved _ Hu), Hrole. cbn [negb Z.eqb Roles.TUTOR Pos.eqb].
  rewrite (bind_loaded _ Ha), Hown. cbn [negb].
  destruct w as [c t s b tr].
  destruct (truthy (Assignment.s3Url a)).
  - unfold bind at 1. unfold S3.sendDeleteObject, bind, emit.
    destruct (s3_fails env); reflexivity.
  - reflexivity.
Qed.

Lemma existsb_filter_out {A} (p q : A -> bool) (l : list A) :
  (forall x, p x = true -> q x = false) ->
  existsb p (filter q l) = false.
Proof.
  intros H. induction l as [|x l IH]; cbn; [reflexivity|].
  destruct (q x) eqn:Hq; [|exact IH]. cbn. rewrite IH, orb_false_r.
  destruct (p x) eqn:Hp; [|reflexivity]. rewrite (H x Hp) in Hq. discriminate Hq.
Qed.

Lemma existsb_filter_in {A} (p q : A -> bool) (l : list A) :
  (forall x, p x = true -> q x = true) ->
  existsb p (filter q l) = existsb p l.
Proof.
  intros H. induction l as [|x l IH]; cbn; [reflexivity|].
  destruct (q x) eqn:Hq; cbn; rewrite IH; [reflexivity|].
  destruct (p x) eqn:Hp; [|reflexivity]. rewrite (H x Hp) in Hq. discriminate Hq.
Qed.

(** X7: the cascade. When deleteAssignment returns normally for the owner
    (the assignment has no file URL, or the DeleteObject command went
    through), no mapping row and no Submission row of the assignment is
    left, for any student. The users are as before, and each of the three
    other tables is the table of before less the rows of that assignment:
    every row of another assignment, mapping rows and submissions
    included, is kept as it was and in its place. The sequences are not
    touched. *)
Theorem deleteAssignment_cascades
  (env : Env) (w : World) (u : User.t) (name : string) (aid : Z) (a : Assignment.t) :
  resolves w name u ->
  User.roleId u = Roles.TUTOR ->
  loads w aid a ->
  Assignment.tutorId a = User.id u ->
  truthy (Assignment.s3Url a) && s3_fails env = false ->
  let r := AssignmentService.deleteAssignment env aid name w in
  let t := committed w in
  let t' := committed (snd r) in
  fst r = Ok tt
  /\ tblm_users t' = tblm_users t
  /\ (forall sid, assigned t' aid sid = false /\ submitted t' aid sid = false)
  /\ (forall other sid,
         other <> aid ->
         has_assignment t' other = has_assignment t other
         /\ assigned t' other sid = assigned t other sid
         /\ marked_submitted t' other sid = marked_submitted t other sid
         /\ submitted t' other sid = submitted t other sid)
  /\ tblm_assignments t'
     = filter (fun x => negb (Assignment.id x =? aid)) (tblm_assignments t)
  /\ tblt_student_assignments t'
     = filter (fun sa => negb (StudentAssignment.assignmentId sa =? aid))
         (tblt_student_assignments t)
  /\ tblm_submissions t'
     = filter (fun s => negb (Submission.assignmentId s =? aid)) (tblm_submissions t)
  /\ seqs (snd r) = seqs w.
Proof.
  intros Hu Hrole Ha Hown Hgo r t t'. subst r t t'.
  rewrite (deleteAssignment_owner env Hu Hrole Ha Hown).
  assert (Hc : exists b tr,
             (if truthy (Assignment.s3Url a)
              then
                let key := last_segment (match Assignment.s3Url a with
                                         | Some url => url
                                         | None => EmptyString
                                         end) in
                if s3_fails env
                then (Err S3ServiceException, with_trace w [S3Delete key])
                else (Ok tt,
                      mkWorld (cascade aid (committed w)) (txn w) (seqs w)
                        (S3.without_key key (bucket w)) (trace w ++ [S3Delete key]))
              else (Ok tt,
                    mkWorld (cascade aid (committed w)) (txn w) (seqs w) (bucket w)
                      (trace w)))
             = (Ok tt, mkWorld (cascade aid (committed w)) (txn w) (seqs w) b tr)).
  { destruct (truthy (Assignment.s3Url a)); cbn in Hgo |- *;
      [rewrite Hgo|]; eexists; eexists; reflexivity. }
  destruct Hc as (b & tr & ->). cbn [fst snd committed].
  split; [reflexivity|]. split; [reflexivity|]. split; [|split].
  3:{ repeat split; reflexivity. }
  - intros sid. unfold assigned, submitted, cascade; cbn. split.
    + apply existsb_filter_out. intros sa Hm. unfold sa_matches in Hm.
      apply andb_true_iff in Hm. destruct Hm as [-> _]. reflexivity.
    + apply existsb_filter_out. intros s Hm. unfold sub_matches in Hm.
      apply andb_true_iff in Hm. destruct Hm as [-> _]. reflexivity.
  - intros other sid Hne.
    unfold has_assignment, assigned, marked_submitted, submitted, cascade; cbn.
    repeat split; apply existsb_filter_in.
    + intros x Hx. apply Z.eqb_eq in Hx. rewrite Hx.
      apply negb_true_iff, Z.eqb_neq. exact Hne.
    + intros x Hx. unfold sa_matches in Hx. apply andb_true_iff in Hx.
      destruct Hx as [Hx _]. apply Z.eqb_eq in Hx. rewrite Hx.
      apply negb_true_iff, Z.eqb_neq. exact Hne.
    + intros x Hx. unfold sa_matches in Hx. apply andb_true_iff in Hx.
      destruct Hx as [Hx _]. apply andb_true_iff in Hx.
      destruct Hx as [Hx _]. apply Z.eqb_eq in Hx. rewrite Hx.
      apply negb_true_iff, Z.eqb_neq. exact Hne.
    + intros x Hx. unfold sub_matches in Hx. apply andb_true_iff in Hx.
      destruct Hx as [Hx _]. apply Z.eqb_eq in Hx. rewrite Hx.
      apply negb_true_iff, Z.eqb_neq. exact Hne.
Qed.

Lemma deleteAssignment_cascades_witness :
  let r := AssignmentService.deleteAssignment Scenario.env_ok 1 "tina" Scenario.w_submitted in
  fst r = Ok tt
  /\ assigned (committed (snd r)) 1 2 = false
  /\ submitted (committed (snd r)) 1 2 = false.
Proof.
  destruct (@deleteAssignment_cascades Scenario.env_ok Scenario.w_submitted Scenario.tina
              "tina" 1
              (Assignment.mk 1 1 "HW1" None 0 (minutes 120)
                 (Some "https://classroom-files.s3.ap-south-1.amazonaws.com/c0ffee-hw1.pdf")
                 60000 60000)
              eq_refl eq_refl eq_refl eq_refl eq_refl)
    as (Hres & _ & Hgone & _).
  split; [exact Hres|]. exact (Hgone 2).
Defined.

Lemma filter_keeps_all {A} (p : A -> bool) (l : list A) :
  (forall x, In x l -> p x = true) -> filter p l = l.
Proof.
  induction l as [|x l IH]; intros H; cbn; [reflexivity|].
  rewrite (H x (or_introl eq_refl)), IH; [reflexivity|].
  intros y Hy. apply H. right. exact Hy.
Qed.

Lemma filter_keeps_none {A} (p : A -> bool) (l : list A) :
  (forall x, In x l -> p x = false) -> filter p l = [].
Proof.
  induction l as [|x l IH]; intros H; cbn; [reflexivity|].
  rewrite (H x (or_introl eq_refl)). apply IH.
  intros y Hy. apply H. right. exact Hy.
Qed.

Lemma existsb_false_forall {A} (p : A -> bool) (l : list A) :
  existsb p l = false -> forall x, In x l -> p x = false.
Proof.
  intros H x Hx. destruct (p x) eqn:Hp; [|reflexivity].
  rewrite <- H. symmetry. apply existsb_exists. exists x. split; assumption.
Qed.

Lemma insert_assignment_row (env : Env) (tutor : Z) (title : string)
  (description : option string) (published deadline : Timestamp) (url : option string)
  (sq sq1 : Sequences) (t t1 : Tables) (a : Assignment.t) :
  sql_insert_assignment env tutor title description published deadline url sq t
  = (Ok (a, t1), sq1) ->
  Assignment.tutorId a = tutor /\ Assignment.s3Url a = url
  /\ Assignment.id a = tblm_assignments_id_seq sq.
Proof.
  unfold sql_insert_assignment.
  destruct (has_nul title || opt_has_nul description || opt_has_nul url);
    [intros E; discriminate E|].
  destruct (255 <? Z.of_nat (String.length title)); [intros E; discriminate E|].
  destruct (has_assignment t (tblm_assignments_id_seq sq)); [intros E; discriminate E|].
  destruct (negb (has_user t tutor)); [intros E; discriminate E|].
  intros E. injection E as <- _ _. cbn. auto.
Qed.

Lemma without_key_twice (key : string) (b : list S3Object.t) (o : S3Object.t) :
  S3Object.Key o = key ->
  S3.without_key key (S3.without_key key b ++ [o]) = S3.without_key key b.
Proof.
  intros Hk. unfold S3.without_key. rewrite filter_app. cbn.
  rewrite Hk, String.eqb_refl. cbn. rewrite app_nil_r.
  apply filter_keeps_all. intros x Hx. apply filter_In in Hx. apply Hx.
Qed.

(** X8: deleting what was just created. After a createAssignment that
    succeeded, a deleteAssignment of the returned id by the same tutor
    (with S3 reachable) returns normally and the tables are exactly those
    of before the creation: the assignment and every mapping row it
    brought are gone, nothing else is touched. The uploaded object is
    removed from the bucket when its key holds no slash; otherwise the
    DeleteObject command names another key and the object stays. *)
Theorem deleteAssignment_undoes_createAssignment
  (env env' : Env) (d : CreateAssignmentRequest.t) (w w1 : World) (a : Assignment.t) :
  txn w = None ->
  schema_ok (committed w) = true ->
  s3_fails env' = false ->
  AssignmentService.createAssignment env d w = (Ok a, w1) ->
  let file := CreateAssignmentRequest.file d in
  let key := uniqueKey env file in
  let r := AssignmentService.deleteAssignment env' (Assignment.id a)
             (CreateAssignmentRequest.username d) w1 in
  fst r = Ok tt
  /\ committed (snd r) = committed w
  /\ (no_slash key = true -> bucket (snd r) = S3.without_key key (bucket w))
  /\ (no_slash key = false ->
      In (S3Object.mk key (File.buffer file) (File.mimetype file)) (bucket (snd r))).
Proof.
  intros Htxn Hok Hs3' E file key r. subst file key r.
  destruct (@createAssignment_cases env d w (Ok a) w1 Htxn E)
    as [((e & He) & _) | (u & Hu & Hrole & [(_ & He & _) | (_ & Hb & _ & Hcase)])];
    try discriminate He.
  destruct Hcase as [((e & He) & _) | (a0 & t1 & sq1 & t2 & Hres & Hins & Hsa & Hc)];
    [discriminate He|].
  injection Hres as <-.
  destruct (insert_assignment_ok _ _ _ _ _ _ _ _ _ Hins) as (Ht1 & Hfresh).
  destruct (insert_assignment_row _ _ _ _ _ _ _ _ _ Hins) as (Htutor & Hurl & _).
  assert (Hnew : exists new,
             t2 = with_student_assignments t1 (tblt_student_assignments t1 ++ new)
             /\ Forall (fun sa => StudentAssignment.statusId sa = SubmissionStatus.PENDING
                                  /\ StudentAssignment.assignmentId sa = Assignment.id a)
                  new).
  { destruct Hsa as [(_ & ->) | (sq2 & Hsa)].
    - exists []. rewrite app_nil_r. split; [destruct t1; reflexivity | constructor].
    - eapply insert_student_assignments_ok; exact Hsa. }
  destruct Hnew as (new & Ht2 & Hnew). rewrite Ht2, Ht1 in Hc. cbn in Hc.
  assert (Hu1 : resolves w1 (CreateAssignmentRequest.username d) u).
  { refine (@resolves_same_users w w1 _ _ _ Hu). rewrite Hc. reflexivity. }
  assert (Hold : forall x, In x (tblm_assignments (committed w)) ->
                           negb (Assignment.id x =? Assignment.id a) = true).
  { intros x Hx. apply negb_true_iff.
    exact (existsb_false_forall _ _ Hfresh x Hx). }
  assert (Ha : loads w1 (Assignment.id a) a).
  { unfold loads. rewrite getAssignmentById_spec, Hc. cbn. rewrite filter_app.
    rewrite filter_keeps_none. 2:{ intros x Hx. apply negb_true_iff, Hold, Hx. }
    cbn. rewrite Z.eqb_refl. reflexivity. }
  rewrite (deleteAssignment_owner env' Hu1 Hrole Ha Htutor), Hurl, Hs3'.
  replace (truthy (Some (S3.url env (uniqueKey env (CreateAssignmentRequest.file d)))))
    with true by reflexivity.
  cbn [fst snd committed bucket]. split; [reflexivity|].
  open_schema Hok.
  split.
  - rewrite Hc. unfold cascade; cbn. rewrite !filter_app.
    rewrite (filter_keeps_all _ _ Hold); cbn. rewrite Z.eqb_refl; cbn.
    rewrite app_nil_r.
    rewrite (filter_keeps_none _ new).
    2:{ intros x Hx. rewrite Forall_forall in Hnew. destruct (Hnew x Hx) as [_ ->].
        rewrite Z.eqb_refl. reflexivity. }
    rewrite app_nil_r.
    rewrite (filter_keeps_all _ (tblt_student_assignments (committed w))).
    2:{ intros x Hx. unfold student_assignments_fk in Hsafk.
        rewrite forallb_forall in Hsafk. specialize (Hsafk x Hx).
        apply andb_true_iff in Hsafk. destruct Hsafk as [Hx1 _].
        apply negb_true_iff, Z.eqb_neq. intros Heq. rewrite Heq in Hx1. congruence. }
    rewrite (filter_keeps_all _ (tblm_submissions (committed w))).
    2:{ intros x Hx. unfold submissions_fk in Hsubfk.
        rewrite forallb_forall in Hsubfk. specialize (Hsubfk x Hx).
        apply andb_true_iff in Hsubfk. destruct Hsubfk as [Hx1 _].
        apply negb_true_iff, Z.eqb_neq. intros Heq. rewrite Heq in Hx1. congruence. }
    destruct (committed w); reflexivity.
  - rewrite Hb, last_segment_url. cbn [bucket uploaded]. split.
    + intros Hk. apply url_key_no_slash in Hk. rewrite Hk.
      apply without_key_twice. reflexivity.
    + intros Hk. unfold S3.without_key at 1. apply filter_In. split.
      * apply in_or_app. right. left. reflexivity.
      * cbn. apply negb_true_iff, String.eqb_neq. intros Heq.
        assert (Hn : no_slash (last_segment (uniqueKey env (CreateAssignmentRequest.file d)))
                     = true)
          by (apply no_slash_last_segment_from; reflexivity).
        rewrite <- Heq in Hn. congruence.
Qed.

Lemma deleteAssignment_undoes_createAssignment_witness :
  let r := AssignmentService.deleteAssignment Scenario.env_ok (Assignment.id Scenes.hw2)
             "tina" Scenes.w_hw2 in
  fst r = Ok tt /\ committed (snd r) = committed Scenario.w_hw1.
Proof.
  assert (Hok : schema_ok (committed Scenario.w_hw1) = true) by (vm_compute; reflexivity).
  assert (Hrun : AssignmentService.createAssignment Scenario.env_ok Scenes.hw2_request
                   Scenario.w_hw1
                 = (Ok Scenes.hw2, Scenes.w_hw2)) by (vm_compute; reflexivity).
  destruct (@deleteAssignment_undoes_createAssignment Scenario.env_ok Scenario.env_ok
              Scenes.hw2_request Scenario.w_hw1 Scenes.w_hw2 Scenes.hw2
              eq_refl Hok eq_refl Hrun)
    as (Hres & Hc & _).
  split; assumption.
Defined.

(** *** Requests that are turned away *)

(** X9: an assignment that does not exist. For a tutor, updateAssignment
    and deleteAssignment of an id that no assignment has fail before
    anything is uploaded or written. When the id is one that the INT
    column can hold, the error has status 404, message Assignment not
    found, and the world is untouched. When it is not, the lookup itself
    is refused by the database with 22003: the DAO logs the error, which
    carries no status, and nothing else changes. *)
Theorem missing_assignment_not_found (env : Env) (w : World) (u : User.t) (aid : Z) :
  User.roleId u = Roles.TUTOR ->
  has_assignment (committed w) aid = false ->
  (forall d, resolves w (UpdateData.username d) u ->
             AssignmentService.updateAssignment env aid d w
             = if int4 aid
               then (Err (HttpError 404 "Assignment not found"), w)
               else (Err (PgError numeric_value_out_of_range),
                     with_trace w [ConsoleError "Error fetching assignment by ID:"]))
  /\ (forall name, resolves w name u ->
                   AssignmentService.deleteAssignment env aid name w
                   = if int4 aid
                     then (Err (HttpError 404 "Assignment not found"), w)
                     else (Err (PgError numeric_value_out_of_range),
                           with_trace w
                             [ConsoleError "Error fetching assignment by ID:"])).
Proof.
  intros Hrole Hnone. unfold has_assignment in Hnone.
  apply filter_nil_of_existsb in Hnone. split.
  - intros d Hu. unfold AssignmentService.updateAssignment.
    rewrite try_catch_rethrow, (bind_resolved _ Hu), Hrole.
    cbn [negb Z.eqb Roles.TUTOR Pos.eqb].
    unfold bind at 1. rewrite getAssignmentById_spec, Hnone.
    destruct (int4 aid); reflexivity.
  - intros name Hu. unfold AssignmentService.deleteAssignment.
    rewrite try_catch_rethrow, (bind_resolved _ Hu), Hrole.
    cbn [negb Z.eqb Roles.TUTOR Pos.eqb].
    unfold bind at 1. rewrite getAssignmentById_spec, Hnone.
    destruct (int4 aid); reflexivity.
Qed.

Lemma missing_assignment_not_found_witness :
  AssignmentService.deleteAssignment Scenario.env_ok 7 "tom" Scenario.w_hw1
  = (Err (HttpError 404 "Assignment not found"), Scenario.w_hw1)
  /\ AssignmentService.deleteAssignment Scenario.env_ok 2147483648 "tom" Scenario.w_hw1
     = (Err (PgError numeric_value_out_of_range),
        with_trace Scenario.w_hw1 [ConsoleError "Error fetching assignment by ID:"]).
Proof.
  split.
  - apply (proj2 (@missing_assignment_not_found Scenario.env_ok Scenario.w_hw1
                    Scenario.tom 7 eq_refl eq_refl)).
    reflexivity.
  - apply (proj2 (@missing_assignment_not_found Scenario.env_ok Scenario.w_hw1
                    Scenario.tom 2147483648 eq_refl eq_refl)).
    reflexivity.
Defined.




(** X11: the role checks of submissions and reads. addSubmission by a
    requester who is not a student fails with status 403 before anything
    is uploaded or written; getAssignments and getAssignmentDetails fail
    with status 403, Invalid role, for a requester who is neither tutor
    nor student. In each case the world is untouched. *)
Theorem role_gate_of_submissions_and_reads
  (env : Env) (w : World) (u : User.t) (name : string) :
  resolves w name u ->
  (User.roleId u <> Roles.STUDENT ->
   forall d, SubmissionData.studentUsername d = name ->
             SubmissionsService.addSubmission env d w
             = (Err (HttpError 403 "Only students can submit assignments"), w))
  /\ (User.roleId u <> Roles.TUTOR -> User.roleId u <> Roles.STUDENT ->
      (forall f, AssignmentService.getAssignments env name f w
                 = (Err (HttpError 403 "Invalid role"), w))
      /\ (forall aid, SubmissionsService.getAssignmentDetails aid name w
                      = (Err (HttpError 403 "Invalid role"), w))).
Proof.
  intros Hu. split.
  - intros Hs d <-. unfold SubmissionsService.addSubmission.
    rewrite (bind_resolved _ Hu).
    apply Z.eqb_neq in Hs. rewrite Hs. reflexivity.
  - intros Ht Hs. apply Z.eqb_neq in Ht. apply Z.eqb_neq in Hs. split.
    + intros f. unfold AssignmentService.getAssignments.
      rewrite try_catch_rethrow, (bind_resolved _ Hu), Ht, Hs. reflexivity.
    + intros aid. unfold SubmissionsService.getAssignmentDetails.
      rewrite (bind_resolved _ Hu), Ht, Hs. reflexivity.
Qed.

Lemma role_gate_of_submissions_and_reads_witness :
  SubmissionsService.addSubmission Scenario.env_ok
    (SubmissionData.mk 1 "tina" (Some Scenario.answer_pdf)) Scenario.w_hw1
  = (Err (HttpError 403 "Only students can submit assignments"), Scenario.w_hw1).
Proof.
  apply (proj1 (@role_gate_of_submissions_and_reads Scenario.env_ok Scenario.w_hw1
                  Scenario.tina "tina" eq_refl)).
  - vm_compute. discriminate.
  - reflexivity.
Defined.

(** *** Submissions read back *)

Lemma resolves_known (w : World) (name : string) (u : User.t) :
  resolves w name u ->
  In u (tblm_users (committed w)) /\ User.username u = name.
Proof.
  rewrite resolves_head. intros H.
  destruct (filter (fun x => String.eqb (User.username x) name) (tblm_users (committed w)))
    as [|x l] eqn:E; [discriminate H|].
  injection H as ->.
  assert (Hin : In u (u :: l)) by (left; reflexivity).
  rewrite <- E in Hin. apply filter_In in Hin. destruct Hin as [Hin Hn].
  split; [exact Hin | apply String.eqb_eq; exact Hn].
Qed.

(** X12: a submission can be read back. After an addSubmission that
    succeeded, getAssignmentDetails of the same assignment returns the
    stored row to the student who submitted, and lists it, with the
    student's username, to every tutor who asks: the service makes no
    check that the tutor owns the assignment. *)
Theorem submission_is_visible_afterwards
  (env : Env) (d : SubmissionData.t) (w w' : World) (row : Submission.t) :
  txn w = None ->
  SubmissionsService.addSubmission env d w = (Ok row, w') ->
  let aid := SubmissionData.assignmentId d in
  SubmissionsService.getAssignmentDetails aid (SubmissionData.studentUsername d) w'
  = (Ok (SubmissionsService.ForStudent (Some (SubmissionRow.mk row None))), w')
  /\ forall tname t,
       resolves w' tname t ->
       User.roleId t = Roles.TUTOR ->
       exists rows,
         SubmissionsService.getAssignmentDetails aid tname w'
         = (Ok (SubmissionsService.ForTutor rows), w')
         /\ In (SubmissionRow.mk row (Some (SubmissionData.studentUsername d))) rows.
Proof.
  intros Htxn E aid. subst aid.
  destruct (@addSubmission_cases env d w (Ok row) w' Htxn E)
    as [((e & He) & _)
       | (u & f & Hu & Hrole & _ & _ & [(_ & He & _) | (_ & _ & _ & Hcase)])];
    try discriminate He.
  destruct Hcase as [((e & He) & _) | (row0 & t1 & sq1 & Hres & Hins & Hc)];
    [discriminate He|].
  injection Hres as <-.
  apply insert_submission_ok in Hins.
  destruct Hins as (Ht1 & Hrow & Hfirst & _ & _).
  rewrite Ht1 in Hc. cbn in Hc.
  assert (Hu' : resolves w' (SubmissionData.studentUsername d) u).
  { refine (@resolves_same_users w w' _ _ _ Hu). rewrite Hc. reflexivity. }
  split.
  - unfold SubmissionsService.getAssignmentDetails.
    rewrite (bind_resolved _ Hu'), Hrole. cbn [Z.eqb Roles.TUTOR Roles.STUDENT Pos.eqb].
    unfold bind. rewrite getSubmissionForStudent_spec, Hc.
    unfold with_student_assignments, with_submissions. cbn [tblm_submissions].
    rewrite filter_app, filter_keeps_none.
    2:{ exact (existsb_false_forall _ _ Hfirst). }
    cbn. rewrite Hrow. reflexivity.
  - intros tname t Ht Htutor.
    assert (Hlisted :
              In (SubmissionRow.mk row (Some (SubmissionData.studentUsername d)))
                (map (fun r => SubmissionRow.mk (fst r) (Some (User.username (snd r))))
                   (filter (fun r => Submission.assignmentId (fst r)
                                     =? SubmissionData.assignmentId d)
                      (join (tblm_submissions (committed w')) (tblm_users (committed w'))
                         (fun s x => Submission.studentId s =? User.id x))))).
    { destruct (resolves_known Hu') as [Hin Hname].
      rewrite <- Hname.
      apply (in_map (fun r => SubmissionRow.mk (fst r) (Some (User.username (snd r))))
               _ (row, u)).
      apply filter_In. unfold sub_matches in Hrow. apply andb_true_iff in Hrow.
      destruct Hrow as [Haid Hsid]. split; [|exact Haid].
      apply in_join. split; [|split; [exact Hin | exact Hsid]].
      rewrite Hc. cbn. apply in_or_app. right. left. reflexivity. }
    unfold SubmissionsService.getAssignmentDetails.
    rewrite (bind_resolved _ Ht), Htutor. cbn [Z.eqb Roles.TUTOR Pos.eqb].
    unfold bind. rewrite getSubmissionsForTutor_spec.
    revert Hlisted.
    destruct (map _ (filter _ (join (tblm_submissions (committed w'))
                                 (tblm_users (committed w')) _))) as [|r rest];
      intros Hlisted; [destruct Hlisted|].
    eexists. split; [reflexivity | exact Hlisted].
Qed.

Lemma submission_is_visible_afterwards_witness :
  exists rows,
    SubmissionsService.getAssignmentDetails 1 "tom" Scenario.w_submitted
    = (Ok (SubmissionsService.ForTutor rows), Scenario.w_submitted)
    /\ In (SubmissionRow.mk
             (Submission.mk 1 1 2
                "https://classroom-files.s3.ap-south-1.amazonaws.com/c0ffee-answer.pdf"
                (minutes 1))
             (Some "sam")) rows.
Proof.
  assert (Hrun : SubmissionsService.addSubmission Scenario.env_ok
                   (SubmissionData.mk 1 "sam" (Some Scenario.answer_pdf)) Scenario.w_hw1
                 = (Ok (Submission.mk 1 1 2
                          "https://classroom-files.s3.ap-south-1.amazonaws.com/c0ffee-answer.pdf"
                          (minutes 1)),
                    Scenario.w_submitted)) by (vm_compute; reflexivity).
  exact (proj2 (@submission_is_visible_afterwards Scenario.env_ok _ Scenario.w_hw1
                  Scenario.w_submitted _ eq_refl Hrun)
           "tom" Scenario.tom eq_refl eq_refl).
Defined.

(** *** The status of a mapping row over time *)

Lemma existsb_map_keeps {A} (p : A -> bool) (f : A -> A) (l : list A) :
  (forall x, p x = true -> p (f x) = true) ->
  existsb p l = true -> existsb p (map f l) = true.
Proof.
  intros H. induction l as [|x l IH]; cbn; [auto|].
  intros E. apply orb_true_iff in E. apply orb_true_iff.
  destruct E as [E | E]; [left; apply H, E | right; apply IH, E].
Qed.

(** X13: SUBMITTED is final. Once the mapping row of a student for an
    assignment has status SUBMITTED, no service call takes it back to
    PENDING: after any one call, whatever it returned, the row is still
    SUBMITTED, unless the call was a deleteAssignment of that assignment,
    which removed the assignment altogether. *)
Theorem submitted_status_is_final (w : World) (call : Env * Operation) (aid sid : Z) :
  txn w = None ->
  marked_submitted (committed w) aid sid = true ->
  marked_submitted (committed (step w call)) aid sid = true
  \/ ((exists name, snd call = DeleteAssignment aid name)
      /\ has_assignment (committed (step w call)) aid = false
      /\ assigned (committed (step w call)) aid sid = false).
Proof.
  intros Htxn Hm. destruct call as [env op]. unfold step; cbn [fst snd].
  destruct op as [d | aid0 d | aid0 name | name f | d | aid0 name | ].
  - left. destruct (AssignmentService.createAssignment env d w) as [res w'] eqn:E.
    destruct (@createAssignment_outcome env d w res w' Htxn E)
      as [_ [[_ Hc] | (a & new & _ & _ & _ & _ & _ & Hc)]]; cbn [snd]; rewrite Hc;
      [exact Hm|].
    unfold marked_submitted in *; cbn. rewrite existsb_app, Hm. reflexivity.
  - left. destruct (AssignmentService.updateAssignment env aid0 d w) as [res w'] eqn:E.
    destruct (updateAssignment_frame _ _ _ _ E) as (_ & rows' & _ & Hc); cbn [snd].
    rewrite Hc. exact Hm.
  - destruct (AssignmentService.deleteAssignment env aid0 name w) as [res w'] eqn:E.
    destruct (deleteAssignment_outcome _ _ _ _ E) as (_ & [Hc | Hc]); cbn [snd];
      rewrite Hc; [left; exact Hm|].
    destruct (Z.eq_dec aid0 aid) as [-> | Hne].
    + right. split; [exists name; reflexivity|]. split.
      * unfold has_assignment; cbn. apply has_assignment_after_delete.
      * unfold assigned; cbn. apply existsb_filter_out.
        intros sa Hsa. unfold sa_matches in Hsa. apply andb_true_iff in Hsa.
        destruct Hsa as [-> _]. reflexivity.
    + left. unfold marked_submitted in *; cbn. rewrite existsb_filter_in; [exact Hm|].
      intros sa Hsa. apply andb_true_iff in Hsa. destruct Hsa as [Hsa _].
      unfold sa_matches in Hsa. apply andb_true_iff in Hsa. destruct Hsa as [Hsa _].
      apply Z.eqb_eq in Hsa. rewrite Hsa. apply negb_true_iff, Z.eqb_neq. auto.
  - left. destruct (AssignmentService.getAssignments env name f w) as [res w'] eqn:E.
    destruct (getAssignments_frame _ _ _ _ E) as (_ & Hc); cbn [snd].
    rewrite Hc. exact Hm.
  - left. destruct (SubmissionsService.addSubmission env d w) as [res w'] eqn:E.
    destruct (@addSubmission_outcome env d w res w' Htxn E)
      as [_ [[_ Hc] | (u & row & _ & _ & _ & _ & _ & _ & _ & _ & _ & Hc)]];
      cbn [snd]; rewrite Hc; [exact Hm|].
    unfold marked_submitted in *; cbn. apply existsb_map_keeps; [|exact Hm].
    intros sa Hsa.
    destruct (sa_matches (SubmissionData.assignmentId d) (User.id u) sa); [|exact Hsa].
    apply andb_true_iff in Hsa. destruct Hsa as [Hsa _].
    apply andb_true_iff. split; [exact Hsa | reflexivity].
  - left. destruct (SubmissionsService.getAssignmentDetails aid0 name w) as [res w'] eqn:E.
    destruct (getAssignmentDetails_frame _ _ _ E) as (_ & Hc); cbn [snd].
    rewrite Hc. exact Hm.
  - left. destruct (NotificationService.notifyUpcomingAssignments env w) as [res w'] eqn:E.
    destruct (notifyUpcomingAssignments_frame _ _ E) as (_ & Hc); cbn [snd].
    rewrite Hc. exact Hm.
Qed.

Lemma submitted_status_is_final_witness :
  marked_submitted
    (committed (step Scenario.w_submitted
                  (Scenario.env_ok, CreateAssignment Scenes.hw2_request))) 1 2 = true
  \/ ((exists name, CreateAssignment Scenes.hw2_request = DeleteAssignment 1 name)
      /\ has_assignment
           (committed (step Scenario.w_submitted
                         (Scenario.env_ok, CreateAssignment Scenes.hw2_request))) 1 = false
      /\ assigned
           (committed (step Scenario.w_submitted
                         (Scenario.env_ok, CreateAssignment Scenes.hw2_request))) 1 2 = false).
Proof.
  exact (@submitted_status_is_final Scenario.w_submitted
           (Scenario.env_ok, CreateAssignment Scenes.hw2_request) 1 2 eq_refl eq_refl).
Defined.

(** *** Controllers *)

Lemma createAssignment_controller (env : Env) (clock : Timestamp)
  (req : CreateAssignmentBody.t) (w : World) :
  AssignmentsController.createAssignment env clock req w
  = match new_CreateAssignmentRequest clock req with
    | Ok request =>
        answer
          (fun a => Response.mk 201
                      (Response.Payload (Some "Assignment created successfully") a))
          (fun e => Response.mk 500 (Response.Failure e "Error creating assignment"))
          (AssignmentService.createAssignment env request w)
    | Err e =>
        (Ok (Response.mk 500 (Response.Failure e "Error creating assignment")),
         with_trace w [ConsoleError EmptyString])
    end.
Proof.
  unfold AssignmentsController.createAssignment, try_catch, answer.
  destruct (new_CreateAssignmentRequest clock req) as [request | e]; cbn [lift].
  - unfold bind at 1. unfold ret at 1. unfold bind at 1.
    destruct (AssignmentService.createAssignment env request w) as [[a | e] w'];
      reflexivity.
  - reflexivity.
Qed.

Lemma updateAssignment_controller (env : Env) (id : Z) (body : UpdateBody.t)
  (file : option File.t) (name : string) (w : World) :
  AssignmentsController.updateAssignment env id body file name w
  = answer
      (fun a => Response.mk 200
                  (Response.Payload (Some "Assignment updated successfully") a))
      (fun e => Response.mk (status_or e 500)
                  (Response.Failure e "Error updating assignment"))
      (AssignmentService.updateAssignment env id
         (UpdateData.mk (UpdateBody.title body) (UpdateBody.description body)
            (UpdateBody.dueDate body) (UpdateBody.publishedAt body) Js.undefined
            file name) w).
Proof.
  unfold AssignmentsController.updateAssignment, try_catch, answer, bind.
  destruct (AssignmentService.updateAssignment env id _ w) as [[a | e] w']; reflexivity.
Qed.

Lemma deleteAssignment_controller (env : Env) (id : Z) (name : string) (w : World) :
  AssignmentsController.deleteAssignment env id name w
  = answer
      (fun _ => Response.mk 200
                  (Response.Payload (Some "Assignment deleted successfully") tt))
      (fun e => Response.mk (status_or e 500)
                  (Response.Failure e "Error deleting assignment"))
      (AssignmentService.deleteAssignment env id name w).
Proof.
  unfold AssignmentsController.deleteAssignment, try_catch, answer, bind.
  destruct (AssignmentService.deleteAssignment env id name w) as [[a | e] w']; reflexivity.
Qed.

Lemma getAssignments_controller (env : Env) (name : string) (q : Filters.t) (w : World) :
  AssignmentsController.getAssignments env name q w
  = answer
      (fun rows => Response.mk 200 (Response.Payload None rows))
      (fun e => Response.mk (status_or e 500)
                  (Response.Failure e "Error fetching assignments"))
      (AssignmentService.getAssignments env name q w).
Proof.
  unfold AssignmentsController.getAssignments, try_catch, answer, bind.
  destruct q as [p s]; cbn [Filters.publishedAt Filters.status].
  destruct (AssignmentService.getAssignments env name _ w) as [[a | e] w']; reflexivity.
Qed.


Lemma getAssignmentDetails_controller (aid : Z) (name : string) (w : World) :
  SubmissionsController.getAssignmentDetails aid name w
  = answer
      (fun d => Response.mk 200 (Response.Payload None d))
      (fun e => Response.mk (status_or e 500)
                  (Response.Failure e "Error fetching assignment details"))
      (SubmissionsService.getAssignmentDetails aid name w).
Proof.
  unfold SubmissionsController.getAssignmentDetails, try_catch, answer, bind.
  destruct (SubmissionsService.getAssignmentDetails aid name w) as [[a | e] w'];
    reflexivity.
Qed.

(** X14: a request that the constructor turns down. When the title is
    missing or empty, or the due date is missing, or no file came with
    the request, the handler of POST /assignments answers 500 with the
    message of the first check that fails, in the order title, due date,
    file; the service is not called, so apart from the logged error the
    world is as before. *)
Theorem incomplete_create_request_is_refused
  (env : Env) (clock : Timestamp) (req : CreateAssignmentBody.t) (w : World) :
  falsy_text (CreateAssignmentBody.title req) = true
  \/ falsy (CreateAssignmentBody.dueDate req) = true
  \/ CreateAssignmentBody.file req = None ->
  AssignmentsController.createAssignment env clock req w
  = (Ok (Response.mk 500
           (Response.Failure
              (PlainError
                 (if falsy_text (CreateAssignmentBody.title req)
                  then "Title is required"
                  else if falsy (CreateAssignmentBody.dueDate req)
                       then "Due date is required"
                       else "File is required"))
              "Error creating assignment")),
     with_trace w [ConsoleError EmptyString]).
Proof.
  intros H. rewrite createAssignment_controller. unfold new_CreateAssignmentRequest.
  destruct (falsy_text (CreateAssignmentBody.title req)); [reflexivity|].
  destruct (falsy (CreateAssignmentBody.dueDate req)); [reflexivity|].
  destruct (CreateAssignmentBody.file req) as [f|]; [|reflexivity].
  destruct H as [H | [H | H]]; discriminate H.
Qed.

Lemma incomplete_create_request_is_refused_witness :
  AssignmentsController.createAssignment Scenario.env_ok 0
    (CreateAssignmentBody.mk (Js.value "HW3") Js.undefined Js.undefined Js.undefined
       None Js.undefined "tina")
    Scenario.w_hw1
  = (Ok (Response.mk 500
           (Response.Failure (PlainError "Due date is required")
              "Error creating assignment")),
     with_trace Scenario.w_hw1 [ConsoleError EmptyString]).
Proof.
  apply (@incomplete_create_request_is_refused Scenario.env_ok 0
           (CreateAssignmentBody.mk (Js.value "HW3") Js.undefined Js.undefined
              Js.undefined None Js.undefined "tina")
           Scenario.w_hw1).
  right. left. reflexivity.
Defined.

Lemma createAssignment_not_tutor (env : Env) (w : World) (u : User.t)
  (d : CreateAssignmentRequest.t) :
  resolves w (CreateAssignmentRequest.username d) u ->
  User.roleId u <> Roles.TUTOR ->
  AssignmentService.createAssignment env d w
  = (Err (HttpError 403 "Only TUTORS can create assignments"), w).
Proof.
  intros Hu Hrole. apply Z.eqb_neq in Hrole.
  unfold AssignmentService.createAssignment.
  rewrite try_catch_rethrow, (bind_resolved _ Hu), Hrole. reflexivity.
Qed.

Lemma updateAssignment_not_tutor (env : Env) (w : World) (u : User.t) (aid : Z)
  (d : UpdateData.t) :
  resolves w (UpdateData.username d) u ->
  User.roleId u <> Roles.TUTOR ->
  AssignmentService.updateAssignment env aid d w
  = (Err (HttpError 403 "Only TUTORS can update assignments"), w).
Proof.
  intros Hu Hrole. apply Z.eqb_neq in Hrole.
  unfold AssignmentService.updateAssignment.
  rewrite try_catch_rethrow, (bind_resolved _ Hu), Hrole. reflexivity.
Qed.

Lemma deleteAssignment_not_tutor (env : Env) (w : World) (u : User.t) (aid : Z)
  (name : string) :
  resolves w name u ->
  User.roleId u <> Roles.TUTOR ->
  AssignmentService.deleteAssignment env aid name w
  = (Err (HttpError 403 "Only TUTORS can delete assignments"), w).
Proof.
  intros Hu Hrole. apply Z.eqb_neq in Hrole.
  unfold AssignmentService.deleteAssignment.
  rewrite try_catch_rethrow, (bind_resolved _ Hu), Hrole. reflexivity.
Qed.

(** X15: the status a refusal is answered with. For a requester who is
    not a tutor the handlers of PATCH and DELETE answer 403, the status
    the service set on its error, while the handler of POST /assignments
    answers 500 whatever the error: there the 403 of the service is lost
    and only its message is passed on. In each case the tables and the
    bucket are untouched and the response is sent (the handler does not
    fail). *)
Theorem create_handler_answers_500_where_others_answer_403
  (env : Env) (w : World) (u : User.t) (name : string) :
  resolves w name u ->
  User.roleId u <> Roles.TUTOR ->
  let w' := with_trace w [ConsoleError EmptyString] in
  (forall clock req request,
      new_CreateAssignmentRequest clock req = Ok request ->
      CreateAssignmentBody.username req = name ->
      AssignmentsController.createAssignment env clock req w
      = (Ok (Response.mk 500
               (Response.Failure (HttpError 403 "Only TUTORS can create assignments")
                  "Error creating assignment")),
         w'))
  /\ (forall id body file,
         AssignmentsController.updateAssignment env id body file name w
         = (Ok (Response.mk 403
                  (Response.Failure (HttpError 403 "Only TUTORS can update assignments")
                     "Error updating assignment")),
            w'))
  /\ (forall id,
         AssignmentsController.deleteAssignment env id name w
         = (Ok (Response.mk 403
                  (Response.Failure (HttpError 403 "Only TUTORS can delete assignments")
                     "Error deleting assignment")),
            w')).
Proof.
  intros Hu Hrole w'. subst w'. split; [|split].
  - intros clock req request Hnew Hname.
    rewrite createAssignment_controller, Hnew.
    assert (Hreq : CreateAssignmentRequest.username request = name).
    { unfold new_CreateAssignmentRequest in Hnew.
      destruct (falsy_text (CreateAssignmentBody.title req)); [discriminate Hnew|].
      destruct (falsy (CreateAssignmentBody.dueDate req)); [discriminate Hnew|].
      destruct (CreateAssignmentBody.file req); [|discriminate Hnew].
      injection Hnew as <-. exact Hname. }
    rewrite <- Hreq in Hu. rewrite (createAssignment_not_tutor env _ Hu Hrole).
    reflexivity.
  - intros id body file. rewrite updateAssignment_controller.
    rewrite (@updateAssignment_not_tutor env w u id
               (UpdateData.mk (UpdateBody.title body) (UpdateBody.description body)
                  (UpdateBody.dueDate body) (UpdateBody.publishedAt body) Js.undefined
                  file name) Hu Hrole).
    reflexivity.
  - intros id. rewrite deleteAssignment_controller.
    rewrite (deleteAssignment_not_tutor env id Hu Hrole). reflexivity.
Qed.

Lemma create_handler_answers_500_where_others_answer_403_witness :
  AssignmentsController.createAssignment Scenario.env_ok 0
    (CreateAssignmentBody.mk (Js.value "HW3") Js.undefined Js.undefined
       (Js.value (minutes 300)) (Some Scenario.hw1_pdf) Js.undefined "sam")
    Scenario.w_hw1
  = (Ok (Response.mk 500
           (Response.Failure (HttpError 403 "Only TUTORS can create assignments")
              "Error creating assignment")),
     with_trace Scenario.w_hw1 [ConsoleError EmptyString]).
Proof.
  refine (proj1 (@create_handler_answers_500_where_others_answer_403 Scenario.env_ok
                   Scenario.w_hw1 Scenario.sam "sam" eq_refl _) 0
            (CreateAssignmentBody.mk (Js.value "HW3") Js.undefined Js.undefined
               (Js.value (minutes 300)) (Some Scenario.hw1_pdf) Js.undefined "sam")
            (CreateAssignmentRequest.mk "HW3" None 0 (minutes 300) Scenario.hw1_pdf None
               "sam")
            eq_refl eq_refl).
  vm_compute. discriminate.
Defined.

(** *** The file of an assignment under updates *)

Lemma set_column_keeps_url (col : Column) (v : SqlValue) (a a' : Assignment.t) :
  col <> col_s3_url ->
  set_column col v a = Ok a' -> Assignment.s3Url a' = Assignment.s3Url a.
Proof.
  intros Hcol. destruct a as [id tutor title description published deadline url c u].
  destruct col, v; cbn; intros E; try discriminate E; try (injection E as <-; reflexivity).
  - destruct (255 <? Z.of_nat (String.length s)); [discriminate E|].
    injection E as <-. reflexivity.
  - contradiction Hcol; reflexivity.
  - contradiction Hcol; reflexivity.
Qed.

Lemma set_columns_keeps_url (sets : list (Column * SqlValue)) :
  Forall (fun cv => fst cv <> col_s3_url) sets ->
  forall a a', set_columns sets a = Ok a' -> Assignment.s3Url a' = Assignment.s3Url a.
Proof.
  induction 1 as [|[col v] sets Hcol _ IH]; cbn; intros a a' E.
  - injection E as <-. reflexivity.
  - destruct (set_column col v a) as [a1|e] eqn:E1; [|discriminate E].
    rewrite (IH _ _ E). eapply set_column_keeps_url; [exact Hcol | exact E1].
Qed.

Lemma update_rows_keeps_url (sets : list (Column * SqlValue)) (aid : Z) :
  Forall (fun cv => fst cv <> col_s3_url) sets ->
  forall rows rows' hit,
    update_rows sets aid rows = Ok (rows', hit) ->
    map Assignment.s3Url rows' = map Assignment.s3Url rows.
Proof.
  intros Hsets. induction rows as [|a rows IH]; cbn; intros rows' hit H.
  - injection H as <- _. reflexivity.
  - destruct (update_rows sets aid rows) as [[rest' hit']|e]; [|discriminate H].
    destruct (Assignment.id a =? aid).
    + destruct (set_columns sets a) as [a'|e] eqn:E; [|discriminate H].
      injection H as <- _. cbn.
      rewrite (set_columns_keeps_url Hsets _ E), (IH _ _ eq_refl). reflexivity.
    + injection H as <- _. cbn. rewrite (IH _ _ eq_refl). reflexivity.
Qed.

Lemma update_fields_without_url (d : UpdateData.t) :
  UpdateData.fileUrl d = Js.undefined ->
  Forall (fun cv => fst cv <> col_s3_url) (update_fields d).
Proof.
  intros Hurl. unfold update_fields. rewrite Hurl. cbn [is_defined].
  destruct (is_defined (UpdateData.title d)), (is_defined (UpdateData.description d)),
    (is_defined (UpdateData.dueDate d)), (is_defined (UpdateData.publishedAt d));
    cbn; repeat constructor; cbn; discriminate.
Qed.

Lemma dao_updateAssignment_bucket (aid : Z) (d : UpdateData.t) (w : World)
  (res : Result (option Assignment.t)) (w' : World) :
  AssignmentDAO.updateAssignment aid d w = (res, w') ->
  bucket w' = bucket w
  /\ (UpdateData.fileUrl d = Js.undefined ->
      map Assignment.s3Url (tblm_assignments (committed w'))
      = map Assignment.s3Url (tblm_assignments (committed w))).
Proof.
  unfold AssignmentDAO.updateAssignment, try_catch.
  destruct (List.length (update_fields d) =? 0)%nat; cbn; [finish_frame; eauto|].
  unfold bind, query, sql_update_assignment; cbn.
  destruct (update_rows _ _ _) as [[rows' hit]|e] eqn:E; cbn; [|finish_frame; eauto].
  intros H. injection H as _ <-. cbn. split; [reflexivity|].
  intros Hurl. eapply update_rows_keeps_url; [|exact E].
  apply update_fields_without_url, Hurl.
Qed.

Lemma updateAssignment_without_file (env : Env) (aid : Z) (d : UpdateData.t) (w : World)
  (res : Result (option Assignment.t)) (w' : World) :
  UpdateData.file d = None ->
  UpdateData.fileUrl d = Js.undefined ->
  AssignmentService.updateAssignment env aid d w = (res, w') ->
  bucket w' = bucket w
  /\ map Assignment.s3Url (tblm_assignments (committed w'))
     = map Assignment.s3Url (tblm_assignments (committed w)).
Proof.
  intros Hfile Hurl.
  unfold AssignmentService.updateAssignment. rewrite try_catch_rethrow.
  unfold bind at 1. rewrite getUserByUsername_spec.
  destruct (filter _ (tblm_users (committed w))) as [|u us]; [finish_frame; eauto|].
  destruct (User.roleId u =? Roles.TUTOR); cbn [negb]; [|finish_frame; eauto].
  unfold bind at 1. rewrite getAssignmentById_spec.
  destruct (filter (fun a => Assignment.id a =? _) _) as [|a rest];
    [destruct (int4 _); (finish_frame; eauto)|].
  destruct (Assignment.tutorId a =? User.id u); cbn [negb]; [|finish_frame; eauto].
  rewrite Hfile. unfold bind at 1, ret. intros H.
  apply dao_updateAssignment_bucket in H. destruct H as [Hb Hs]. auto.
Qed.

(** X16: a PATCH never touches the file. Whatever the body of the request
    and whoever sends it, the handler behind PATCH /assignments/:id
    leaves the bucket and the file URL of every assignment as they were:
    no upload middleware runs on that route and the handler passes on no
    file URL from the body, so the file of an assignment cannot be
    replaced over HTTP. *)
Theorem patch_never_changes_the_file
  (env : Env) (id : Z) (body : UpdateBody.t) (name : string) (w : World) :
  let r := AssignmentsRoute.patch env id body name w in
  (exists response, fst r = Ok response)
  /\ bucket (snd r) = bucket w
  /\ map Assignment.s3Url (tblm_assignments (committed (snd r)))
     = map Assignment.s3Url (tblm_assignments (committed w)).
Proof.
  intros r. subst r. unfold AssignmentsRoute.patch.
  rewrite updateAssignment_controller.
  destruct (AssignmentService.updateAssignment env id _ w) as [res w'] eqn:E.
  apply updateAssignment_without_file in E; [|reflexivity|reflexivity].
  destruct E as [Hb Hs]. unfold answer.
  destruct res as [a|e]; cbn [fst snd with_trace bucket committed];
    (split; [eexists; reflexivity|]); split; assumption.
Qed.

(** X17: replacing the file leaves the old one behind. When the owner
    updates an assignment with a new file and the upload goes through,
    the bucket afterwards is the old bucket with the new object put in:
    no DeleteObject command is issued for the object the row pointed to
    before, and the new object stays even when the UPDATE statement then
    fails. *)
Theorem updateAssignment_leaves_old_object
  (env : Env) (w : World) (u : User.t) (aid : Z) (a : Assignment.t) (d : UpdateData.t)
  (f : File.t) :
  resolves w (UpdateData.username d) u ->
  User.roleId u = Roles.TUTOR ->
  loads w aid a ->
  Assignment.tutorId a = User.id u ->
  UpdateData.file d = Some f ->
  s3_fails env = false ->
  let r := AssignmentService.updateAssignment env aid d w in
  bucket (snd r)
  = S3.without_key (uniqueKey env f) (bucket w)
    ++ [S3Object.mk (uniqueKey env f) (File.buffer f) (File.mimetype f)]
  /\ (forall o, In o (bucket w) -> S3Object.Key o <> uniqueKey env f ->
                In o (bucket (snd r)))
  /\ (forall key, ~ In (S3Delete key) (trace w) -> ~ In (S3Delete key) (trace (snd r))).
Proof.
  intros Hu Hrole Ha Hown Hf Hs3 r. subst r.
  rewrite (updateAssignment_owner env d Hu Hrole Ha Hown), Hf, Hs3.
  destruct (AssignmentDAO.updateAssignment aid
              (with_fileUrl d (S3.url env (uniqueKey env f))) (uploaded env f w))
    as [res w'] eqn:E.
  pose proof E as Hb. apply dao_updateAssignment_bucket in Hb. destruct Hb as [Hb _].
  cbn [snd]. rewrite Hb. split; [reflexivity|]. split.
  - intros o Ho Hk. apply in_uploaded_old; assumption.
  - intros key Hno Hin. apply Hno. clear Hno Hb.
    revert E Hin. unfold AssignmentDAO.updateAssignment, try_catch.
    destruct (List.length (update_fields _) =? 0)%nat; cbn.
    + intros E; injection E as _ <-; cbn. rewrite !in_app_iff; cbn.
      intros [[H | [H | []]] | [H | []]]; try discriminate H. exact H.
    + unfold bind, query, sql_update_assignment; cbn.
      destruct (update_rows _ _ _) as [[rows' hit]|e]; cbn;
        intros E; injection E as _ <-; cbn; rewrite !in_app_iff; cbn.
      * intros [H | [H | []]]; [exact H | discriminate H].
      * intros [[H | [H | []]] | [H | []]]; try discriminate H. exact H.
Qed.

Lemma updateAssignment_leaves_old_object_witness :
  let f := File.mk "hw1-v2.pdf" "%PDF2" "application/pdf" in
  let d := UpdateData.mk Js.undefined Js.undefined Js.undefined Js.undefined Js.undefined
             (Some f) "tina" in
  In (S3Object.mk "c0ffee-hw1.pdf" "%PDF" "application/pdf")
    (bucket (snd (AssignmentService.updateAssignment Scenario.env_ok 1 d Scenario.w_hw1))).
Proof.
  intros f d.
  destruct (@updateAssignment_leaves_old_object Scenario.env_ok Scenario.w_hw1 Scenario.tina
              1
              (Assignment.mk 1 1 "HW1" None 0 (minutes 120)
                 (Some "https://classroom-files.s3.ap-south-1.amazonaws.com/c0ffee-hw1.pdf")
                 60000 60000)
              d f eq_refl eq_refl eq_refl eq_refl eq_refl eq_refl)
    as (_ & Hkept & _).
  apply Hkept; [left; reflexivity|]. vm_compute. discriminate.
Defined.





(** *** Tokens *)

Lemma split_from_word (sep : ascii) (word rest acc : string) :
  (forall c, sep = c -> no_space (String c EmptyString) = false) ->
  no_space word = true ->
  split_from sep acc (word ++ rest) = split_from sep (acc ++ word) rest.
Proof.
  intros Hsep. revert acc. induction word as [|c word IH]; intros acc Hw; cbn in *.
  - rewrite string_app_nil_r. reflexivity.
  - apply andb_true_iff in Hw. destruct Hw as [Hc Hw].
    destruct (Ascii.eqb c sep) eqn:E.
    + apply Ascii.eqb_eq in E. specialize (Hsep c (eq_sym E)). cbn in Hsep.
      rewrite andb_true_r in Hsep. rewrite Hsep in Hc. discriminate Hc.
    + rewrite IH by exact Hw. rewrite string_app_assoc. reflexivity.
Qed.

Lemma second_word (word rest : string) :
  no_space word = true ->
  nth_error (split " "%char ("Bearer " ++ word ++ rest)) 1
  = match rest with
    | EmptyString => Some word
    | String c _ => if Ascii.eqb c " "%char then Some word else
                      nth_error (split " "%char ("Bearer " ++ word ++ rest)) 1
    end.
Proof.
  intros Hw. destruct rest as [|c rest]; [|destruct (Ascii.eqb c " "%char) eqn:E];
    try reflexivity.
  - unfold split. cbn. rewrite split_from_word; [reflexivity | | exact Hw].
    intros c <-. reflexivity.
  - apply Ascii.eqb_eq in E. subst c. unfold split. cbn.
    rewrite split_from_word; [reflexivity | | exact Hw].
    intros c <-. reflexivity.
Qed.

Lemma AuthCheck_token (jwt_verify : string -> option Payload.t) (token : string) :
  no_space token = true ->
  AuthCheck jwt_verify (Some ("Bearer " ++ token)%string)
  = match jwt_verify token with
    | Some payload => Next (Payload.username payload)
    | None => Reply 403 "messages" "Not Authorized"
    end
  /\ forall rest,
       AuthCheck jwt_verify (Some ("Bearer " ++ token ++ " " ++ rest)%string)
       = AuthCheck jwt_verify (Some ("Bearer " ++ token)%string).
Proof.
  intros Hw.
  assert (Hone : AuthCheck jwt_verify (Some ("Bearer " ++ token)%string)
                 = match jwt_verify token with
                   | Some payload => Next (Payload.username payload)
                   | None => Reply 403 "messages" "Not Authorized"
                   end).
  { unfold AuthCheck, ValidateSignature.
    replace ("Bearer " ++ token)%string with ("Bearer " ++ token ++ EmptyString)%string
      by (rewrite string_app_nil_r; reflexivity).
    rewrite (@second_word token EmptyString Hw).
    replace (truthy (Some ("Bearer " ++ token ++ EmptyString)%string)) with true
      by reflexivity.
    replace (String.prefix "Bearer " ("Bearer " ++ token ++ EmptyString)) with true.
    2:{ cbn. destruct (token ++ EmptyString)%string; reflexivity. }
    cbn [negb orb]. destruct (jwt_verify token); reflexivity. }
  split; [exact Hone|].
  intros rest. rewrite Hone. unfold AuthCheck, ValidateSignature.
  rewrite (@second_word token (" " ++ rest)%string Hw).
  cbn. destruct (jwt_verify token); destruct (token ++ String " " rest)%string;
    reflexivity.
Qed.

(** X19: what the middleware reads of the header. A header that does not
    begin with the word Bearer and a space is answered 401 without the
    token being looked at. Otherwise the token is the text between the
    first space and the next one: when it verifies, the request goes on
    under the username of its payload, when it does not, the answer is
    403; whatever follows a second space is ignored. *)
Theorem AuthCheck_reads_the_second_word
  (jwt_verify : string -> option Payload.t) (token : string) :
  no_space token = true ->
  AuthCheck jwt_verify (Some ("Bearer " ++ token)%string)
  = match jwt_verify token with
    | Some payload => Next (Payload.username payload)
    | None => Reply 403 "messages" "Not Authorized"
    end
  /\ (forall rest,
        AuthCheck jwt_verify (Some ("Bearer " ++ token ++ " " ++ rest)%string)
        = AuthCheck jwt_verify (Some ("Bearer " ++ token)%string))
  /\ (forall header,
        String.prefix "Bearer " header = false ->
        AuthCheck jwt_verify (Some header)
        = Reply 401 "message" "Authorization header is missing or invalid")
  /\ AuthCheck jwt_verify None
     = Reply 401 "message" "Authorization header is missing or invalid".
Proof.
  intros Hw. destruct (@AuthCheck_token jwt_verify token Hw) as [Hone Hrest].
  split; [exact Hone|]. split; [exact Hrest|]. split.
  - intros header Hp. unfold AuthCheck. rewrite Hp. cbn [negb].
    rewrite orb_true_r. reflexivity.
  - reflexivity.
Qed.

Lemma AuthCheck_reads_the_second_word_witness :
  AuthCheck (fun token => if String.eqb token "t0k3n" then Some (Payload.mk "tina") else None)
    (Some "Bearer t0k3n trailing words")
  = AuthCheck (fun token => if String.eqb token "t0k3n" then Some (Payload.mk "tina") else None)
      (Some "Bearer t0k3n").
Proof.
  exact (proj1 (proj2 (@AuthCheck_reads_the_second_word
                         (fun token => if String.eqb token "t0k3n"
                                       then Some (Payload.mk "tina") else None)
                         "t0k3n" eq_refl))
           "trailing words").
Defined.

(** X20: from login to an authenticated request. A login with a username
    and a password that are not empty is answered 200 whatever the two
    are: neither the users table nor the password is consulted. When
    jsonwebtoken signs, the token is that of the payload with this
    username, and a request that presents it as Bearer token (the token
    verifying to its payload and holding no space) goes on under this
    username. When signing throws, the answer is still 200 and carries
    the error that GenerateSignature returned in place of a token. *)
Theorem login_then_authenticated
  (jwt_sign : Payload.t -> option string) (jwt_verify : string -> option Payload.t)
  (c : ascii) (name : string) (p : ascii) (password : string) :
  let username := String c name in
  let answer := LoginUser jwt_sign (Js.value username) (Js.value (String p password)) in
  Response.status answer = 200
  /\ (forall token,
        jwt_sign (Payload.mk username) = Some token ->
        answer = Response.mk 200 (Response.Payload None (Token token))
        /\ (jwt_verify token = Some (Payload.mk username) ->
            no_space token = true ->
            AuthCheck jwt_verify (Some ("Bearer " ++ token)%string) = Next username))
  /\ (jwt_sign (Payload.mk username) = None ->
      answer = Response.mk 200 (Response.Payload None ReturnedError)).
Proof.
  intros username answer. subst answer.
  unfold LoginUser, loginUser, GenerateSignature. cbn [falsy_text].
  split; [reflexivity|]. split.
  - intros token Hs. fold username. rewrite Hs. split; [reflexivity|].
    intros Hv Hw.
    rewrite (proj1 (@AuthCheck_token jwt_verify token Hw)), Hv. reflexivity.
  - intros Hs. fold username. rewrite Hs. reflexivity.
Qed.

(** *** Property names *)

Lemma upper_not_lower (d : ascii) :
  ObjectMapper.is_lower d = true ->
  ObjectMapper.is_lower (ObjectMapper.toUpperCase d) = false.
Proof.
  unfold ObjectMapper.is_lower, ObjectMapper.toUpperCase. intros H.
  apply andb_true_iff in H. destruct H as [H1 H2].
  apply Nat.leb_le in H1. apply Nat.leb_le in H2.
  rewrite nat_ascii_embedding by lia.
  apply andb_false_iff. left. apply Nat.leb_gt. lia.
Qed.

Lemma upper_not_underscore (d : ascii) :
  ObjectMapper.is_lower d = true ->
  Ascii.eqb (ObjectMapper.toUpperCase d) "_"%char = false.
Proof.
  unfold ObjectMapper.is_lower, ObjectMapper.toUpperCase. intros H.
  apply andb_true_iff in H. destruct H as [H1 H2].
  apply Nat.leb_le in H1. apply Nat.leb_le in H2.
  apply Ascii.eqb_neq. intros E. apply (f_equal nat_of_ascii) in E.
  rewrite nat_ascii_embedding in E by lia. cbn in E. lia.
Qed.

Lemma camelKey_step (c d : ascii) (rest : string) :
  ObjectMapper.camelKey (String c (String d rest))
  = if Ascii.eqb c "_"%char && ObjectMapper.is_lower d
    then String (ObjectMapper.toUpperCase d) (ObjectMapper.camelKey rest)
    else String c (ObjectMapper.camelKey (String d rest)).
Proof. reflexivity. Qed.

Lemma has_snake_step (c : ascii) (tail : string) :
  ObjectMapper.has_snake (String c tail)
  = (Ascii.eqb c "_"%char && head_lower tail) || ObjectMapper.has_snake tail.
Proof. destruct tail; reflexivity. Qed.

Lemma camelKey_head (s : string) :
  head_lower (ObjectMapper.camelKey s) = true -> head_lower s = true.
Proof.
  destruct s as [|c [|d rest]]; try (intros H; exact H).
  rewrite camelKey_step.
  destruct (Ascii.eqb c "_"%char && ObjectMapper.is_lower d) eqn:E; [|intros H; exact H].
  apply andb_true_iff in E. destruct E as [_ E]. cbn [head_lower].
  rewrite (upper_not_lower _ E). intros H; discriminate H.
Qed.

Lemma camelKey_no_snake (n : nat) :
  forall s, (String.length s <= n)%nat ->
            ObjectMapper.has_snake (ObjectMapper.camelKey s) = false.
Proof.
  induction n as [|n IH]; intros s Hn.
  - destruct s; [reflexivity | cbn in Hn; lia].
  - destruct s as [|c [|d rest]]; [reflexivity | |].
    + cbn. rewrite andb_false_r. reflexivity.
    + rewrite camelKey_step.
      destruct (Ascii.eqb c "_"%char && ObjectMapper.is_lower d) eqn:E.
      * apply andb_true_iff in E. destruct E as [_ E].
        rewrite has_snake_step, (upper_not_underscore _ E). cbn [andb orb].
        apply IH. cbn in Hn. lia.
      * rewrite has_snake_step, (IH (String d rest)) by (cbn in Hn |- *; lia).
        rewrite orb_false_r.
        destruct (Ascii.eqb c "_"%char); [|reflexivity]. cbn [andb] in *.
        destruct (head_lower (ObjectMapper.camelKey (String d rest))) eqn:Hh;
          [|reflexivity].
        apply camelKey_head in Hh. cbn in Hh. congruence.
Qed.

Lemma camelKey_fixes (s : string) :
  ObjectMapper.has_snake s = false -> ObjectMapper.camelKey s = s.
Proof.
  induction s as [|c tail IH]; [reflexivity|].
  rewrite has_snake_step. intros H. apply orb_false_iff in H. destruct H as [H1 H2].
  destruct tail as [|d rest]; [reflexivity|].
  rewrite camelKey_step. cbn [head_lower] in H1. rewrite H1, (IH H2). reflexivity.
Qed.

(** X21: the conversion of a property name. snakeToCamel rewrites a name
    by turning each underscore that is followed by a letter of a-z,
    together with that letter, into the capital letter. The names it
    leaves as they are are exactly those without such a pair; a
    converted name holds no such pair, so converting twice is converting
    once. *)
Theorem camelKey_idempotent (key : string) :
  ObjectMapper.has_snake (ObjectMapper.camelKey key) = false
  /\ ObjectMapper.camelKey (ObjectMapper.camelKey key) = ObjectMapper.camelKey key
  /\ (ObjectMapper.camelKey key = key <-> ObjectMapper.has_snake key = false).
Proof.
  assert (H : ObjectMapper.has_snake (ObjectMapper.camelKey key) = false)
    by (apply (camelKey_no_snake (n := String.length key)); lia).
  split; [exact H|]. split; [apply camelKey_fixes, H|]. split.
  - intros E. rewrite <- E. exact H.
  - apply camelKey_fixes.
Qed.

Lemma assign_new {V} (acc : ObjectMapper.Obj V) (k : string) (v : V) :
  existsb (String.eqb k) (map fst acc) = false ->
  ObjectMapper.assign acc k v = acc ++ [(k, v)].
Proof.
  induction acc as [|[k' v'] acc IH]; cbn; [reflexivity|].
  intros H. apply orb_false_iff in H. destruct H as [H1 H2].
  rewrite String.eqb_sym, H1, IH by exact H2. reflexivity.
Qed.

Lemma snakeToCamel_from {V} (obj : ObjectMapper.Obj V) :
  forall acc,
    distinct String.eqb (map fst acc ++ map ObjectMapper.camelKey (map fst obj)) = true ->
    fold_left (fun a kv => ObjectMapper.assign a (ObjectMapper.camelKey (fst kv)) (snd kv))
      obj acc
    = acc ++ renamed obj.
Proof.
  induction obj as [|[k v] obj IH]; intros acc H; cbn.
  - rewrite app_nil_r. reflexivity.
  - assert (Hk : existsb (String.eqb (ObjectMapper.camelKey k)) (map fst acc) = false).
    { clear IH. induction acc as [|[k' v'] acc IHa]; [reflexivity|].
      cbn in H |- *. apply andb_true_iff in H. destruct H as [H1 H2].
      rewrite (IHa H2), orb_false_r.
      apply negb_true_iff in H1. rewrite existsb_app in H1.
      apply orb_false_iff in H1. destruct H1 as [_ H1]. cbn in H1.
      apply orb_false_iff in H1. destruct H1 as [H1 _].
      rewrite String.eqb_sym. exact H1. }
    rewrite assign_new by exact Hk. rewrite IH.
    + rewrite <- app_assoc. reflexivity.
    + rewrite map_app, <- app_assoc. exact H.
Qed.

Lemma get_renamed {V} (obj : ObjectMapper.Obj V) (k : string) :
  distinct String.eqb (map ObjectMapper.camelKey (map fst obj)) = true ->
  In k (map fst obj) ->
  ObjectMapper.get (renamed obj) (ObjectMapper.camelKey k) = ObjectMapper.get obj k.
Proof.
  induction obj as [|[k' v'] obj IH]; intros Hd Hin; [destruct Hin|].
  cbn in Hd. apply andb_true_iff in Hd. destruct Hd as [Hd1 Hd2].
  apply negb_true_iff in Hd1. cbn.
  destruct (String.eqb k' k) eqn:E.
  - apply String.eqb_eq in E. subst k'. rewrite String.eqb_refl. reflexivity.
  - destruct Hin as [Hin | Hin]; [cbn in Hin; subst k'; rewrite String.eqb_refl in E;
                                   discriminate E|].
    assert (Hne : String.eqb (ObjectMapper.camelKey k') (ObjectMapper.camelKey k) = false).
    { apply (existsb_false_forall _ _ Hd1). apply in_map. exact Hin. }
    rewrite Hne. apply IH; assumption.
Qed.

(** X22: the conversion of a row. For a row no two of whose column names
    become the same property name, snakeToCamel gives the same values in
    the same order, each under its converted name, so that reading the
    converted name from the result gives what the column held. When two
    names do become the same, one property is left and it holds the value
    of the later column. *)
Theorem snakeToCamel_keeps_values {V} (obj : ObjectMapper.Obj V) :
  distinct String.eqb (map ObjectMapper.camelKey (map fst obj)) = true ->
  ObjectMapper.snakeToCamel obj = renamed obj
  /\ (forall k, In k (map fst obj) ->
                ObjectMapper.get (ObjectMapper.snakeToCamel obj) (ObjectMapper.camelKey k)
                = ObjectMapper.get obj k)
  /\ (forall k1 k2 (v1 v2 : V),
         ObjectMapper.camelKey k1 = ObjectMapper.camelKey k2 ->
         ObjectMapper.snakeToCamel [(k1, v1); (k2, v2)]
         = [(ObjectMapper.camelKey k1, v2)]).
Proof.
  intros Hd.
  assert (E : ObjectMapper.snakeToCamel obj = renamed obj)
    by (unfold ObjectMapper.snakeToCamel; rewrite snakeToCamel_from; [reflexivity | exact Hd]).
  split; [exact E|]. split.
  - intros k Hk. rewrite E. apply get_renamed; assumption.
  - intros k1 k2 v1 v2 Hk. unfold ObjectMapper.snakeToCamel. cbn.
    rewrite Hk, String.eqb_refl. reflexivity.
Qed.

Lemma snakeToCamel_keeps_values_witness :
  ObjectMapper.snakeToCamel
    [("id", 7); ("assignment_id", 1); ("student_id", 2); ("s3_url", 0); ("submitted_at", 9)]
  = [("id", 7); ("assignmentId", 1); ("studentId", 2); ("s3Url", 0); ("submittedAt", 9)].
Proof.
  exact (proj1 (@snakeToCamel_keeps_values Z
                  [("id", 7); ("assignment_id", 1); ("student_id", 2); ("s3_url", 0);
                   ("submitted_at", 9)]
                  eq_refl)).
Defined.

(** *** Ticks of the scheduler *)

Lemma due_soon_window (env : Env) (t : Tables) (sa : StudentAssignment.t)
  (a : Assignment.t) :
  assignment_of t sa = Some a ->
  due_soon env t sa = true ->
  now env + minutes 59 <= Assignment.deadline a <= now env + minutes 60.
Proof.
  unfold due_soon, in_window. intros ->. intros H.
  apply andb_true_iff in H. destruct H as [H _].
  apply andb_true_iff in H. destruct H as [H1 H2].
  apply Z.leb_le in H1. apply Z.leb_le in H2. split; assumption.
Qed.

(** X23: the window of a tick is one minute wide. The job runs once per
    tick and reminds a pending row when the deadline lies between 59 and
    60 minutes after the clock reading of the tick. So a row is reminded
    on two ticks only if they are at most a minute apart and the deadline
    lies in both windows (for ticks exactly a minute apart: only when the
    deadline is 60 minutes after the first); and when two successive
    ticks are more than a minute apart, a deadline that falls between
    their windows is reminded by neither, nor by any tick before the
    first or after the second. *)
Theorem reminder_windows
  (env1 env2 : Env) (t : Tables) (sa : StudentAssignment.t) (a : Assignment.t) :
  assignment_of t sa = Some a ->
  now env1 <= now env2 ->
  (due_soon env1 t sa = true -> due_soon env2 t sa = true ->
   now env2 - now env1 <= minutes 1
   /\ now env2 + minutes 59 <= Assignment.deadline a <= now env1 + minutes 60
   /\ (now env2 - now env1 = minutes 1 ->
       Assignment.deadline a = now env1 + minutes 60))
  /\ (now env1 + minutes 60 < Assignment.deadline a < now env2 + minutes 59 ->
      forall env, now env <= now env1 \/ now env2 <= now env ->
                  due_soon env t sa = false).
Proof.
  intros Ha Hle. split.
  - intros H1 H2.
    apply (due_soon_window _ _ _ Ha) in H1. apply (due_soon_window _ _ _ Ha) in H2.
    unfold minutes in *. lia.
  - intros Hgap env Hout.
    destruct (due_soon env t sa) eqn:E; [|reflexivity].
    apply (due_soon_window _ _ _ Ha) in E. unfold minutes in *. lia.
Qed.

Lemma reminder_windows_witness :
  due_soon
    (mkEnv (minutes 62) "c0ffee" "classroom-files" "ap-south-1" "noreply@classroom.test"
       (fun _ => "soon") false (fun _ => false) (fun _ => false))
    (committed Scenario.w_hw1) (StudentAssignment.mk 1 1 2 SubmissionStatus.PENDING)
  = false.
Proof.
  refine (proj2 (@reminder_windows
                   (mkEnv (minutes 59) "c0ffee" "classroom-files" "ap-south-1"
                      "noreply@classroom.test" (fun _ => "soon") false (fun _ => false)
                      (fun _ => false))
                   (mkEnv (minutes 62) "c0ffee" "classroom-files" "ap-south-1"
                      "noreply@classroom.test" (fun _ => "soon") false (fun _ => false)
                      (fun _ => false))
                   (committed Scenario.w_hw1)
                   (StudentAssignment.mk 1 1 2 SubmissionStatus.PENDING)
                   (Assignment.mk 1 1 "HW1" None 0 (minutes 120)
                      (Some "https://classroom-files.s3.ap-south-1.amazonaws.com/c0ffee-hw1.pdf")
                      60000 60000)
                   eq_refl _) _ _ _).
  - vm_compute. discriminate.
  - vm_compute. split; reflexivity.
  - right. vm_compute. discriminate.
Defined.

(** *** More on submissions and mappings *)

Lemma insert_submission_row (env : Env) (aid sid : Z) (url : string)
  (sq sq1 : Sequences) (t t1 : Tables) (row : Submission.t) :
  sql_insert_submission env aid sid url sq t = (Ok (row, t1), sq1) ->
  row = Submission.mk (tblm_submissions_id_seq sq) aid sid url (now env).
Proof.
  unfold sql_insert_submission.
  destruct (existsb _ (tblm_submissions t) || existsb _ (tblm_submissions t));
    [intros E; discriminate E|].
  destruct (negb (has_assignment t aid && has_user t sid)); [intros E; discriminate E|].
  intros E. injection E as <- _ _. reflexivity.
Qed.

(** X24: what addSubmission returns is what it stored. An addSubmission
    that succeeds returns the Submission row it inserted: its id is the
    next value of the sequence, it names the assignment and the
    requesting student, its URL is that of the uploaded file and its
    time that of the insert. The row is in the table, the uploaded
    object is in the bucket, and the mapping row of the pair is marked
    SUBMITTED. *)
Theorem addSubmission_stores_what_it_returns
  (env : Env) (d : SubmissionData.t) (w w' : World) (row : Submission.t) :
  txn w = None ->
  SubmissionsService.addSubmission env d w = (Ok row, w') ->
  exists u f,
    resolves w (SubmissionData.studentUsername d) u
    /\ User.roleId u = Roles.STUDENT
    /\ SubmissionData.file d = Some f
    /\ row = Submission.mk (tblm_submissions_id_seq (seqs w))
               (SubmissionData.assignmentId d) (User.id u)
               (S3.url env (uniqueKey env f)) (now env)
    /\ tblm_submissions (committed w') = tblm_submissions (committed w) ++ [row]
    /\ In (S3Object.mk (uniqueKey env f) (File.buffer f) (File.mimetype f)) (bucket w')
    /\ marked_submitted (committed w') (SubmissionData.assignmentId d) (User.id u) = true.
Proof.
  intros Htxn E.
  destruct (@addSubmission_cases env d w (Ok row) w' Htxn E)
    as [((e & He) & _)
       | (u & f & Hu & Hrole & Hsa & Hf & [(_ & He & _) | (_ & Hb & _ & Hcase)])];
    try discriminate He.
  destruct Hcase as [((e & He) & _) | (row0 & t1 & sq1 & Hres & Hins & Hc)];
    [discriminate He|].
  injection Hres as <-. exists u, f.
  pose proof (insert_submission_row _ _ _ _ _ _ Hins) as Hrow.
  apply insert_submission_ok in Hins. destruct Hins as (Ht1 & _).
  rewrite Ht1 in Hc. unfold with_student_assignments, with_submissions in Hc.
  cbn in Hc.
  repeat (split; [assumption|]).
  split; [rewrite Hc; reflexivity|].
  split; [rewrite Hb; apply in_uploaded_new|].
  rewrite Hc. unfold marked_submitted, assigned in *. cbn [tblt_student_assignments].
  rewrite existsb_map. apply existsb_exists. apply existsb_exists in Hsa.
  destruct Hsa as (sa & Hin & Hm). exists sa. split; [exact Hin|].
  rewrite Hm. unfold sa_matches in *. cbn. rewrite Hm. reflexivity.
Qed.

Lemma addSubmission_stores_what_it_returns_witness :
  marked_submitted (committed Scenario.w_submitted) 1 2 = true
  /\ In (S3Object.mk "c0ffee-answer.pdf" "%PDF" "application/pdf")
       (bucket Scenario.w_submitted).
Proof.
  assert (Hrun : SubmissionsService.addSubmission Scenario.env_ok
                   (SubmissionData.mk 1 "sam" (Some Scenario.answer_pdf)) Scenario.w_hw1
                 = (Ok (Submission.mk 1 1 2
                          "https://classroom-files.s3.ap-south-1.amazonaws.com/c0ffee-answer.pdf"
                          (minutes 1)),
                    Scenario.w_submitted)) by (vm_compute; reflexivity).
  destruct (@addSubmission_stores_what_it_returns Scenario.env_ok _ Scenario.w_hw1
              Scenario.w_submitted _ eq_refl Hrun)
    as (u & f & Hu & _ & Hf & _ & _ & Hblob & Hmark).
  injection Hu as <-. injection Hf as <-. split; assumption.
Defined.

(** X25: no reminder after the submission. After an addSubmission that
    succeeded, no mapping row of the student for that assignment is due
    on any tick, whatever the clock reads and wherever the deadline
    lies. *)
Theorem submitted_rows_are_not_due
  (env : Env) (d : SubmissionData.t) (w w' : World) (row : Submission.t) :
  txn w = None ->
  SubmissionsService.addSubmission env d w = (Ok row, w') ->
  forall tick sa,
    In sa (tblt_student_assignments (committed w')) ->
    sa_matches (Submission.assignmentId row) (Submission.studentId row) sa = true ->
    due_soon tick (committed w') sa = false.
Proof.
  intros Htxn E tick sa Hin Hm.
  destruct (@addSubmission_cases env d w (Ok row) w' Htxn E)
    as [((e & He) & _)
       | (u & f & Hu & Hrole & Hsa & Hf & [(_ & He & _) | (_ & Hb & _ & Hcase)])];
    try discriminate He.
  destruct Hcase as [((e & He) & _) | (row0 & t1 & sq1 & Hres & Hins & Hc)];
    [discriminate He|].
  injection Hres as <-.
  pose proof (insert_submission_row _ _ _ _ _ _ Hins) as Hrow.
  rewrite Hrow in Hm. cbn [Submission.assignmentId Submission.studentId] in Hm.
  rewrite Hc in Hin. cbn [tblt_student_assignments with_student_assignments] in Hin.
  apply in_map_iff in Hin. destruct Hin as (sa0 & Hsa0 & _).
  assert (Hst : StudentAssignment.statusId sa = SubmissionStatus.SUBMITTED).
  { destruct (sa_matches (SubmissionData.assignmentId d) (User.id u) sa0) eqn:E0.
    - subst sa. reflexivity.
    - subst sa. rewrite Hm in E0. discriminate E0. }
  unfold due_soon. destruct (assignment_of (committed w') sa); [|reflexivity].
  rewrite Hst. apply andb_false_r.
Qed.

Lemma submitted_rows_are_not_due_witness :
  due_soon Scenario.env_tick (committed Scenario.w_submitted)
    (StudentAssignment.mk 1 1 2 SubmissionStatus.SUBMITTED) = false.
Proof.
  assert (Hrun : SubmissionsService.addSubmission Scenario.env_ok
                   (SubmissionData.mk 1 "sam" (Some Scenario.answer_pdf)) Scenario.w_hw1
                 = (Ok (Submission.mk 1 1 2
                          "https://classroom-files.s3.ap-south-1.amazonaws.com/c0ffee-answer.pdf"
                          (minutes 1)),
                    Scenario.w_submitted)) by (vm_compute; reflexivity).
  apply (@submitted_rows_are_not_due Scenario.env_ok _ Scenario.w_hw1
           Scenario.w_submitted _ eq_refl Hrun Scenario.env_tick).
  - left. reflexivity.
  - reflexivity.
Defined.

(** X26: a student who does not exist. A createAssignment whose list of
    students names an id that no user has never succeeds: the foreign
    key of the mapping table refuses the row, the transaction is rolled
    back and the tables are as before, the assignment included; the
    file uploaded for it stays in the bucket. *)
Theorem createAssignment_unknown_student_fails
  (env : Env) (d : CreateAssignmentRequest.t) (w w' : World)
  (res : Result Assignment.t) (sid : Z) :
  txn w = None ->
  schema_ok (committed w) = true ->
  In sid (CreateAssignmentRequest.studentIds d) ->
  has_user (committed w) sid = false ->
  AssignmentService.createAssignment env d w = (res, w') ->
  (exists e, res = Err e)
  /\ committed w' = committed w
  /\ (forall u, resolves w (CreateAssignmentRequest.username d) u ->
                User.roleId u = Roles.TUTOR ->
                s3_fails env = false ->
                In (S3Object.mk (uniqueKey env (CreateAssignmentRequest.file d))
                      (File.buffer (CreateAssignmentRequest.file d))
                      (File.mimetype (CreateAssignmentRequest.file d)))
                  (bucket w')).
Proof.
  intros Htxn Hok Hin Hno E.
  destruct (@createAssignment_cases env d w res w' Htxn E)
    as [(He & Hc & _ & _ & _ & Hnot)
       | (u & Hu & Hrole & [(Hs3 & He & Hw) | (Hs3 & Hb & _ & Hcase)])].
  - split; [exact He|]. split; [exact Hc|].
    intros u Hu Hrole _. destruct (Hnot u Hu Hrole).
  - split; [eexists; exact He|]. split; [rewrite Hw; reflexivity|].
    intros _ _ _ Hs. congruence.
  - destruct Hcase as [(He & Hc) | (a & t1 & sq1 & t2 & Hres & Hins & Hsa & Hc)].
    + split; [exact He|]. split; [exact Hc|].
      intros _ _ _ _. rewrite Hb. apply in_uploaded_new.
    + exfalso.
      pose proof (schema_insert_assignment _ _ _ _ _ _ _ _ _ Hins Hok) as Hok1.
      apply insert_assignment_ok in Hins. destruct Hins as (Ht1 & _).
      destruct Hsa as [(Hnil & _) | (sq2 & Hsa)]; [rewrite Hnil in Hin; destruct Hin|].
      pose proof Hsa as Hok2. eapply schema_insert_student_assignments in Hok2;
        [|exact Hok1].
      pose proof Hsa as Husers. apply insert_student_assignments_users in Husers.
      destruct Husers as (Husers & _).
      apply insert_student_assignments_rows in Hsa. destruct Hsa as (Hrows & _).
      specialize (Hrows sid Hin). apply existsb_exists in Hrows.
      destruct Hrows as (sa & Hsa_in & Hm).
      open_schema Hok2. unfold student_assignments_fk in Hsafk.
      rewrite forallb_forall in Hsafk. specialize (Hsafk sa Hsa_in).
      apply andb_true_iff in Hsafk. destruct Hsafk as [_ Huser].
      unfold sa_matches in Hm. apply andb_true_iff in Hm. destruct Hm as [_ Hm].
      apply Z.eqb_eq in Hm. rewrite Hm in Huser.
      unfold has_user in Huser, Hno. rewrite Husers, Ht1 in Huser. cbn in Huser.
      congruence.
Qed.

Lemma createAssignment_unknown_student_fails_witness :
  let r := AssignmentService.createAssignment Scenario.env_ok Scenario.hw2_bad_request
             Scenario.w_hw1 in
  (exists e, fst r = Err e) /\ committed (snd r) = committed Scenario.w_hw1.
Proof.
  assert (Hok : schema_ok (committed Scenario.w_hw1) = true) by (vm_compute; reflexivity).
  destruct (@createAssignment_unknown_student_fails Scenario.env_ok
              Scenario.hw2_bad_request Scenario.w_hw1
              (snd (AssignmentService.createAssignment Scenario.env_ok
                      Scenario.hw2_bad_request Scenario.w_hw1))
              (fst (AssignmentService.createAssignment Scenario.env_ok
                      Scenario.hw2_bad_request Scenario.w_hw1))
              99 eq_refl Hok)
    as (He & Hc & _).
  - right. left. reflexivity.
  - reflexivity.
  - apply surjective_pairing.
  - split; assumption.
Defined.

(** X27: details of an assignment that does not exist. getAssignmentDetails
    makes no check that the assignment exists or that the student is
    assigned. For an id that no assignment has and that the INT column
    can hold it returns normally, with an empty list for a tutor and with
    no row for a student. For an id outside that range the query is
    refused by the database with 22003; the DAO logs the error, which
    carries no status, and the tables are untouched. *)
Theorem getAssignmentDetails_of_missing_assignment
  (w : World) (u : User.t) (name : string) (aid : Z) :
  schema_ok (committed w) = true ->
  has_assignment (committed w) aid = false ->
  resolves w name u ->
  (User.roleId u = Roles.TUTOR ->
   SubmissionsService.getAssignmentDetails aid name w
   = if int4 aid
     then (Ok (SubmissionsService.ForTutor []), w)
     else (Err (PgError numeric_value_out_of_range),
           with_trace w [ConsoleError "Error fetching submissions for tutor:"]))
  /\ (User.roleId u = Roles.STUDENT ->
      SubmissionsService.getAssignmentDetails aid name w
      = if int4 aid
        then (Ok (SubmissionsService.ForStudent None), w)
        else (Err (PgError numeric_value_out_of_range),
              with_trace w [ConsoleError "Error fetching submission for student:"])).
Proof.
  intros Hok Hno Hu. open_schema Hok.
  assert (Hnone : forall s, In s (tblm_submissions (committed w)) ->
                            (Submission.assignmentId s =? aid) = false).
  { intros s Hs. unfold submissions_fk in Hsubfk. rewrite forallb_forall in Hsubfk.
    specialize (Hsubfk s Hs). apply andb_true_iff in Hsubfk. destruct Hsubfk as [Hx _].
    apply Z.eqb_neq. intros Heq. rewrite Heq in Hx. congruence. }
  split; intros Hrole; unfold SubmissionsService.getAssignmentDetails;
    rewrite (bind_resolved _ Hu), Hrole; cbn [Z.eqb Roles.TUTOR Roles.STUDENT Pos.eqb];
    unfold bind.
  - rewrite getSubmissionsForTutor_spec. rewrite filter_keeps_none.
    + cbn [map]. destruct (int4 aid); reflexivity.
    + intros [s x] Hin. apply in_join in Hin. destruct Hin as (Hs & _). cbn.
      apply Hnone, Hs.
  - rewrite getSubmissionForStudent_spec. rewrite filter_keeps_none.
    + cbn [map]. destruct (int4 aid); reflexivity.
    + intros s Hs. unfold sub_matches. rewrite (Hnone s Hs). reflexivity.
Qed.

Lemma getAssignmentDetails_of_missing_assignment_witness :
  SubmissionsService.getAssignmentDetails 7 "tom" Scenario.w_submitted
  = (Ok (SubmissionsService.ForTutor []), Scenario.w_submitted)
  /\ SubmissionsService.getAssignmentDetails 2147483648 "tom" Scenario.w_submitted
     = (Err (PgError numeric_value_out_of_range),
        with_trace Scenario.w_submitted
          [ConsoleError "Error fetching submissions for tutor:"]).
Proof.
  assert (Hok : schema_ok (committed Scenario.w_submitted) = true)
    by (vm_compute; reflexivity).
  split.
  - exact (proj1 (@getAssignmentDetails_of_missing_assignment Scenario.w_submitted
                    Scenario.tom "tom" 7 Hok eq_refl eq_refl) eq_refl).
  - exact (proj1 (@getAssignmentDetails_of_missing_assignment Scenario.w_submitted
                    Scenario.tom "tom" 2147483648 Hok eq_refl eq_refl) eq_refl).
Defined.

(** *** Calls that go through *)




Lemma insert_student_assignments_succeeds (aid status : Z) (students : list Z) :
  forall (sq : Sequences) (t : Tables),
    has_assignment t aid = true ->
    (forall sid, In sid students -> has_user t sid = true) ->
    (forall sa, In sa (tblt_student_assignments t) ->
                StudentAssignment.id sa < tblt_student_assignments_id_seq sq) ->
    exists t' sq',
      sql_insert_student_assignments aid students status sq t = (Ok (tt, t'), sq').
Proof.
  induction students as [|sid rest IH]; intros sq t Ha Hu Hids; cbn.
  - eexists; eexists; reflexivity.
  - destruct (existsb (sa_matches aid sid) (tblt_student_assignments t)).
    + apply IH; [exact Ha | intros x Hx; apply Hu; right; exact Hx |].
      cbn. intros sa Hsa. specialize (Hids sa Hsa). lia.
    + replace (existsb (fun sa => StudentAssignment.id sa
                                  =? tblt_student_assignments_id_seq sq)
                 (tblt_student_assignments t)) with false.
      2:{ symmetry. apply not_true_is_false. intros Hex. apply existsb_exists in Hex.
          destruct Hex as (sa & Hsa & Heq). apply Z.eqb_eq in Heq.
          specialize (Hids sa Hsa). lia. }
      rewrite Ha, (Hu sid (or_introl eq_refl)). cbn [andb negb].
      apply IH.
      * exact Ha.
      * intros x Hx. apply Hu. right. exact Hx.
      * cbn. intros sa Hsa. apply in_app_iff in Hsa. destruct Hsa as [Hsa | [<- | []]].
        -- specialize (Hids sa Hsa). lia.
        -- cbn. lia.
Qed.

(** X29: a creation that goes through. For a tutor, with a title of at
    most 255 characters, no zero byte in the title, the description and
    the URL of the file, a list of students that is absent or not empty,
    every listed student a user, S3 and the database reachable and the id
    sequences ahead of their tables, createAssignment succeeds and the
    assignment gets the next id of the sequence. No relation between the
    publication date, the due date and the clock is asked for: a due date
    in the past is accepted. *)
Theorem createAssignment_succeeds
  (env : Env) (w : World) (u : User.t) (d : CreateAssignmentRequest.t) :
  resolves w (CreateAssignmentRequest.username d) u ->
  User.roleId u = Roles.TUTOR ->
  Z.of_nat (String.length (CreateAssignmentRequest.title d)) <= 255 ->
  has_nul (CreateAssignmentRequest.title d) = false ->
  opt_has_nul (CreateAssignmentRequest.description d) = false ->
  has_nul (S3.url env (uniqueKey env (CreateAssignmentRequest.file d))) = false ->
  CreateAssignmentRequest.studentIdsProperty d <> Some [] ->
  (forall sid, In sid (CreateAssignmentRequest.studentIds d) ->
               has_user (committed w) sid = true) ->
  has_assignment (committed w) (tblm_assignments_id_seq (seqs w)) = false ->
  (forall sa, In sa (tblt_student_assignments (committed w)) ->
              StudentAssignment.id sa < tblt_student_assignments_id_seq (seqs w)) ->
  s3_fails env = false ->
  (forall st, db_fails env st = false) ->
  exists a,
    fst (AssignmentService.createAssignment env d w) = Ok a
    /\ Assignment.id a = tblm_assignments_id_seq (seqs w)
    /\ Assignment.deadline a = CreateAssignmentRequest.dueDate d.
Proof.
  intros Hu Hrole Htitle Hnt Hnd Hnu Hprop Hstudents Hfresh Hids Hs3 Hdb.
  assert (Hhu : has_user (committed w) (User.id u) = true).
  { destruct (resolves_known Hu) as [Hin _]. unfold has_user.
    apply existsb_exists. exists u. split; [exact Hin | apply Z.eqb_refl]. }
  unfold CreateAssignmentRequest.studentIds in Hstudents.
  unfold AssignmentService.createAssignment. rewrite try_catch_rethrow.
  rewrite (bind_resolved _ Hu), Hrole. cbn [negb Z.eqb Roles.TUTOR Pos.eqb].
  unfold bind at 1. rewrite sendPutObject_spec, Hs3.
  unfold bind at 1, DatabaseTransaction.beginTransaction. rewrite (Hdb StBegin).
  destruct (CreateAssignmentRequest.studentIdsProperty d) as [[|sid0 ids]|] eqn:Hlist;
    [exfalso; apply Hprop; reflexivity| |].
  all: unfold try_catch, bind, AssignmentDAO.saveAssignment,
    AssignmentDAO.saveStudentAssignments, try_catch, client_query,
    DatabaseTransaction.commitTransaction, DatabaseTransaction.rollbackTransaction.
  all: rewrite (Hdb StInsertAssignment), ?(Hdb StInsertStudentAssignments),
    (Hdb StCommit).
  all: unfold query, sql_insert_assignment, sql_insert_student_assignments_values;
    cbn -[S3.url sql_insert_student_assignments has_nul].
  all: rewrite Hnt, Hnd, Hnu; cbn -[S3.url sql_insert_student_assignments has_nul].
  all: replace (255 <? Z.of_nat (String.length (CreateAssignmentRequest.title d)))
    with false by (symmetry; apply Z.ltb_ge; exact Htitle).
  all: rewrite Hfresh, Hhu; cbn -[S3.url sql_insert_student_assignments has_nul].
  2:{ eexists. split; [reflexivity|]. split; reflexivity. }
  match goal with
  | |- context [sql_insert_student_assignments ?aid ?l ?st ?sq ?t] =>
      destruct (@insert_student_assignments_succeeds aid st l sq t) as (t' & sq' & E)
  end.
  - unfold has_assignment; cbn. rewrite existsb_app; cbn.
    rewrite Z.eqb_refl. apply orb_true_r.
  - intros sid Hsid. exact (Hstudents sid Hsid).
  - cbn. exact Hids.
  - rewrite E. cbn. eexists. split; [reflexivity|]. split; reflexivity.
Qed.

Lemma createAssignment_succeeds_witness :
  exists a,
    fst (AssignmentService.createAssignment Scenario.env_tick Scenes.hw2_request
           Scenario.w_hw1) = Ok a
    /\ Assignment.id a = 2
    /\ Assignment.deadline a = minutes 240.
Proof.
  apply (@createAssignment_succeeds Scenario.env_tick Scenario.w_hw1 Scenario.tina
           Scenes.hw2_request); try reflexivity.
  - vm_compute. discriminate.
  - discriminate.
  - intros sid [<- | [<- | [<- | []]]]; reflexivity.
  - intros sa [<- | []]. reflexivity.
Defined.
